(** * aws_network_shell: topology cache, staleness markers and the
      deterministic trace engine

    A shallow embedding of
      - [core/cache.py]            (class [Cache]),
      - [traceroute/staleness.py]  (class [ChangeMarkers], [StalenessChecker]),
      - [traceroute/topology.py]   (class [NetworkTopology], [TopologyDiscovery]),
      - [traceroute/models.py]     (class [Hop], [TraceResult]),
      - [traceroute/engine.py]     (class [AWSTraceroute]),
    followed by the properties of the specification that concern them.

    Conventions.
      - A Python call that may raise returns [result A]; [Raise e] is the
        exception leaving the function.
      - A dict that is only looked up by key is a [gmap string _]; a dict
        whose iteration order is observable ([ChangeMarkers.tgw_count]) is an
        insertion-ordered association list.
      - [Optional[str]] is [option string]; a missing key read through
        [d.get(k)] is [None].
      - The boto3 client is the record [Aws] of responses, one field per API
        call the code issues.
      - Observer callbacks ([on_hop], [on_status]) are fire-and-forget in the
        source and are left out. *)

From Stdlib Require Import ZArith NArith Lia Ascii String.
From stdpp Require Import base option list strings gmap pretty.

Open Scope Z_scope.
Open Scope string_scope.
Open Scope list_scope.

(** ** Python values *)

Definition exn := string.

Inductive result (A : Type) : Type :=
| Ok (a : A)
| Raise (e : exn).
Arguments Ok {A} a.
Arguments Raise {A} e.

Definition rbind {A B} (m : result A) (k : A -> result B) : result B :=
  match m with
  | Ok a => k a
  | Raise e => Raise e
  end.

Notation "'let*' x ':=' m 'in' k" := (rbind m (fun x => k))
  (at level 10, x pattern, m at level 100, k at level 200).

Definition is_raise {A} (m : result A) : Prop :=
  match m with
  | Ok _ => False
  | Raise _ => True
  end.

(** Truth value of an [Optional[str]]: [None] and the empty string are false. *)
Definition truthy (o : option string) : bool :=
  match o with
  | Some s => negb (String.eqb s "")
  | None => false
  end.

(** [str(x)] inside an f-string for an [Optional[str]]. *)
Definition fmt_opt (o : option string) : string :=
  match o with
  | Some s => s
  | None => "None"
  end.

(** [str(n)] for an [int]. *)
Definition fmt_int (n : Z) : string := pretty n.

(** [str(x)] for an [Optional[int]]. *)
Definition fmt_opt_int (o : option Z) : string :=
  match o with
  | Some n => fmt_int n
  | None => "None"
  end.

(** [s.startswith(p)]. *)
Definition startswith (s p : string) : bool := String.prefix p s.

(** [s.endswith(p)]. *)
Definition endswith (s p : string) : bool :=
  String.prefix (String.rev p) (String.rev s).

(** [s.split(sep)[-1]] for a one-character separator. *)
Fixpoint split_last_go (sep : ascii) (s : string) (cur : string) : string :=
  match s with
  | EmptyString => String.rev cur
  | String c s' =>
      if Ascii.eqb c sep then split_last_go sep s' EmptyString
      else split_last_go sep s' (String c cur)
  end.

Definition split_last (sep : ascii) (s : string) : string :=
  split_last_go sep s EmptyString.

(** [next((t["Value"] for t in tags if t["Key"] == "Name"), dflt)]. *)
Fixpoint name_tag (tags : list (string * string)) (dflt : string) : string :=
  match tags with
  | [] => dflt
  | (k, v) :: rest => if String.eqb k "Name" then v else name_tag rest dflt
  end.

(** ** The [ipaddress] standard module

    Addresses and networks are the integers the module keeps; parsing of the
    textual forms belongs to the Python standard library and is an interface
    ([None] is [ValueError]).  [ip_network] is the call
    [ip_network(s, strict=False)]. *)

Inductive ip_version := IPv4 | IPv6.

Definition ip_version_eqb (a b : ip_version) : bool :=
  match a, b with
  | IPv4, IPv4 | IPv6, IPv6 => true
  | _, _ => false
  end.

Record ip_addr := { addr_version : ip_version; addr_ip : N }.

Record ip_net := {
  net_version : ip_version;
  network_address : N;
  prefixlen : N
}.

Definition max_prefixlen (v : ip_version) : N :=
  match v with IPv4 => 32%N | IPv6 => 128%N end.

Definition all_ones (v : ip_version) : N := N.ones (max_prefixlen v).

(** [_ip_int_from_prefix]: [ALL_ONES ^ (ALL_ONES >> prefixlen)]. *)
Definition netmask (n : ip_net) : N :=
  N.lxor (all_ones (net_version n))
         (N.shiftr (all_ones (net_version n)) (prefixlen n)).

(** [_BaseNetwork.__contains__] for an address operand. *)
Definition net_contains (n : ip_net) (a : ip_addr) : bool :=
  if ip_version_eqb (net_version n) (addr_version a)
  then N.eqb (N.land (addr_ip a) (netmask n)) (network_address n)
  else false.

Class IpAddressLib := {
  ip_address : string -> option ip_addr;
  ip_network : string -> option ip_net
}.

(** ** Route tables as the snapshot keeps them *)

Record route := {
  destination : string;
  target : string;
  core_network_arn : option string;
  state : string
}.

(** [{"id", "name", "routes"}], with ["vpc_id"] when discovery built it;
    [rt_name] is what [rt.get("name", "")] reads. *)
Record route_table := {
  rt_id : string;
  rt_name : string;
  routes : list route;
  rt_vpc_id : option string
}.

Section BestRoute.
Context `{!IpAddressLib}.

(** The [for route in routes] loop of [_find_best_route]. *)
Fixpoint find_best_route_loop (dst : ip_addr) (rs : list route)
    (best_match : option route) (best_prefix_len : Z) : option route :=
  match rs with
  | [] => best_match
  | route :: rest =>
      let dest := destination route in
      if String.eqb dest "" || String.eqb (state route) "blackhole"
      then find_best_route_loop dst rest best_match best_prefix_len
      else
        match ip_network dest with
        | None => find_best_route_loop dst rest best_match best_prefix_len
        | Some network =>
            if net_contains network dst
               && (Z.of_N (prefixlen network) >? best_prefix_len)
            then find_best_route_loop dst rest (Some route)
                   (Z.of_N (prefixlen network))
            else find_best_route_loop dst rest best_match best_prefix_len
        end
  end.

Definition _find_best_route (rs : list route) (dst_ip : string)
    : result (option route) :=
  match ip_address dst_ip with
  | None => Raise "ValueError"
  | Some dst => Ok (find_best_route_loop dst rs None (-1))
  end.

(** [r] is a non-blackhole entry whose destination is the CIDR [n], and
    [n] contains [dst]. *)
Definition covers (dst : ip_addr) (r : route) (n : ip_net) : Prop :=
  destination r <> "" /\ state r <> "blackhole" /\
  ip_network (destination r) = Some n /\ net_contains n dst = true.

(** What the loop has established after the entries [pre]. *)
Definition best_so_far (dst : ip_addr) (pre : list route)
    (best : option route) (blen : Z) : Prop :=
  match best with
  | None => blen = -1 /\ forall r n, r ∈ pre -> ~ covers dst r n
  | Some r =>
      exists i n,
        pre !! i = Some r /\ covers dst r n /\ blen = Z.of_N (prefixlen n) /\
        (forall r' n', r' ∈ pre -> covers dst r' n' ->
           (prefixlen n' <= prefixlen n)%N) /\
        (forall j r' n', (j < i)%nat -> pre !! j = Some r' ->
           covers dst r' n' -> (prefixlen n' < prefixlen n)%N)
  end.

End BestRoute.

(** An instance of the interface for running the model: IPv4 dotted quads
    with an optional [/prefixlen] (the netmask and hostmask spellings and
    IPv6 that the Python module also reads are not parsed by this instance). *)

Fixpoint digits_value (s : string) (acc : N) : option N :=
  match s with
  | EmptyString => Some acc
  | String c s' =>
      let n := N_of_ascii c in
      if (48 <=? n)%N && (n <=? 57)%N
      then digits_value s' (acc * 10 + (n - 48))%N
      else None
  end.

Definition parse_decimal (s : string) : option N :=
  if String.eqb s "" then None else digits_value s 0%N.

(** [s.split(sep)] for a one-character separator. *)
Fixpoint split_go (sep : ascii) (s : string) (cur : string) : list string :=
  match s with
  | EmptyString => [String.rev cur]
  | String c s' =>
      if Ascii.eqb c sep then String.rev cur :: split_go sep s' EmptyString
      else split_go sep s' (String c cur)
  end.

Definition split (sep : ascii) (s : string) : list string :=
  split_go sep s EmptyString.

Definition parse_octet (s : string) : option N :=
  if (3 <? String.length s)%nat then None
  else if String.prefix "0" s && negb (String.eqb s "0") then None
  else match parse_decimal s with
       | Some n => if (n <=? 255)%N then Some n else None
       | None => None
       end.

Definition ipv4_int (s : string) : option N :=
  match split "." s with
  | [a; b; c; d] =>
      match parse_octet a, parse_octet b, parse_octet c, parse_octet d with
      | Some a, Some b, Some c, Some d =>
          Some (N.lor (N.shiftl a 24) (N.lor (N.shiftl b 16)
                  (N.lor (N.shiftl c 8) d)))
      | _, _, _, _ => None
      end
  | _ => None
  end.

Definition ipv4_address (s : string) : option ip_addr :=
  match ipv4_int s with
  | Some ip => Some {| addr_version := IPv4; addr_ip := ip |}
  | None => None
  end.

Definition ipv4_network (s : string) : option ip_net :=
  let mk ip len :=
    let n := {| net_version := IPv4; network_address := ip; prefixlen := len |} in
    {| net_version := IPv4;
       network_address := N.land ip (netmask n);
       prefixlen := len |} in
  match split "/" s with
  | [a] =>
      match ipv4_int a with
      | Some ip => Some (mk ip 32%N)
      | None => None
      end
  | [a; p] =>
      match ipv4_int a, parse_decimal p with
      | Some ip, Some len => if (len <=? 32)%N then Some (mk ip len) else None
      | _, _ => None
      end
  | _ => None
  end.

#[export] Instance ipv4_lib : IpAddressLib :=
  {| ip_address := ipv4_address; ip_network := ipv4_network |}.

(** ** core/cache.py *)

Module Cache.

(** The JSON object [set] writes. *)
Record raw (A : Type) := {
  data : A;
  cached_at : Z;           (* seconds on the UTC clock *)
  ttl_seconds : Z;
  account_id : option string
}.
Arguments data {A} _.
Arguments cached_at {A} _.
Arguments ttl_seconds {A} _.
Arguments account_id {A} _.

(** The cache file of one namespace. [Unreadable] is a file on which
    [json.loads] or a key lookup raises. *)
Inductive file (A : Type) :=
| Missing
| Unreadable
| Stored (r : raw A).
Arguments Missing {A}.
Arguments Unreadable {A}.
Arguments Stored {A} r.

Definition clear {A} (f : file A) : file A := Missing.

(** [get(ignore_expiry, current_account)] at time [now]: the value
    returned and the file afterwards. *)
Definition get {A} (ignore_expiry : bool) (current_account : option string)
    (now : Z) (f : file A) : option A * file A :=
  match f with
  | Missing => (None, f)
  | Unreadable => (None, f)
  | Stored r =>
      if truthy current_account && truthy (account_id r)
         && negb (bool_decide (account_id r = current_account))
      then (None, clear f)
      else if negb ignore_expiry && (now - cached_at r >? ttl_seconds r)
      then (None, f)
      else (Some (data r), f)
  end.

(** [set(data, ttl_seconds, account_id)] at time [now]; [default_ttl] is
    what [get_default_ttl()] returns. *)
Definition set {A} (d : A) (ttl : option Z) (account : option string)
    (now default_ttl : Z) : file A :=
  Stored {| data := d;
            cached_at := now;
            ttl_seconds := match ttl with
                           | Some t => if (t =? 0)%Z then default_ttl else t
                           | None => default_ttl
                           end;
            account_id := account |}.

End Cache.

(** ** traceroute/staleness.py: ChangeMarkers *)

(** [dict[str, int]], in insertion order. *)
Definition counts := list (string * Z).

Fixpoint dict_get (k : string) (d : counts) : option Z :=
  match d with
  | [] => None
  | (k', v) :: rest => if String.eqb k' k then Some v else dict_get k rest
  end.

(** [d[k] = v]: an existing key keeps its position. *)
Fixpoint dict_set (k : string) (v : Z) (d : counts) : counts :=
  match d with
  | [] => [(k, v)]
  | (k', v') :: rest =>
      if String.eqb k' k then (k, v) :: rest else (k', v') :: dict_set k v rest
  end.

Record ChangeMarkers := {
  cwan_policy_version : option Z;
  cwan_attachment_count : Z;
  tgw_count : counts;
  vpc_count : counts
}.

(** The dataclass constructor followed by [__post_init__]:
    [self.tgw_count = self.tgw_count or {}]. *)
Definition new_ChangeMarkers (policy_version : option Z) (attachment_count : Z)
    (tgw vpc : option counts) : ChangeMarkers :=
  {| cwan_policy_version := policy_version;
     cwan_attachment_count := attachment_count;
     tgw_count := default [] tgw;
     vpc_count := default [] vpc |}.

(** The dict [to_dict] builds; it always carries the four keys. *)
Record markers_dict := {
  d_cwan_policy_version : option Z;
  d_cwan_attachment_count : Z;
  d_tgw_count : counts;
  d_vpc_count : counts
}.

Definition to_dict (m : ChangeMarkers) : markers_dict :=
  {| d_cwan_policy_version := cwan_policy_version m;
     d_cwan_attachment_count := cwan_attachment_count m;
     d_tgw_count := tgw_count m;
     d_vpc_count := vpc_count m |}.

Definition from_dict (d : markers_dict) : ChangeMarkers :=
  new_ChangeMarkers (d_cwan_policy_version d) (d_cwan_attachment_count d)
    (Some (d_tgw_count d)) (Some (d_vpc_count d)).

(** ** AWS responses

    Each record keeps the keys the code reads. A key read with [d[k]] is a
    plain field, a key read with [d.get(k)] is an [option]. *)

Record attachment := {
  AttachmentId : string;
  ResourceArn : option string;
  EdgeLocation : option string;
  SegmentName : option string;
  NetworkFunctionGroupName : option string;
  att_Tags : list (string * string)
}.

(** [when-sent-to.segments] of a segment action: the string ["*"] or a list
    of segment names. *)
Inductive segment_set :=
| AllSegments
| Segments (names : list string).

Record segment_action := {
  action : option string;
  segment : option string;
  when_sent_to : segment_set;
  via_network_function_groups : list string
}.

(** The policy document; [cwan_policy.get("segment-actions", [])]. *)
Record policy_document := { segment_actions : list segment_action }.

Record core_network := { CoreNetworkId : string }.
Record global_network := { GlobalNetworkId : string }.
Record transit_gateway := { TransitGatewayId : string }.
Record tgw_route_table := { TransitGatewayRouteTableId : string }.
Record vpc := { VpcId : string }.

Record core_network_policy := {
  PolicyVersionId : option Z;
  PolicyDocument : policy_document
}.

Record aws_route := {
  GatewayId : option string;
  NatGatewayId : option string;
  r_TransitGatewayId : option string;
  NetworkInterfaceId : option string;
  DestinationCidrBlock : option string;
  DestinationIpv6CidrBlock : option string;
  CoreNetworkArn : option string;
  State : option string
}.

Record association := { SubnetId : option string; Main : bool }.

Record aws_route_table := {
  RouteTableId : string;
  rt_VpcId : string;
  rt_Tags : list (string * string);
  Routes : list aws_route;
  Associations : list association
}.

Record network_interface := {
  eni_NetworkInterfaceId : string;
  eni_VpcId : string;
  eni_SubnetId : string;
  PrivateIpAddresses : list (option string);
  Groups : list string
}.

(** The boto3 session: what each call answers. *)
Record Aws := {
  get_caller_identity : result string;
  describe_regions : result (list string);
  describe_global_networks : result (list global_network);
  list_core_networks : result (list core_network);
  get_core_network_policy : string -> result core_network_policy;
  (* one [list_attachments] call *)
  list_attachments : string -> result (list attachment);
  (* the pages of the [list_attachments] paginator *)
  list_attachments_pages : string -> result (list (list attachment));
  describe_transit_gateways : string -> result (list transit_gateway);
  describe_transit_gateway_route_tables :
    string -> string -> result (list tgw_route_table);
  describe_vpcs : string -> result (list vpc);
  (* region, then the values of the vpc-id filter *)
  describe_route_tables : string -> list string -> result (list aws_route_table);
  (* the pages of the [describe_network_interfaces] paginator of a region *)
  describe_network_interfaces_pages :
    string -> result (list (list network_interface));
  (* region, then the private address filtered on *)
  describe_network_interfaces : string -> string -> result (list network_interface)
}.

(** ** traceroute/topology.py: NetworkTopology *)

Record eni_data := {
  eni_id : string;
  vpc_id : string;
  subnet_id : string;
  region : string;
  security_groups : list string
}.

Record NetworkTopology := {
  account_id : string;
  regions : list string;
  global_networks : list global_network;
  core_networks : list core_network;
  cwan_attachments : list attachment;
  cwan_policy : policy_document;
  tgws : gmap string (list transit_gateway);
  tgw_route_tables : gmap string (list tgw_route_table);
  vpcs : gmap string (list vpc);
  route_tables : gmap string route_table;
  eni_index : gmap string eni_data
}.

(** [NetworkTopology(account_id=..., regions=...)]. *)
Definition new_NetworkTopology (account : string) (rs : list string)
    : NetworkTopology :=
  {| account_id := account; regions := rs;
     global_networks := []; core_networks := [];
     cwan_attachments := [];
     cwan_policy := {| segment_actions := [] |};
     tgws := ∅; tgw_route_tables := ∅; vpcs := ∅;
     route_tables := ∅; eni_index := ∅ |}.

(** ** The environment of a run

    The AWS account behind the session, the wall clock, the configured
    default TTL and the two cache files: namespace [topology] and namespace
    [topology_markers]. *)
Record World := {
  aws : Aws;
  now : Z;
  default_ttl : Z;
  topology_cache : Cache.file NetworkTopology;
  markers_cache : Cache.file markers_dict
}.

Definition set_topology_cache (f : Cache.file NetworkTopology) (w : World)
    : World :=
  {| aws := aws w; now := now w; default_ttl := default_ttl w;
     topology_cache := f; markers_cache := markers_cache w |}.

Definition set_markers_cache (f : Cache.file markers_dict) (w : World)
    : World :=
  {| aws := aws w; now := now w; default_ttl := default_ttl w;
     topology_cache := topology_cache w; markers_cache := f |}.

(** ** traceroute/staleness.py: StalenessChecker *)

Definition set_policy_version (v : option Z) (m : ChangeMarkers) :=
  {| cwan_policy_version := v;
     cwan_attachment_count := cwan_attachment_count m;
     tgw_count := tgw_count m; vpc_count := vpc_count m |}.

Definition set_attachment_count (n : Z) (m : ChangeMarkers) :=
  {| cwan_policy_version := cwan_policy_version m;
     cwan_attachment_count := n;
     tgw_count := tgw_count m; vpc_count := vpc_count m |}.

Definition set_tgw_count (r : string) (n : Z) (m : ChangeMarkers) :=
  {| cwan_policy_version := cwan_policy_version m;
     cwan_attachment_count := cwan_attachment_count m;
     tgw_count := dict_set r n (tgw_count m); vpc_count := vpc_count m |}.

Definition set_vpc_count (r : string) (n : Z) (m : ChangeMarkers) :=
  {| cwan_policy_version := cwan_policy_version m;
     cwan_attachment_count := cwan_attachment_count m;
     tgw_count := tgw_count m; vpc_count := dict_set r n (vpc_count m) |}.

(** The first [try] block of [get_current_markers]: an exception leaves the
    assignments made before it in place. *)
Definition markers_cloudwan (a : Aws) (m : ChangeMarkers) : ChangeMarkers :=
  match list_core_networks a with
  | Ok (cn :: _) =>
      match get_core_network_policy a (CoreNetworkId cn) with
      | Ok policy =>
          let m := set_policy_version (PolicyVersionId policy) m in
          match list_attachments a (CoreNetworkId cn) with
          | Ok atts => set_attachment_count (Z.of_nat (length atts)) m
          | Raise _ => m
          end
      | Raise _ => m
      end
  | Ok [] => m
  | Raise _ => m
  end.

(** The body of the per-region loop, with its own [try]. *)
Definition markers_region (a : Aws) (m : ChangeMarkers) (r : string)
    : ChangeMarkers :=
  match describe_transit_gateways a r with
  | Ok ts =>
      let m := set_tgw_count r (Z.of_nat (length ts)) m in
      match describe_vpcs a r with
      | Ok vs => set_vpc_count r (Z.of_nat (length vs)) m
      | Raise _ => m
      end
  | Raise _ => m
  end.

Definition get_current_markers (a : Aws) (rs : option (list string))
    : ChangeMarkers :=
  let markers := new_ChangeMarkers None 0 None None in
  let markers := markers_cloudwan a markers in
  match rs with
  | Some ((_ :: _) as rs) => fold_left (markers_region a) (take 5 rs) markers
  | _ => markers
  end.

Definition save_markers (markers : ChangeMarkers) (w : World) : World :=
  set_markers_cache
    (Cache.set (to_dict markers) None None (now w) (default_ttl w)) w.

Definition get_saved_markers (w : World) : option ChangeMarkers * World :=
  let '(d, f) := Cache.get true None (now w) (markers_cache w) in
  (from_dict <$> d, set_markers_cache f w).

(** The loops over [current.tgw_count.items()] and
    [current.vpc_count.items()]; [what] is ["TGW"] or ["VPC"]. *)
Fixpoint count_changed (what : string) (saved : counts) (items : counts)
    : option string :=
  match items with
  | [] => None
  | (r, count) :: rest =>
      match dict_get r saved with
      | Some saved_count =>
          if negb (saved_count =? count)%Z
          then Some (what +:+ " count changed in " +:+ r +:+ ": "
                     +:+ fmt_int saved_count +:+ " → " +:+ fmt_int count)
          else count_changed what saved rest
      | None => count_changed what saved rest
      end
  end.

(** The comparisons of [is_stale], after both marker sets are at hand. *)
Definition compare_markers (saved current : ChangeMarkers) : bool * string :=
  if match cwan_policy_version current, cwan_policy_version saved with
     | Some c, Some s => negb (c =? s)%Z
     | _, _ => false
     end
  then (true, "Cloud WAN policy changed: "
              +:+ fmt_opt_int (cwan_policy_version saved) +:+ " → "
              +:+ fmt_opt_int (cwan_policy_version current))
  else if (cwan_attachment_count current >? 0)
          && (cwan_attachment_count saved >? 0)
          && negb (cwan_attachment_count current =? cwan_attachment_count saved)%Z
  then (true, "Attachment count changed: "
              +:+ fmt_int (cwan_attachment_count saved) +:+ " → "
              +:+ fmt_int (cwan_attachment_count current))
  else
    match count_changed "TGW" (tgw_count saved) (tgw_count current) with
    | Some reason => (true, reason)
    | None =>
        match count_changed "VPC" (vpc_count saved) (vpc_count current) with
        | Some reason => (true, reason)
        | None => (false, "No changes detected")
        end
    end.

Definition is_stale (w : World) (rs : option (list string))
    : (bool * string) * World :=
  let '(saved, w) := get_saved_markers w in
  match saved with
  | None => ((true, "No markers saved"), w)
  | Some saved =>
      let current := get_current_markers (aws w) rs in
      (compare_markers saved current, w)
  end.

(** ** traceroute/topology.py: TopologyDiscovery *)

Fixpoint foldM {A B} (f : A -> B -> result A) (l : list B) (a : A)
    : result A :=
  match l with
  | [] => Ok a
  | b :: rest => let* a := f a b in foldM f rest a
  end.

Definition set_global_networks v (t : NetworkTopology) : NetworkTopology :=
  {| account_id := account_id t; regions := regions t;
     global_networks := v; core_networks := core_networks t;
     cwan_attachments := cwan_attachments t; cwan_policy := cwan_policy t;
     tgws := tgws t; tgw_route_tables := tgw_route_tables t; vpcs := vpcs t;
     route_tables := route_tables t; eni_index := eni_index t |}.

Definition set_core_networks v (t : NetworkTopology) : NetworkTopology :=
  {| account_id := account_id t; regions := regions t;
     global_networks := global_networks t; core_networks := v;
     cwan_attachments := cwan_attachments t; cwan_policy := cwan_policy t;
     tgws := tgws t; tgw_route_tables := tgw_route_tables t; vpcs := vpcs t;
     route_tables := route_tables t; eni_index := eni_index t |}.

Definition set_cwan_attachments v (t : NetworkTopology) : NetworkTopology :=
  {| account_id := account_id t; regions := regions t;
     global_networks := global_networks t; core_networks := core_networks t;
     cwan_attachments := v; cwan_policy := cwan_policy t;
     tgws := tgws t; tgw_route_tables := tgw_route_tables t; vpcs := vpcs t;
     route_tables := route_tables t; eni_index := eni_index t |}.

Definition set_cwan_policy v (t : NetworkTopology) : NetworkTopology :=
  {| account_id := account_id t; regions := regions t;
     global_networks := global_networks t; core_networks := core_networks t;
     cwan_attachments := cwan_attachments t; cwan_policy := v;
     tgws := tgws t; tgw_route_tables := tgw_route_tables t; vpcs := vpcs t;
     route_tables := route_tables t; eni_index := eni_index t |}.

Definition set_tgws v (t : NetworkTopology) : NetworkTopology :=
  {| account_id := account_id t; regions := regions t;
     global_networks := global_networks t; core_networks := core_networks t;
     cwan_attachments := cwan_attachments t; cwan_policy := cwan_policy t;
     tgws := v; tgw_route_tables := tgw_route_tables t; vpcs := vpcs t;
     route_tables := route_tables t; eni_index := eni_index t |}.

Definition set_tgw_route_tables v (t : NetworkTopology) : NetworkTopology :=
  {| account_id := account_id t; regions := regions t;
     global_networks := global_networks t; core_networks := core_networks t;
     cwan_attachments := cwan_attachments t; cwan_policy := cwan_policy t;
     tgws := tgws t; tgw_route_tables := v; vpcs := vpcs t;
     route_tables := route_tables t; eni_index := eni_index t |}.

Definition set_vpcs v (t : NetworkTopology) : NetworkTopology :=
  {| account_id := account_id t; regions := regions t;
     global_networks := global_networks t; core_networks := core_networks t;
     cwan_attachments := cwan_attachments t; cwan_policy := cwan_policy t;
     tgws := tgws t; tgw_route_tables := tgw_route_tables t; vpcs := v;
     route_tables := route_tables t; eni_index := eni_index t |}.

Definition set_route_tables v (t : NetworkTopology) : NetworkTopology :=
  {| account_id := account_id t; regions := regions t;
     global_networks := global_networks t; core_networks := core_networks t;
     cwan_attachments := cwan_attachments t; cwan_policy := cwan_policy t;
     tgws := tgws t; tgw_route_tables := tgw_route_tables t; vpcs := vpcs t;
     route_tables := v; eni_index := eni_index t |}.

Definition set_eni_index v (t : NetworkTopology) : NetworkTopology :=
  {| account_id := account_id t; regions := regions t;
     global_networks := global_networks t; core_networks := core_networks t;
     cwan_attachments := cwan_attachments t; cwan_policy := cwan_policy t;
     tgws := tgws t; tgw_route_tables := tgw_route_tables t; vpcs := vpcs t;
     route_tables := route_tables t; eni_index := v |}.

Definition clear_cache (w : World) : World :=
  set_topology_cache (Cache.clear (topology_cache w)) w.

Definition _get_account_id (a : Aws) : result string := get_caller_identity a.

(** [get_cached(check_staleness)]. The cached [data] is the snapshot itself:
    [asdict] on writing and rebuilding the dataclass from the dict on
    reading are inverse to each other. *)
Definition get_cached (w : World) (check_staleness : bool)
    : result (option NetworkTopology * World) :=
  let* account := _get_account_id (aws w) in
  let '(data, f) := Cache.get false (Some account) (now w) (topology_cache w) in
  let w := set_topology_cache f w in
  match data with
  | None => Ok (None, w)
  | Some topology =>
      if check_staleness then
        let '(saved_markers, w) := get_saved_markers w in
        match saved_markers with
        | Some saved =>
            let check_regions := take 5 (map fst (tgw_count saved)) in
            let '((stale, reason), w) := is_stale w (Some check_regions) in
            if stale then Ok (None, w) else Ok (Some topology, w)
        | None => Ok (Some topology, w)
        end
      else Ok (Some topology, w)
  end.

(** The [fetch] closure of [_discover_cloudwan]. *)
Definition _discover_cloudwan (a : Aws) (topology : NetworkTopology)
    : result NetworkTopology :=
  let* gns := describe_global_networks a in
  let topology := set_global_networks gns topology in
  let* cns := list_core_networks a in
  let topology := set_core_networks cns topology in
  match cns with
  | cn :: _ =>
      let cn_id := CoreNetworkId cn in
      let* policy_resp := get_core_network_policy a cn_id in
      let topology := set_cwan_policy (PolicyDocument policy_resp) topology in
      let* pages := list_attachments_pages a cn_id in
      Ok (fold_left
            (fun t page => set_cwan_attachments (cwan_attachments t ++ page) t)
            pages topology)
  | [] => Ok topology
  end.

(** [fetch_region] of [_discover_tgws]. *)
Definition tgws_fetch_region (a : Aws) (topology : NetworkTopology)
    (reg : string) : result NetworkTopology :=
  let* ts := describe_transit_gateways a reg in
  match ts with
  | [] => Ok topology
  | _ :: _ =>
      let topology := set_tgws (<[reg := ts]> (tgws topology)) topology in
      foldM
        (fun t tgw =>
           let* rts := describe_transit_gateway_route_tables a reg
                         (TransitGatewayId tgw) in
           Ok (set_tgw_route_tables
                 (<[TransitGatewayId tgw := rts]> (tgw_route_tables t)) t))
        ts topology
  end.

(** Concurrency: [asyncio.gather] runs the units on a thread pool and
    re-raises the first exception any of them raises. The units write
    disjoint keys of the snapshot, so the model runs them one after the
    other in the order they are handed to [gather]; whether the call
    raises does not depend on that order. *)
Definition _discover_tgws (a : Aws) (topology : NetworkTopology)
    (rs : list string) : result NetworkTopology :=
  foldM (tgws_fetch_region a) rs topology.

(** [a or b] where [b] is a string. *)
Definition or_else (a : option string) (b : string) : string :=
  match a with
  | Some s => if String.eqb s "" then b else s
  | None => b
  end.

Definition route_target (r : aws_route) : string :=
  or_else (GatewayId r)
    (or_else (NatGatewayId r)
       (or_else (r_TransitGatewayId r)
          (or_else (NetworkInterfaceId r) "local"))).

(** A route as [_discover_vpcs] stores it. *)
Definition discovered_route (r : aws_route) : route :=
  {| destination := default "" (DestinationCidrBlock r);
     target := route_target r;
     core_network_arn := CoreNetworkArn r;
     state := default "active" (State r) |}.

Definition discovered_route_table (rt : aws_route_table) : route_table :=
  {| rt_id := RouteTableId rt;
     rt_name := name_tag (rt_Tags rt) "";
     routes := map discovered_route (Routes rt);
     rt_vpc_id := Some (rt_VpcId rt) |}.

(** The loop over [rt.get("Associations", [])]. *)
Definition index_route_table (rt : aws_route_table)
    (m : gmap string route_table) : gmap string route_table :=
  let rt_data := discovered_route_table rt in
  fold_left
    (fun m assoc =>
       let m := if truthy (SubnetId assoc)
                then <[default "" (SubnetId assoc) := rt_data]> m else m in
       if Main assoc then <["main:" +:+ rt_VpcId rt := rt_data]> m else m)
    (Associations rt) m.

(** [fetch_region] of [_discover_vpcs]. *)
Definition vpcs_fetch_region (a : Aws) (topology : NetworkTopology)
    (reg : string) : result NetworkTopology :=
  let* vs := describe_vpcs a reg in
  match vs with
  | [] => Ok topology
  | _ :: _ =>
      let topology := set_vpcs (<[reg := vs]> (vpcs topology)) topology in
      let* rts := describe_route_tables a reg (map VpcId vs) in
      Ok (set_route_tables
            (fold_left (fun m rt => index_route_table rt m) rts
               (route_tables topology))
            topology)
  end.

Definition _discover_vpcs (a : Aws) (topology : NetworkTopology)
    (rs : list string) : result NetworkTopology :=
  foldM (vpcs_fetch_region a) rs topology.

Definition index_eni (reg : string) (eni : network_interface)
    (m : gmap string eni_data) : gmap string eni_data :=
  fold_left
    (fun m addr =>
       if truthy addr
       then <[default "" addr :=
                {| eni_id := eni_NetworkInterfaceId eni;
                   vpc_id := eni_VpcId eni;
                   subnet_id := eni_SubnetId eni;
                   region := reg;
                   security_groups := Groups eni |}]> m
       else m)
    (PrivateIpAddresses eni) m.

(** [fetch_region] of [_build_eni_index]. *)
Definition eni_fetch_region (a : Aws) (topology : NetworkTopology)
    (reg : string) : result NetworkTopology :=
  let* pages := describe_network_interfaces_pages a reg in
  Ok (set_eni_index
        (fold_left (fun m eni => index_eni reg eni m) (concat pages)
           (eni_index topology))
        topology).

Definition _build_eni_index (a : Aws) (topology : NetworkTopology)
    (rs : list string) : result NetworkTopology :=
  foldM (eni_fetch_region a) rs topology.

(** [if not regions: regions = [r["RegionName"] for r in ...]]. *)
Definition discover_regions (a : Aws) (rs : option (list string))
    : result (list string) :=
  match rs with
  | Some ((_ :: _) as l) => Ok l
  | _ => describe_regions a
  end.

(** [discover(regions)]: the snapshot returned and the world with both cache
    files written, or the exception that leaves the call. *)
Definition discover (w : World) (rs : option (list string))
    : result (NetworkTopology * World) :=
  let a := aws w in
  let* account := _get_account_id a in
  let* rs := discover_regions a rs in
  let topology := new_NetworkTopology account rs in
  let* topology := _discover_cloudwan a topology in
  let* topology := _discover_tgws a topology rs in
  let* topology := _discover_vpcs a topology rs in
  let* topology := _build_eni_index a topology rs in
  let w := set_topology_cache
             (Cache.set topology None (Some account) (now w) (default_ttl w))
             w in
  let markers := get_current_markers a (Some (take 5 rs)) in
  let w := save_markers markers w in
  Ok (topology, w).

(** ** traceroute/models.py *)

Module Hop.
(** [type] is one of the strings ["eni"], ["route_table"],
    ["cloud_wan_segment"], ["nfg"], ["firewall"], ["tgw"],
    ["destination"]. *)
Record t := {
  seq : Z;
  type : string;
  id : string;
  name : string;
  region : string;
  detail : list (string * option string)
}.
End Hop.

Module SecurityCheck.
Record t := {
  component : string;
  id : string;
  verdict : string;
  reason : string
}.
End SecurityCheck.

Record TraceResult := {
  src_ip : string;
  dst_ip : string;
  reachable : bool;
  hops : list Hop.t;
  security_checks : list SecurityCheck.t;
  blocked_at : option Hop.t;
  blocked_reason : string
}.

(** [TraceResult(src_ip=..., dst_ip=..., reachable=False)]. *)
Definition new_TraceResult (src dst : string) : TraceResult :=
  {| src_ip := src; dst_ip := dst; reachable := false; hops := [];
     security_checks := []; blocked_at := None; blocked_reason := "" |}.

(** [result.hops.append(hop)]. *)
Definition append_hop (hop : Hop.t) (r : TraceResult) : TraceResult :=
  {| src_ip := src_ip r; dst_ip := dst_ip r; reachable := reachable r;
     hops := hops r ++ [hop]; security_checks := security_checks r;
     blocked_at := blocked_at r; blocked_reason := blocked_reason r |}.

Definition set_reachable (b : bool) (r : TraceResult) : TraceResult :=
  {| src_ip := src_ip r; dst_ip := dst_ip r; reachable := b;
     hops := hops r; security_checks := security_checks r;
     blocked_at := blocked_at r; blocked_reason := blocked_reason r |}.

Definition set_blocked_reason (s : string) (r : TraceResult) : TraceResult :=
  {| src_ip := src_ip r; dst_ip := dst_ip r; reachable := reachable r;
     hops := hops r; security_checks := security_checks r;
     blocked_at := blocked_at r; blocked_reason := s |}.

Definition set_blocked_at (h : option Hop.t) (r : TraceResult) : TraceResult :=
  {| src_ip := src_ip r; dst_ip := dst_ip r; reachable := reachable r;
     hops := hops r; security_checks := security_checks r;
     blocked_at := h; blocked_reason := blocked_reason r |}.

(** ** traceroute/engine.py *)

Module ENIInfo.
Record t := {
  eni_id : string;
  ip : string;
  vpc_id : string;
  subnet_id : string;
  region : string;
  security_groups : list string
}.
End ENIInfo.

Record AWSTraceroute := {
  _no_cache : bool;
  _refresh_cache : bool;
  _skip_stale_check : bool;
  _topology : option NetworkTopology
}.

Definition set_topology (t : NetworkTopology) (e : AWSTraceroute)
    : AWSTraceroute :=
  {| _no_cache := _no_cache e; _refresh_cache := _refresh_cache e;
     _skip_stale_check := _skip_stale_check e; _topology := Some t |}.

(** [_ensure_topology]: the snapshot in [self._topology] afterwards. *)
Definition _ensure_topology (e : AWSTraceroute) (w : World)
    : result (NetworkTopology * World) :=
  match _topology e with
  | Some t => Ok (t, w)
  | None =>
      let w := if _refresh_cache e then clear_cache w else w in
      let* (cached, w) :=
        if negb (_no_cache e)
        then get_cached w (negb (_skip_stale_check e))
        else Ok (None, w) in
      match cached with
      | Some t => Ok (t, w)
      | None => discover w None
      end
  end.

Definition _find_eni_in_region (a : Aws) (addr : string) (reg : string)
    : option ENIInfo.t :=
  match describe_network_interfaces a reg addr with
  | Ok (eni :: _) =>
      Some {| ENIInfo.eni_id := eni_NetworkInterfaceId eni;
              ENIInfo.ip := addr;
              ENIInfo.vpc_id := eni_VpcId eni;
              ENIInfo.subnet_id := eni_SubnetId eni;
              ENIInfo.region := reg;
              ENIInfo.security_groups := Groups eni |}
  | Ok [] => None
  | Raise _ => None
  end.

Definition priority : list string :=
  ["eu-west-1"; "eu-west-2"; "us-east-1"; "us-west-2"].

(** The [for region in ordered] loop of [_find_eni_api]. *)
Fixpoint find_eni_ordered (a : Aws) (addr : string) (ordered : list string)
    : option ENIInfo.t :=
  match ordered with
  | [] => None
  | reg :: rest =>
      match _find_eni_in_region a addr reg with
      | Some e => Some e
      | None => find_eni_ordered a addr rest
      end
  end.

Definition _find_eni_api (a : Aws) (topo : NetworkTopology) (addr : string)
    : result (option ENIInfo.t * NetworkTopology) :=
  let* rs := match regions topo with
             | [] => describe_regions a
             | _ :: _ => Ok (regions topo)
             end in
  let ordered :=
    filter (fun r => r ∈ rs) priority ++ filter (fun r => r ∉ priority) rs in
  match find_eni_ordered a addr ordered with
  | Some e =>
      Ok (Some e,
          set_eni_index
            (<[addr := {| eni_id := ENIInfo.eni_id e;
                          vpc_id := ENIInfo.vpc_id e;
                          subnet_id := ENIInfo.subnet_id e;
                          region := ENIInfo.region e;
                          security_groups := ENIInfo.security_groups e |}]>
               (eni_index topo))
            topo)
  | None => Ok (None, topo)
  end.

Definition _find_eni_cached (a : Aws) (topo : NetworkTopology) (addr : string)
    : result (option ENIInfo.t * NetworkTopology) :=
  match eni_index topo !! addr with
  | Some d =>
      Ok (Some {| ENIInfo.eni_id := eni_id d;
                  ENIInfo.ip := addr;
                  ENIInfo.vpc_id := vpc_id d;
                  ENIInfo.subnet_id := subnet_id d;
                  ENIInfo.region := region d;
                  ENIInfo.security_groups := security_groups d |},
          topo)
  | None => _find_eni_api a topo addr
  end.

Definition _get_route_table_cached (topo : NetworkTopology)
    (subnet vpc : string) : option route_table :=
  match route_tables topo !! subnet with
  | Some rt => Some rt
  | None => route_tables topo !! ("main:" +:+ vpc)
  end.

(** A route as [_parse_route_table] stores it. *)
Definition parsed_route (r : aws_route) : route :=
  {| destination :=
       or_else (DestinationCidrBlock r)
         (or_else (DestinationIpv6CidrBlock r) "");
     target := route_target r;
     core_network_arn := CoreNetworkArn r;
     state := default "active" (State r) |}.

Definition _parse_route_table (rt : aws_route_table) : route_table :=
  {| rt_id := RouteTableId rt;
     rt_name := name_tag (rt_Tags rt) "";
     routes := map parsed_route (Routes rt);
     rt_vpc_id := None |}.

(** The inner loop of [fetch]: [inl] is the [return] on a subnet match,
    [inr] the value of [main_rt] after the associations. *)
Fixpoint scan_associations (subnet : string) (rt : aws_route_table)
    (assocs : list association) (main_rt : option aws_route_table)
    : route_table + option aws_route_table :=
  match assocs with
  | [] => inr main_rt
  | assoc :: rest =>
      if bool_decide (SubnetId assoc = Some subnet)
      then inl (_parse_route_table rt)
      else scan_associations subnet rt rest
             (if Main assoc then Some rt else main_rt)
  end.

Fixpoint scan_route_tables (subnet : string) (rts : list aws_route_table)
    (main_rt : option aws_route_table) : route_table :=
  match rts with
  | [] =>
      match main_rt with
      | Some rt => _parse_route_table rt
      | None => {| rt_id := "unknown"; rt_name := ""; routes := [];
                   rt_vpc_id := None |}
      end
  | rt :: rest =>
      match scan_associations subnet rt (Associations rt) main_rt with
      | inl found => found
      | inr main_rt => scan_route_tables subnet rest main_rt
      end
  end.

Definition _get_subnet_route_table (a : Aws) (reg vpc subnet : string)
    : result route_table :=
  let* rts := describe_route_tables a reg [vpc] in
  Ok (scan_route_tables subnet rts None).

Fixpoint segment_for_vpc (atts : list attachment) (vpc reg : string)
    : option string :=
  match atts with
  | [] => None
  | att :: rest =>
      if endswith (default "" (ResourceArn att)) vpc
         && bool_decide (EdgeLocation att = Some reg)
      then SegmentName att
      else segment_for_vpc rest vpc reg
  end.

Definition _get_segment_for_vpc (topo : NetworkTopology) (vpc reg : string)
    : option string :=
  segment_for_vpc (cwan_attachments topo) vpc reg.

(** [when_sent_to == "*" or dst_segment in when_sent_to]. *)
Definition sent_to (w : segment_set) (dst_segment : option string) : bool :=
  match w with
  | AllSegments => true
  | Segments names =>
      match dst_segment with
      | Some d => bool_decide (d ∈ names)
      | None => false
      end
  end.

Fixpoint send_via_nfg (actions : list segment_action) (src_segment : string)
    (dst_segment : option string) : option string :=
  match actions with
  | [] => None
  | act :: rest =>
      if bool_decide (action act = Some "send-via")
         && bool_decide (segment act = Some src_segment)
      then
        if sent_to (when_sent_to act) dst_segment
        then head (via_network_function_groups act)
        else send_via_nfg rest src_segment dst_segment
      else send_via_nfg rest src_segment dst_segment
  end.

Definition _get_send_via_nfg (topo : NetworkTopology) (src_segment : string)
    (dst_segment : option string) : option string :=
  send_via_nfg (segment_actions (cwan_policy topo)) src_segment dst_segment.

Definition mk_hop (seq : Z) (type id name reg : string)
    (detail : list (string * option string)) : Hop.t :=
  {| Hop.seq := seq; Hop.type := type; Hop.id := id; Hop.name := name;
     Hop.region := reg; Hop.detail := detail |}.

(** The firewall hop [_trace_via_cloudwan] builds for an attachment. *)
Definition firewall_hop (hop_seq : Z) (att : attachment) : Hop.t :=
  mk_hop hop_seq "firewall"
    (split_last "/" (default "" (ResourceArn att)))
    (name_tag (att_Tags att) "firewall")
    (default "" (EdgeLocation att))
    [("attachment_id", Some (AttachmentId att))].

(** The loop over [cwan_attachments] that appends the firewall hops. *)
Fixpoint firewall_hops (atts : list attachment) (nfg reg : string)
    (res : TraceResult) (hop_seq : Z) : TraceResult * Z :=
  match atts with
  | [] => (res, hop_seq)
  | att :: rest =>
      if bool_decide (NetworkFunctionGroupName att = Some nfg)
         && bool_decide (EdgeLocation att = Some reg)
      then
        let hop_seq := hop_seq + 1 in
        firewall_hops rest nfg reg (append_hop (firewall_hop hop_seq att) res)
          hop_seq
      else firewall_hops rest nfg reg res hop_seq
  end.

Definition _trace_via_cloudwan (topo : NetworkTopology) (res : TraceResult)
    (hop_seq : Z) (src_eni dst_eni : ENIInfo.t) : TraceResult :=
  let src_segment :=
    _get_segment_for_vpc topo (ENIInfo.vpc_id src_eni) (ENIInfo.region src_eni) in
  let dst_segment :=
    _get_segment_for_vpc topo (ENIInfo.vpc_id dst_eni) (ENIInfo.region dst_eni) in
  if negb (truthy src_segment)
  then set_blocked_reason
         ("Source VPC " +:+ ENIInfo.vpc_id src_eni
          +:+ " not attached to Cloud WAN") res
  else
    let src_segment := default "" src_segment in
    let hop_seq := hop_seq + 1 in
    let res :=
      append_hop
        (mk_hop hop_seq "cloud_wan_segment" src_segment
           ("segment:" +:+ src_segment) (ENIInfo.region src_eni) []) res in
    let nfg := _get_send_via_nfg topo src_segment dst_segment in
    let '(res, hop_seq) :=
      if truthy nfg then
        let nfg := default "" nfg in
        let hop_seq := hop_seq + 1 in
        let res :=
          append_hop
            (mk_hop hop_seq "nfg" nfg ("inspection:" +:+ nfg)
               (ENIInfo.region src_eni) []) res in
        firewall_hops (cwan_attachments topo) nfg (ENIInfo.region src_eni)
          res hop_seq
      else (res, hop_seq) in
    let '(res, hop_seq) :=
      if negb (String.eqb (ENIInfo.region src_eni) (ENIInfo.region dst_eni))
      then
        let hop_seq := hop_seq + 1 in
        (append_hop
           (mk_hop hop_seq "cloud_wan_segment"
              (or_else dst_segment "unknown")
              ("segment:" +:+ fmt_opt dst_segment +:+ "@"
               +:+ ENIInfo.region dst_eni)
              (ENIInfo.region dst_eni) []) res,
         hop_seq)
      else (res, hop_seq) in
    let hop_seq := hop_seq + 1 in
    let res :=
      append_hop
        (mk_hop hop_seq "destination" (ENIInfo.eni_id dst_eni)
           ("dst:" +:+ dst_ip res) (ENIInfo.region dst_eni)
           [("vpc_id", Some (ENIInfo.vpc_id dst_eni));
            ("segment", dst_segment)]) res in
    set_reachable true res.

Definition _trace_via_tgw (res : TraceResult) (hop_seq : Z)
    (src_eni dst_eni : ENIInfo.t) (tgw_id : string) : TraceResult :=
  let hop_seq := hop_seq + 1 in
  let res :=
    append_hop
      (mk_hop hop_seq "tgw" tgw_id "transit-gateway" (ENIInfo.region src_eni) [])
      res in
  let hop_seq := hop_seq + 1 in
  let res :=
    append_hop
      (mk_hop hop_seq "destination" (ENIInfo.eni_id dst_eni)
         ("dst:" +:+ dst_ip res) (ENIInfo.region dst_eni) []) res in
  set_reachable true res.

(** Step 2 of [trace]: the route table of the source's subnet, from the
    snapshot or else from the API. *)
Definition source_route_table (a : Aws) (topo : NetworkTopology)
    (src_eni : ENIInfo.t) : result route_table :=
  match _get_route_table_cached topo (ENIInfo.subnet_id src_eni)
          (ENIInfo.vpc_id src_eni) with
  | Some rt => Ok rt
  | None =>
      _get_subnet_route_table a (ENIInfo.region src_eni)
        (ENIInfo.vpc_id src_eni) (ENIInfo.subnet_id src_eni)
  end.

Section Trace.
Context `{!IpAddressLib}.

(** The body of [trace] once [self._topology] holds [topo]: the result,
    and the snapshot with the entries the address lookups added. *)
Definition trace_steps (a : Aws) (topo : NetworkTopology)
    (src dst : string) : result (TraceResult * NetworkTopology) :=
  let res := new_TraceResult src dst in
  let hop_seq := 0 in
  let* (src_eni, topo) := _find_eni_cached a topo src in
  let* (dst_eni, topo) := _find_eni_cached a topo dst in
  match src_eni with
  | None =>
      Ok (set_blocked_reason
            ("Source IP " +:+ src +:+ " not found in topology") res, topo)
  | Some src_eni =>
  match dst_eni with
  | None =>
      Ok (set_blocked_reason
            ("Destination IP " +:+ dst +:+ " not found in topology") res,
          topo)
  | Some dst_eni =>
      let hop_seq := hop_seq + 1 in
      let hop :=
        mk_hop hop_seq "eni" (ENIInfo.eni_id src_eni) ("src:" +:+ src)
          (ENIInfo.region src_eni)
          [("vpc_id", Some (ENIInfo.vpc_id src_eni));
           ("subnet_id", Some (ENIInfo.subnet_id src_eni))] in
      let res := append_hop hop res in
      let* src_rt := source_route_table a topo src_eni in
      let hop_seq := hop_seq + 1 in
      let hop :=
        mk_hop hop_seq "route_table" (rt_id src_rt) (rt_name src_rt)
          (ENIInfo.region src_eni) [] in
      let res := append_hop hop res in
      let* route := _find_best_route (routes src_rt) dst in
      match route with
      | None =>
          let res :=
            set_blocked_reason
              ("No route to " +:+ dst +:+ " in route table "
               +:+ rt_id src_rt) res in
          Ok (set_blocked_at (last (hops res)) res, topo)
      | Some route =>
          let tgt := target route in
          if String.eqb tgt "local"
             && String.eqb (ENIInfo.vpc_id src_eni) (ENIInfo.vpc_id dst_eni)
          then
            let hop_seq := hop_seq + 1 in
            let hop :=
              mk_hop hop_seq "destination" (ENIInfo.eni_id dst_eni)
                ("dst:" +:+ dst) (ENIInfo.region dst_eni) [] in
            let res := append_hop hop res in
            Ok (set_reachable true res, topo)
          else if truthy (core_network_arn route)
          then Ok (_trace_via_cloudwan topo res hop_seq src_eni dst_eni, topo)
          else if negb (String.eqb tgt "") && startswith tgt "tgw-"
          then Ok (_trace_via_tgw res hop_seq src_eni dst_eni tgt, topo)
          else
            Ok (set_blocked_reason ("Unsupported route target: " +:+ tgt) res,
                topo)
      end
  end
  end.

(** [trace(src_ip, dst_ip)]: the result, the engine with its snapshot and
    the world after the run. *)
Definition trace (e : AWSTraceroute) (w : World) (src dst : string)
    : result (TraceResult * AWSTraceroute * World) :=
  let* (topo, w) := _ensure_topology e w in
  let* (res, topo) := trace_steps (aws w) topo src dst in
  Ok (res, set_topology topo e, w).

End Trace.

(** ** Sample data

    One account with two VPCs in [eu-west-1] attached to a core network,
    and an inspection VPC serving the network function group [inspect]. *)

(** A session on which every call fails. *)
Definition aws_offline : Aws :=
  let down {A} : result A := Raise "EndpointConnectionError" in
  {| get_caller_identity := down;
     describe_regions := down;
     describe_global_networks := down;
     list_core_networks := down;
     get_core_network_policy := fun _ => down;
     list_attachments := fun _ => down;
     list_attachments_pages := fun _ => down;
     describe_transit_gateways := fun _ => down;
     describe_transit_gateway_route_tables := fun _ _ => down;
     describe_vpcs := fun _ => down;
     describe_route_tables := fun _ _ => down;
     describe_network_interfaces_pages := fun _ => down;
     describe_network_interfaces := fun _ _ => down |}.

(** A session that answers every call with an empty listing, except that
    the transit gateways of [us-east-1] cannot be listed. *)
Definition aws_one_region_down : Aws :=
  {| get_caller_identity := Ok "111122223333";
     describe_regions := Ok ["eu-west-1"; "us-east-1"];
     describe_global_networks := Ok [];
     list_core_networks := Ok [];
     get_core_network_policy := fun _ => Raise "ResourceNotFoundException";
     list_attachments := fun _ => Ok [];
     list_attachments_pages := fun _ => Ok [];
     describe_transit_gateways := fun reg =>
       if String.eqb reg "us-east-1" then Raise "UnauthorizedOperation"
       else Ok [{| TransitGatewayId := "tgw-0a1" |}];
     describe_transit_gateway_route_tables := fun _ _ => Ok [];
     describe_vpcs := fun _ => Ok [];
     describe_route_tables := fun _ _ => Ok [];
     describe_network_interfaces_pages := fun _ => Ok [];
     describe_network_interfaces := fun _ _ => Ok [] |}.

Definition mk_world (a : Aws) (t : Z)
    (tc : Cache.file NetworkTopology) (mc : Cache.file markers_dict) : World :=
  {| aws := a; now := t; default_ttl := 900;
     topology_cache := tc; markers_cache := mc |}.

Definition sample_attachments : list attachment :=
  [ {| AttachmentId := "attachment-01";
       ResourceArn := Some "arn:aws:ec2:eu-west-1:111122223333:vpc/vpc-1";
       EdgeLocation := Some "eu-west-1";
       SegmentName := Some "prod";
       NetworkFunctionGroupName := None;
       att_Tags := [] |};
    {| AttachmentId := "attachment-02";
       ResourceArn := Some "arn:aws:ec2:eu-west-1:111122223333:vpc/vpc-2";
       EdgeLocation := Some "eu-west-1";
       SegmentName := Some "dev";
       NetworkFunctionGroupName := None;
       att_Tags := [] |};
    {| AttachmentId := "attachment-fw";
       ResourceArn := Some "arn:aws:ec2:eu-west-1:111122223333:vpc/vpc-fw";
       EdgeLocation := Some "eu-west-1";
       SegmentName := None;
       NetworkFunctionGroupName := Some "inspect";
       att_Tags := [("Name", "inspection-vpc")] |} ].

Definition sample_policy : policy_document :=
  {| segment_actions :=
       [ {| action := Some "send-via";
            segment := Some "prod";
            when_sent_to := AllSegments;
            via_network_function_groups := ["inspect"] |} ] |}.

Definition sample_eni (eni vpc subnet : string) : eni_data :=
  {| eni_id := eni; vpc_id := vpc; subnet_id := subnet;
     region := "eu-west-1"; security_groups := [] |}.

Definition sample_topology (rs : list route) : NetworkTopology :=
  {| account_id := "111122223333";
     regions := ["eu-west-1"];
     global_networks := [];
     core_networks := [{| CoreNetworkId := "core-network-01" |}];
     cwan_attachments := sample_attachments;
     cwan_policy := sample_policy;
     tgws := ∅; tgw_route_tables := ∅; vpcs := ∅;
     route_tables :=
       {[ "subnet-1" := {| rt_id := "rtb-1"; rt_name := "app"; routes := rs;
                           rt_vpc_id := Some "vpc-1" |} ]};
     eni_index :=
       {[ "10.0.1.5" := sample_eni "eni-a" "vpc-1" "subnet-1";
          "10.0.1.9" := sample_eni "eni-b" "vpc-1" "subnet-1";
          "10.1.0.7" := sample_eni "eni-c" "vpc-2" "subnet-2";
          "172.16.0.1" := sample_eni "eni-d" "vpc-3" "subnet-3" ]} |}.

Definition local_route (cidr : string) : route :=
  {| destination := cidr; target := "local"; core_network_arn := None;
     state := "active" |}.

(** A core-network route as discovery stores it: no gateway id of any kind,
    hence target ["local"], and the ARN of the core network. *)
Definition cloudwan_route (cidr : string) : route :=
  {| destination := cidr; target := "local";
     core_network_arn :=
       Some "arn:aws:networkmanager::111122223333:core-network/core-network-01";
     state := "active" |}.

Definition eni_route (cidr eni : string) : route :=
  {| destination := cidr; target := eni; core_network_arn := None;
     state := "active" |}.

(** An engine that already holds the snapshot. *)
Definition loaded_engine (t : NetworkTopology) : AWSTraceroute :=
  {| _no_cache := false; _refresh_cache := false; _skip_stale_check := false;
     _topology := Some t |}.

Definition offline_world : World :=
  mk_world aws_offline 0 Cache.Missing Cache.Missing.

(** The interfaces of the sample snapshot as [_find_eni_cached] returns
    them. *)
Definition sample_info (addr eni vpc subnet : string) : ENIInfo.t :=
  {| ENIInfo.eni_id := eni; ENIInfo.ip := addr; ENIInfo.vpc_id := vpc;
     ENIInfo.subnet_id := subnet; ENIInfo.region := "eu-west-1";
     ENIInfo.security_groups := [] |}.

Definition info_a := sample_info "10.0.1.5" "eni-a" "vpc-1" "subnet-1".
Definition info_b := sample_info "10.0.1.9" "eni-b" "vpc-1" "subnet-1".
Definition info_c := sample_info "10.1.0.7" "eni-c" "vpc-2" "subnet-2".
Definition info_d := sample_info "172.16.0.1" "eni-d" "vpc-3" "subnet-3".

Definition sample_route_table (rs : list route) : route_table :=
  {| rt_id := "rtb-1"; rt_name := "app"; routes := rs;
     rt_vpc_id := Some "vpc-1" |}.

Definition firewall_attachment : attachment :=
  {| AttachmentId := "attachment-fw";
     ResourceArn := Some "arn:aws:ec2:eu-west-1:111122223333:vpc/vpc-fw";
     EdgeLocation := Some "eu-west-1";
     SegmentName := None;
     NetworkFunctionGroupName := Some "inspect";
     att_Tags := [("Name", "inspection-vpc")] |}.

(** ** Vocabulary of the properties *)

(** A unit of the fan-out of [discover] fails: one of the two listings of
    the core-network service, or the transit-gateway, VPC or interface
    listing of one of the regions. *)
Definition fetch_fails (a : Aws) (rs : list string) : Prop :=
  is_raise (describe_global_networks a) \/
  is_raise (list_core_networks a) \/
  exists r, r ∈ rs /\
    (is_raise (describe_transit_gateways a r) \/
     is_raise (describe_vpcs a r) \/
     is_raise (describe_network_interfaces_pages a r)).

(** Both policy versions are known and they differ. *)
Definition policy_differs (saved current : ChangeMarkers) : Prop :=
  exists s c, cwan_policy_version saved = Some s /\
              cwan_policy_version current = Some c /\ s <> c.

(** Both attachment counts are positive and they differ. *)
Definition attachments_differ (saved current : ChangeMarkers) : Prop :=
  0 < cwan_attachment_count saved /\ 0 < cwan_attachment_count current /\
  cwan_attachment_count current <> cwan_attachment_count saved.

(** Every region of [items] is either unknown to [saved] or has the same
    count there. *)
Definition counts_agree (saved items : counts) : Prop :=
  forall r c, (r, c) ∈ items ->
    dict_get r saved = None \/ dict_get r saved = Some c.

(** [reason] reports the first region of [items], in iteration order, that
    [saved] knows with another count. *)
Definition first_count_change (what : string) (saved items : counts)
    (reason : string) : Prop :=
  exists pre r c post sc,
    items = pre ++ (r, c) :: post /\ counts_agree saved pre /\
    dict_get r saved = Some sc /\ sc <> c /\
    reason = what +:+ " count changed in " +:+ r +:+ ": "
             +:+ fmt_int sc +:+ " → " +:+ fmt_int c.

(** Some field has a saved and a current value that are both present and
    both non-zero, and the two differ. *)
Definition nonzero_fields_differ (saved current : ChangeMarkers) : Prop :=
  (exists s c, cwan_policy_version saved = Some s /\
               cwan_policy_version current = Some c /\
               s <> 0 /\ c <> 0 /\ s <> c) \/
  (cwan_attachment_count saved <> 0 /\ cwan_attachment_count current <> 0 /\
   cwan_attachment_count saved <> cwan_attachment_count current) \/
  (exists r s c, dict_get r (tgw_count saved) = Some s /\
                 dict_get r (tgw_count current) = Some c /\
                 s <> 0 /\ c <> 0 /\ s <> c) \/
  (exists r s c, dict_get r (vpc_count saved) = Some s /\
                 dict_get r (vpc_count current) = Some c /\
                 s <> 0 /\ c <> 0 /\ s <> c).

(** A [trace] run gets as far as the route lookup: the snapshot is ready,
    both addresses resolve to interfaces and the source's route table is
    found. [topo'] is the snapshot after the address lookups and [w'] the
    world after the snapshot was made ready. *)
Definition resolved (e : AWSTraceroute) (w : World) (src dst : string)
    (src_eni dst_eni : ENIInfo.t) (src_rt : route_table)
    (topo' : NetworkTopology) (w' : World) : Prop :=
  exists topo topo1,
    _ensure_topology e w = Ok (topo, w') /\
    _find_eni_cached (aws w') topo src = Ok (Some src_eni, topo1) /\
    _find_eni_cached (aws w') topo1 dst = Ok (Some dst_eni, topo') /\
    source_route_table (aws w') topo' src_eni = Ok src_rt.

(** The two hops every resolved run starts with. *)
Definition eni_hop (src : string) (src_eni : ENIInfo.t) : Hop.t :=
  mk_hop 1 "eni" (ENIInfo.eni_id src_eni) ("src:" +:+ src)
    (ENIInfo.region src_eni)
    [("vpc_id", Some (ENIInfo.vpc_id src_eni));
     ("subnet_id", Some (ENIInfo.subnet_id src_eni))].

Definition route_table_hop (src_eni : ENIInfo.t) (src_rt : route_table)
    : Hop.t :=
  mk_hop 2 "route_table" (rt_id src_rt) (rt_name src_rt)
    (ENIInfo.region src_eni) [].

(** [att] serves the inspection group [nfg] at the edge [reg]. *)
Definition serves (nfg reg : string) (att : attachment) : Prop :=
  NetworkFunctionGroupName att = Some nfg /\ EdgeLocation att = Some reg.

#[export] Instance serves_dec nfg reg att : Decision (serves nfg reg att).
Proof. unfold serves. apply _. Defined.

(** ** core/cache.py: the remaining functions *)

(** [c.isdigit()] for an ASCII character. *)
Definition is_digit (c : ascii) : bool :=
  let n := N_of_ascii c in (48 <=? n)%N && (n <=? 57)%N.

(** [str.lower()] on ASCII text. *)
Definition lower_ascii (c : ascii) : ascii :=
  let n := N_of_ascii c in
  if (65 <=? n)%N && (n <=? 90)%N then ascii_of_N (n + 32) else c.

Fixpoint lower (s : string) : string :=
  match s with
  | EmptyString => EmptyString
  | String c s' => String (lower_ascii c) (lower s')
  end.

(** The longest prefix of digits, which is what the greedy group [(\d+)]
    takes, and the rest of the text. *)
Fixpoint span_digits (s : string) : string * string :=
  match s with
  | EmptyString => (EmptyString, EmptyString)
  | String c s' =>
      if is_digit c
      then let '(ds, rest) := span_digits s' in (String c ds, rest)
      else (EmptyString, s)
  end.

Definition newline : string := String (ascii_of_N 10) EmptyString.

(** What [([mhd]?)$] accepts after the digits: nothing or one unit letter,
    at the end of the text or before one final newline. The unit defaults
    to minutes. *)
Definition ttl_unit (rest : string) : option string :=
  let body :=
    match rest with
    | String c rest' =>
        if String.eqb rest newline then EmptyString
        else if String.eqb rest' newline then String c EmptyString
        else rest
    | EmptyString => EmptyString
    end in
  if String.eqb body "" then Some "m"
  else if String.eqb body "m" || String.eqb body "h" || String.eqb body "d"
  then Some body
  else None.

Definition multipliers (unit : string) : Z :=
  if String.eqb unit "h" then 3600
  else if String.eqb unit "d" then 86400
  else 60.

(** [parse_ttl(value)], for ASCII text: the regular expression
    [^(\d+)([mhd]?)$] matched against [value.lower()]. *)
Definition parse_ttl (value : string) : result Z :=
  let '(num, rest) := span_digits (lower value) in
  match parse_decimal num, ttl_unit rest with
  | Some n, Some unit => Ok (Z.of_N n * multipliers unit)
  | _, _ => Raise "ValueError"
  end.



(** The TTL [Cache.set] stores: [ttl_seconds or get_default_ttl()]. *)
Definition stored_ttl (ttl : option Z) (default_ttl : Z) : Z :=
  match ttl with
  | Some t => if (t =? 0)%Z then default_ttl else t
  | None => default_ttl
  end.

(** Two account ids that [Cache.get] does not tell apart: one of them is
    missing or empty, or they are equal. *)
Definition same_account (stored current : option string) : Prop :=
  truthy current = false \/ truthy stored = false \/ stored = current.

(** What the listing of a region contributes to the two count dicts. *)
Definition tgw_count_of (a : Aws) (r : string) : option Z :=
  match describe_transit_gateways a r with
  | Ok ts => Some (Z.of_nat (length ts))
  | Raise _ => None
  end.

Definition vpc_count_of (a : Aws) (r : string) : option Z :=
  match describe_transit_gateways a r, describe_vpcs a r with
  | Ok _, Ok vs => Some (Z.of_nat (length vs))
  | _, _ => None
  end.

(** The parts of a snapshot a discovery unit does not write: the header
    (account and regions) and the parts filled by the other units. *)
Definition same_header (t t' : NetworkTopology) : Prop :=
  account_id t' = account_id t /\ regions t' = regions t.

Definition same_cloudwan (t t' : NetworkTopology) : Prop :=
  global_networks t' = global_networks t /\
  core_networks t' = core_networks t /\
  cwan_attachments t' = cwan_attachments t /\
  cwan_policy t' = cwan_policy t.

Definition same_tgws (t t' : NetworkTopology) : Prop :=
  tgws t' = tgws t /\ tgw_route_tables t' = tgw_route_tables t.

Definition same_vpcs (t t' : NetworkTopology) : Prop :=
  vpcs t' = vpcs t /\ route_tables t' = route_tables t.

Definition same_eni_index (t t' : NetworkTopology) : Prop :=
  eni_index t' = eni_index t.

(** The record [_build_eni_index] stores for an address of [eni] found in
    the region [reg]. *)
Definition eni_record (reg : string) (eni : network_interface) : eni_data :=
  {| eni_id := eni_NetworkInterfaceId eni; vpc_id := eni_VpcId eni;
     subnet_id := eni_SubnetId eni; region := reg;
     security_groups := Groups eni |}.

(** The interface [eni] is listed in the region [reg] with the private
    address [addr]. *)
Definition listed_address (a : Aws) (reg : string) (eni : network_interface)
    (addr : string) : Prop :=
  exists pages,
    describe_network_interfaces_pages a reg = Ok pages /\
    eni ∈ concat pages /\ Some addr ∈ PrivateIpAddresses eni /\ addr <> "".

(** The route table [raw] is listed in the region [reg]: the region has
    VPCs and the route-table listing filtered on them contains it. *)
Definition listed_route_table (a : Aws) (reg : string) (raw : aws_route_table)
    : Prop :=
  exists v vs rts,
    describe_vpcs a reg = Ok (v :: vs) /\
    describe_route_tables a reg (map VpcId (v :: vs)) = Ok rts /\
    raw ∈ rts.

(** [raw] has an association that files it under the key [k]: a subnet
    association with the subnet id [k], or the main association of its VPC
    with [k] the key ["main:<vpc id>"]. *)
Definition filed_under (raw : aws_route_table) (k : string) : Prop :=
  exists assoc, assoc ∈ Associations raw /\
    ((SubnetId assoc = Some k /\ k <> "") \/
     (Main assoc = true /\ k = "main:" +:+ rt_VpcId raw)).

(** A session in which every call answers: one region with one VPC, its
    route table, three interfaces, no transit gateway, and a core network
    whose attachments come in two pages. *)
Definition aws_sample : Aws :=
  {| get_caller_identity := Ok "111122223333";
     describe_regions := Ok ["eu-west-1"];
     describe_global_networks :=
       Ok [{| GlobalNetworkId := "global-network-01" |}];
     list_core_networks := Ok [{| CoreNetworkId := "core-network-01" |}];
     get_core_network_policy := fun _ =>
       Ok {| PolicyVersionId := Some 3; PolicyDocument := sample_policy |};
     list_attachments := fun _ => Ok (take 2 sample_attachments);
     list_attachments_pages := fun _ =>
       Ok [take 2 sample_attachments; drop 2 sample_attachments];
     describe_transit_gateways := fun _ => Ok [];
     describe_transit_gateway_route_tables := fun _ _ => Ok [];
     describe_vpcs := fun _ => Ok [{| VpcId := "vpc-1" |}];
     describe_route_tables := fun _ _ =>
       Ok [{| RouteTableId := "rtb-1"; rt_VpcId := "vpc-1";
              rt_Tags := [("Name", "app")];
              Routes :=
                [{| GatewayId := Some "local"; NatGatewayId := None;
                    r_TransitGatewayId := None; NetworkInterfaceId := None;
                    DestinationCidrBlock := Some "10.0.0.0/16";
                    DestinationIpv6CidrBlock := None;
                    CoreNetworkArn := None; State := Some "active" |};
                 {| GatewayId := None; NatGatewayId := None;
                    r_TransitGatewayId := None; NetworkInterfaceId := None;
                    DestinationCidrBlock := Some "10.1.0.0/16";
                    DestinationIpv6CidrBlock := None;
                    CoreNetworkArn :=
                      Some "arn:aws:networkmanager::111122223333:core-network/core-network-01";
                    State := Some "active" |}];
              Associations :=
                [{| SubnetId := Some "subnet-1"; Main := false |};
                 {| SubnetId := None; Main := true |}] |}];
     describe_network_interfaces_pages := fun _ =>
       Ok [[{| eni_NetworkInterfaceId := "eni-a"; eni_VpcId := "vpc-1";
               eni_SubnetId := "subnet-1";
               PrivateIpAddresses := [Some "10.0.1.5"; None];
               Groups := ["sg-1"] |}];
           [{| eni_NetworkInterfaceId := "eni-b"; eni_VpcId := "vpc-1";
               eni_SubnetId := "subnet-1";
               PrivateIpAddresses := [Some "10.0.1.9"];
               Groups := [] |}]];
     describe_network_interfaces := fun _ addr =>
       if String.eqb addr "10.0.2.4"
       then Ok [{| eni_NetworkInterfaceId := "eni-new"; eni_VpcId := "vpc-1";
                   eni_SubnetId := "subnet-9";
                   PrivateIpAddresses := [Some "10.0.2.4"];
                   Groups := [] |}]
       else Ok [] |}.

Definition sample_world : World :=
  mk_world aws_sample 0 Cache.Missing Cache.Missing.

(** The hops [hs] carry the sequence numbers [n], [n + 1], ... in order. *)
Fixpoint numbered_from (n : Z) (hs : list Hop.t) : Prop :=
  match hs with
  | [] => True
  | h :: rest => Hop.seq h = n /\ numbered_from (n + 1) rest
  end.

(** [res] with [extra] appended to its hops. *)
Definition with_more_hops (extra : list Hop.t) (res : TraceResult)
    : TraceResult :=
  {| src_ip := src_ip res; dst_ip := dst_ip res; reachable := reachable res;
     hops := hops res ++ extra; security_checks := security_checks res;
     blocked_at := blocked_at res; blocked_reason := blocked_reason res |}.

(** What every result of [trace] satisfies: it echoes the two addresses,
    carries no security checks, numbers its hops from 1, and its verdict
    agrees with its hops. A reachable result has no reason, is blocked
    nowhere and ends with the destination hop; a blocked result has a
    reason, no destination hop, and is blocked either nowhere or at its
    last hop. *)
Definition coherent (src dst : string) (res : TraceResult) : Prop :=
  src_ip res = src /\ dst_ip res = dst /\ security_checks res = [] /\
  numbered_from 1 (hops res) /\
  (if reachable res
   then blocked_reason res = "" /\ blocked_at res = None /\
        exists h, last (hops res) = Some h /\ Hop.type h = "destination"
   else blocked_reason res <> "" /\
        ("destination" ∉ map Hop.type (hops res)) /\
        (blocked_at res = None \/
         (hops res <> [] /\ blocked_at res = last (hops res)))).

(** The order in which [_find_eni_api] searches the regions [rs]: the
    preferred regions that occur in [rs], in the order of the preference
    list, then the remaining regions in the order of [rs]. *)
Definition search_order (rs : list string) : list string :=
  filter (fun r => r ∈ rs) priority ++ filter (fun r => r ∉ priority) rs.

(** The regions [_find_eni_api] searches for a snapshot: its own, or those
    the API enumerates when it has none. *)
Definition search_regions (a : Aws) (topo : NetworkTopology)
    : result (list string) :=
  match regions topo with
  | [] => describe_regions a
  | _ :: _ => Ok (regions topo)
  end.

(** [rt] has an association with the subnet, respectively a main
    association. *)
Definition associated_with (subnet : string) (rt : aws_route_table) : bool :=
  existsb (fun assoc => bool_decide (SubnetId assoc = Some subnet))
    (Associations rt).

Definition is_main (rt : aws_route_table) : bool :=
  existsb Main (Associations rt).

(** The table [_get_subnet_route_table] answers with when no listed route
    table is associated with the subnet or is a main table. *)
Definition unknown_route_table : route_table :=
  {| rt_id := "unknown"; rt_name := ""; routes := []; rt_vpc_id := None |}.

(** The sample snapshot without any core-network attachment, and without
    any segment action. *)
Definition detached_topology (rs : list route) : NetworkTopology :=
  set_cwan_attachments [] (sample_topology rs).

Definition plain_topology (rs : list route) : NetworkTopology :=
  set_cwan_policy {| segment_actions := [] |} (sample_topology rs).

(** * Properties *)

Section BestRouteFacts.
Context `{!IpAddressLib}.

Lemma best_so_far_step dst pre r best blen :
  best_so_far dst pre best blen ->
  best_so_far dst (pre ++ [r])
    (if String.eqb (destination r) "" || String.eqb (state r) "blackhole"
     then best
     else match ip_network (destination r) with
          | None => best
          | Some n =>
              if net_contains n dst && (Z.of_N (prefixlen n) >? blen)
              then Some r else best
          end)
    (if String.eqb (destination r) "" || String.eqb (state r) "blackhole"
     then blen
     else match ip_network (destination r) with
          | None => blen
          | Some n =>
              if net_contains n dst && (Z.of_N (prefixlen n) >? blen)
              then Z.of_N (prefixlen n) else blen
          end).
Proof.
  intros Hinv.
  (* an entry the loop skips covers nothing, or is no longer than the best *)
  assert (Hkeep : (forall n, covers dst r n -> Z.of_N (prefixlen n) <= blen) ->
                  best_so_far dst (pre ++ [r]) best blen).
  { intros Hle. destruct best as [b|]; simpl in *.
    - destruct Hinv as (i & n & Hi & Hc & -> & Hmax & Hfirst).
      exists i, n. split_and!; auto.
      + by apply lookup_app_l_Some.
      + intros r' n' [Hin | ->%list_elem_of_singleton]%elem_of_app Hc'.
        * eauto.
        * apply Hle in Hc'. lia.
      + intros j r' n' Hj Hl Hc'.
        apply lookup_lt_Some in Hi.
        rewrite lookup_app_l in Hl by lia. eauto.
    - destruct Hinv as [-> Hnone]. split; [done|].
      intros r' n' [Hin | ->%list_elem_of_singleton]%elem_of_app Hc'.
      + by eapply Hnone.
      + apply Hle in Hc'. lia. }
  destruct (String.eqb_spec (destination r) "") as [He|He]; simpl.
  { apply Hkeep. intros n (Hd & _). done. }
  destruct (String.eqb_spec (state r) "blackhole") as [Hs|Hs]; simpl.
  { apply Hkeep. intros n (_ & Hb & _). done. }
  destruct (ip_network (destination r)) as [n|] eqn:Hn.
  2:{ apply Hkeep. intros n (_ & _ & Hp & _). congruence. }
  destruct (net_contains n dst) eqn:Hc; simpl.
  2:{ apply Hkeep. intros n' (_ & _ & Hp & Hc'). congruence. }
  destruct (Z.gtb_spec (Z.of_N (prefixlen n)) blen) as [Hgt|Hle].
  2:{ apply Hkeep. intros n' (_ & _ & Hp & _).
      assert (n' = n) as -> by congruence. done. }
  (* the entry becomes the best match *)
  simpl. exists (length pre), n.
  assert (Hcov : covers dst r n) by done.
  split_and!; auto.
  - by rewrite lookup_app_r, Nat.sub_diag.
  - intros r' n' [Hin | ->%list_elem_of_singleton]%elem_of_app Hc'.
    + destruct best as [b|]; simpl in Hinv.
      * destruct Hinv as (i & nb & Hi & Hcb & -> & Hmax & _).
        specialize (Hmax _ _ Hin Hc'). lia.
      * destruct Hinv as [_ Hnone]. by eapply Hnone in Hc'.
    + destruct Hc' as (_ & _ & Hp & _).
      assert (n' = n) as -> by congruence. lia.
  - intros j r' n' Hj Hl Hc'.
    rewrite lookup_app_l in Hl by done.
    apply list_elem_of_lookup_2 in Hl.
    destruct best as [b|]; simpl in Hinv.
    + destruct Hinv as (i & nb & Hi & Hcb & -> & Hmax & _).
      specialize (Hmax _ _ Hl Hc'). lia.
    + destruct Hinv as [_ Hnone]. by eapply Hnone in Hc'.
Qed.

Lemma find_best_route_loop_inv dst rest : forall pre best blen,
  best_so_far dst pre best blen ->
  exists blen',
    best_so_far dst (pre ++ rest)
      (find_best_route_loop dst rest best blen) blen'.
Proof.
  induction rest as [|r rest IH]; intros pre best blen Hinv.
  - exists blen. by rewrite app_nil_r.
  - replace (pre ++ r :: rest) with ((pre ++ [r]) ++ rest)
      by (by rewrite <- app_assoc).
    pose proof (best_so_far_step dst pre r best blen Hinv) as Hstep.
    simpl.
    destruct (String.eqb (destination r) "" || String.eqb (state r) "blackhole").
    { by apply IH in Hstep. }
    destruct (ip_network (destination r)) as [n|].
    2:{ by apply IH in Hstep. }
    destruct (net_contains n dst && (Z.of_N (prefixlen n) >? blen)).
    + by apply IH in Hstep.
    + by apply IH in Hstep.
Qed.

(** C2. Route selection is longest-prefix match over the non-blackhole
    entries whose CIDR contains the destination address: the entry
    returned is such an entry, no such entry has a longer prefix, every
    such entry before it in the list has a strictly shorter prefix (so of
    two entries of maximal length the earlier one is returned), and
    nothing is returned exactly when no such entry exists. *)
Theorem find_best_route_longest_prefix (rs : list route) (dst_ip : string)
    (dst : ip_addr) :
  ip_address dst_ip = Some dst ->
  exists sel,
    _find_best_route rs dst_ip = Ok sel /\
    match sel with
    | Some r =>
        exists i n,
          rs !! i = Some r /\ covers dst r n /\
          (forall r' n', r' ∈ rs -> covers dst r' n' ->
             (prefixlen n' <= prefixlen n)%N) /\
          (forall j r' n', (j < i)%nat -> rs !! j = Some r' ->
             covers dst r' n' -> (prefixlen n' < prefixlen n)%N)
    | None => forall r n, r ∈ rs -> ~ covers dst r n
    end.
Proof.
  intros Hdst. unfold _find_best_route. rewrite Hdst.
  eexists. split; [done|].
  destruct (find_best_route_loop_inv dst rs [] None (-1)) as [blen Hfin].
  { split; [done|]. intros r n Hin. by apply elem_of_nil in Hin. }
  simpl in Hfin.
  destruct (find_best_route_loop dst rs None (-1)) as [r|]; simpl in Hfin.
  - destruct Hfin as (i & n & Hi & Hc & _ & Hmax & Hfirst). eauto 10.
  - by destruct Hfin.
Qed.

End BestRouteFacts.

(** ** Exceptions through [discover] *)

Lemma rbind_raise_l {A B} (m : result A) (k : A -> result B) :
  is_raise m -> is_raise (rbind m k).
Proof. by destruct m. Qed.

Lemma rbind_raise_r {A B} (m : result A) (k : A -> result B) :
  (forall a, is_raise (k a)) -> is_raise (rbind m k).
Proof. intros Hk. destruct m; simpl; [apply Hk | done]. Qed.

Lemma foldM_raise {A B} (f : A -> B -> result A) (l : list B) (b : B) :
  b ∈ l -> (forall a, is_raise (f a b)) -> forall a, is_raise (foldM f l a).
Proof.
  intros Hin Hb. induction l as [|x l IH]; intros a.
  - by apply elem_of_nil in Hin.
  - simpl. apply elem_of_cons in Hin as [<- | Hin].
    + by apply rbind_raise_l.
    + apply rbind_raise_r. auto.
Qed.

Lemma discover_cloudwan_raises a t :
  is_raise (describe_global_networks a) \/ is_raise (list_core_networks a) ->
  is_raise (_discover_cloudwan a t).
Proof.
  intros [Hg | Hc]; unfold _discover_cloudwan.
  - by apply rbind_raise_l.
  - apply rbind_raise_r. intros gns. by apply rbind_raise_l.
Qed.

(** C1, as the code has it. No unit of the fan-out of [discover] is guarded:
    when the listing of either core-network resource, or the
    transit-gateway, VPC or interface listing of any one region raises,
    [discover] raises to its caller and returns no snapshot. *)
Theorem discover_fetch_failure_raises (w : World) (arg : option (list string))
    (rs : list string) :
  discover_regions (aws w) arg = Ok rs ->
  fetch_fails (aws w) rs ->
  is_raise (discover w arg).
Proof.
  intros Hrs Hfail. unfold discover.
  apply rbind_raise_r. intros account.
  rewrite Hrs. simpl.
  destruct Hfail as [Hg | [Hc | (r & Hin & Hr)]].
  - apply rbind_raise_l, discover_cloudwan_raises. by left.
  - apply rbind_raise_l, discover_cloudwan_raises. by right.
  - apply rbind_raise_r. intros t1.
    destruct Hr as [Ht | [Hv | He]].
    + apply rbind_raise_l. unfold _discover_tgws.
      apply foldM_raise with (b := r); [done|].
      intros t. unfold tgws_fetch_region. by apply rbind_raise_l.
    + apply rbind_raise_r. intros t2. apply rbind_raise_l.
      unfold _discover_vpcs. apply foldM_raise with (b := r); [done|].
      intros t. unfold vpcs_fetch_region. by apply rbind_raise_l.
    + apply rbind_raise_r. intros t2. apply rbind_raise_r. intros t3.
      apply rbind_raise_l. unfold _build_eni_index.
      apply foldM_raise with (b := r); [done|].
      intros t. unfold eni_fetch_region. by apply rbind_raise_l.
Qed.

Lemma discover_fetch_failure_raises_witness :
  is_raise (discover (mk_world aws_one_region_down 0 Cache.Missing Cache.Missing)
              (Some ["eu-west-1"; "us-east-1"])).
Proof.
  apply (discover_fetch_failure_raises
           (mk_world aws_one_region_down 0 Cache.Missing Cache.Missing)
           (Some ["eu-west-1"; "us-east-1"]) ["eu-west-1"; "us-east-1"]).
  - reflexivity.
  - right. right. exists "us-east-1". split.
    + repeat constructor.
    + left. exact I.
Defined.

(** C1 fails as stated: with two regions of which one cannot list its
    transit gateways, while every other call answers, [discover] raises
    that region's exception instead of returning a partial snapshot. *)
Lemma discover_partial_failure_counterexample :
  let w := mk_world aws_one_region_down 0 Cache.Missing Cache.Missing in
  describe_transit_gateways (aws w) "eu-west-1"
    = Ok [{| TransitGatewayId := "tgw-0a1" |}] /\
  describe_transit_gateways (aws w) "us-east-1"
    = Raise "UnauthorizedOperation" /\
  discover w None = Raise "UnauthorizedOperation".
Proof. repeat split. Qed.

(** ** Markers: the cache record and the comparison *)

Lemma from_dict_to_dict (m : ChangeMarkers) : from_dict (to_dict m) = m.
Proof. by destruct m. Qed.

Lemma get_saved_markers_missing (w : World) :
  markers_cache w = Cache.Missing ->
  get_saved_markers w = (None, w).
Proof.
  intros Hm. unfold get_saved_markers. rewrite Hm. simpl.
  destruct w; simpl in *. by rewrite Hm.
Qed.

(** C10. Markers written by [save_markers] are read back unchanged by
    [get_saved_markers] in any later world that still holds that file,
    whatever its clock and whatever account its session belongs to: the
    record is written without an account id and read with expiry ignored. *)
Theorem saved_markers_survive (m : ChangeMarkers) (w : World)
    (a' : Aws) (now' ttl' : Z) (tc' : Cache.file NetworkTopology) :
  let w' := {| aws := a'; now := now'; default_ttl := ttl';
               topology_cache := tc';
               markers_cache := markers_cache (save_markers m w) |} in
  (exists r, markers_cache (save_markers m w) = Cache.Stored r /\
             Cache.account_id r = None /\ Cache.cached_at r = now w) /\
  get_saved_markers w' = (Some m, w').
Proof.
  simpl. split.
  - eexists. repeat split.
  - unfold get_saved_markers. simpl. by rewrite from_dict_to_dict.
Qed.

(** C3, as the code has it. With a present, unexpired snapshot of the
    current account in the cache and no markers file, [is_stale] answers
    stale with the reason "No markers saved", but [get_cached] asks
    [is_stale] only when saved markers exist: with [check_staleness] set it
    returns the cached snapshot. *)
Theorem get_cached_without_markers (w : World) (account : string)
    (r : Cache.raw NetworkTopology) (rs : option (list string)) :
  get_caller_identity (aws w) = Ok account ->
  topology_cache w = Cache.Stored r ->
  Cache.account_id r = Some account ->
  now w - Cache.cached_at r <= Cache.ttl_seconds r ->
  markers_cache w = Cache.Missing ->
  is_stale w rs = ((true, "No markers saved"), w) /\
  get_cached w true = Ok (Some (Cache.data r), w).
Proof.
  intros Hid Htc Hacc Hfresh Hmk. split.
  - unfold is_stale. by rewrite get_saved_markers_missing.
  - unfold get_cached, _get_account_id. rewrite Hid. simpl.
    rewrite Htc. simpl. rewrite Hacc.
    rewrite bool_decide_eq_true_2 by done.
    rewrite andb_false_r. simpl.
    destruct (Z.gtb_spec (now w - Cache.cached_at r) (Cache.ttl_seconds r));
      [lia|].
    assert (Hw : set_topology_cache (Cache.Stored r) w = w).
    { destruct w; simpl in *. by rewrite Htc. }
    rewrite Hw. by rewrite get_saved_markers_missing.
Qed.

Lemma get_cached_without_markers_witness :
  let topo := sample_topology [local_route "10.0.0.0/16"] in
  let w := mk_world aws_one_region_down 600
             (Cache.set topo None (Some "111122223333") 0 900)
             Cache.Missing in
  is_stale w None = ((true, "No markers saved"), w) /\
  get_cached w true = Ok (Some topo, w).
Proof.
  simpl.
  apply (get_cached_without_markers
           (mk_world aws_one_region_down 600
              (Cache.set (sample_topology [local_route "10.0.0.0/16"]) None
                 (Some "111122223333") 0 900)
              Cache.Missing)
           "111122223333"
           {| Cache.data := sample_topology [local_route "10.0.0.0/16"];
              Cache.cached_at := 0; Cache.ttl_seconds := 900;
              Cache.account_id := Some "111122223333" |}
           None); simpl; first [reflexivity | lia].
Defined.

(** C3 fails as stated: a snapshot cached ten minutes ago for the current
    account with a TTL of fifteen, no markers file, [check_staleness] set;
    [get_cached] returns the snapshot, not [None]. *)
Lemma get_cached_without_markers_counterexample :
  let topo := sample_topology [local_route "10.0.0.0/16"] in
  let w := mk_world aws_one_region_down 600
             (Cache.set topo None (Some "111122223333") 0 900)
             Cache.Missing in
  markers_cache w = Cache.Missing /\
  fst (Cache.get false (Some "111122223333") (now w) (topology_cache w))
    = Some topo /\
  (exists w', get_cached w true = Ok (Some topo, w')) /\
  ~ (exists w', get_cached w true = Ok (None, w')).
Proof.
  simpl. split_and!; try reflexivity.
  - eexists. reflexivity.
  - intros [w' Hw']. vm_compute in Hw'. discriminate Hw'.
Qed.

Lemma count_changed_spec (what : string) (saved items : counts) :
  match count_changed what saved items with
  | Some reason => first_count_change what saved items reason
  | None => counts_agree saved items
  end.
Proof.
  induction items as [|[r c] items IH]; simpl.
  - intros r c Hin. by apply elem_of_nil in Hin.
  - destruct (dict_get r saved) as [sc|] eqn:Hget.
    + destruct (Z.eqb_spec sc c) as [->|Hne]; simpl.
      * destruct (count_changed what saved items) as [reason|].
        -- destruct IH as (pre & r' & c' & post & sc' & -> & Hpre & Hr' & Hne & ->).
           exists ((r, c) :: pre), r', c', post, sc'. split_and!; auto.
           intros r0 c0 [[= -> ->] | Hin]%elem_of_cons; auto.
        -- intros r0 c0 [[= -> ->] | Hin]%elem_of_cons; auto.
      * exists [], r, c, items, sc. split_and!; auto.
        intros r0 c0 Hin. by apply elem_of_nil in Hin.
    + destruct (count_changed what saved items) as [reason|].
      * destruct IH as (pre & r' & c' & post & sc' & -> & Hpre & Hr' & Hne & ->).
        exists ((r, c) :: pre), r', c', post, sc'. split_and!; auto.
        intros r0 c0 [[= -> ->] | Hin]%elem_of_cons; auto.
      * intros r0 c0 [[= -> ->] | Hin]%elem_of_cons; auto.
Qed.

(** C4, as the code has it. The verdict of the comparison is decided by the
    first field, in the order policy version, attachment count, transit
    gateways per region, VPCs per region, whose saved and current values
    are both present and differ, and the reason reports that field. Present
    means: not [None] for the policy version, positive for the attachment
    count, a key of both dicts for a per-region count (a recorded count of
    zero is an observation). Markers from which every prior observation is
    absent never make the verdict stale. *)
Theorem compare_markers_first_mismatch (saved current : ChangeMarkers) :
  let v := compare_markers saved current in
  ((exists s c, cwan_policy_version saved = Some s /\
                cwan_policy_version current = Some c /\ s <> c /\
                v = (true, "Cloud WAN policy changed: " +:+ fmt_int s
                           +:+ " → " +:+ fmt_int c)) \/
   (~ policy_differs saved current /\ attachments_differ saved current /\
    v = (true, "Attachment count changed: "
               +:+ fmt_int (cwan_attachment_count saved) +:+ " → "
               +:+ fmt_int (cwan_attachment_count current))) \/
   (~ policy_differs saved current /\ ~ attachments_differ saved current /\
    exists reason,
      first_count_change "TGW" (tgw_count saved) (tgw_count current) reason /\
      v = (true, reason)) \/
   (~ policy_differs saved current /\ ~ attachments_differ saved current /\
    counts_agree (tgw_count saved) (tgw_count current) /\
    exists reason,
      first_count_change "VPC" (vpc_count saved) (vpc_count current) reason /\
      v = (true, reason)) \/
   (~ policy_differs saved current /\ ~ attachments_differ saved current /\
    counts_agree (tgw_count saved) (tgw_count current) /\
    counts_agree (vpc_count saved) (vpc_count current) /\
    v = (false, "No changes detected"))) /\
  (cwan_policy_version saved = None ->
   cwan_attachment_count saved = 0 ->
   tgw_count saved = [] -> vpc_count saved = [] ->
   v = (false, "No changes detected")).
Proof.
  simpl.
  assert (Hmain :
    (exists s c, cwan_policy_version saved = Some s /\
                 cwan_policy_version current = Some c /\ s <> c /\
                 compare_markers saved current
                 = (true, "Cloud WAN policy changed: " +:+ fmt_int s
                          +:+ " → " +:+ fmt_int c)) \/
    (~ policy_differs saved current /\ attachments_differ saved current /\
     compare_markers saved current
     = (true, "Attachment count changed: "
              +:+ fmt_int (cwan_attachment_count saved) +:+ " → "
              +:+ fmt_int (cwan_attachment_count current))) \/
    (~ policy_differs saved current /\ ~ attachments_differ saved current /\
     exists reason,
       first_count_change "TGW" (tgw_count saved) (tgw_count current) reason /\
       compare_markers saved current = (true, reason)) \/
    (~ policy_differs saved current /\ ~ attachments_differ saved current /\
     counts_agree (tgw_count saved) (tgw_count current) /\
     exists reason,
       first_count_change "VPC" (vpc_count saved) (vpc_count current) reason /\
       compare_markers saved current = (true, reason)) \/
    (~ policy_differs saved current /\ ~ attachments_differ saved current /\
     counts_agree (tgw_count saved) (tgw_count current) /\
     counts_agree (vpc_count saved) (vpc_count current) /\
     compare_markers saved current = (false, "No changes detected"))).
  { unfold compare_markers.
    destruct (match cwan_policy_version current, cwan_policy_version saved with
              | Some c, Some s => negb (c =? s)%Z
              | _, _ => false
              end) eqn:Hpol.
    { left.
      destruct (cwan_policy_version current) as [c|]; [|done].
      destruct (cwan_policy_version saved) as [s|]; [|done].
      exists s, c. split_and!; auto.
      intros ->. by rewrite Z.eqb_refl in Hpol. }
    right.
    assert (Hnp : ~ policy_differs saved current).
    { intros (s & c & Hs & Hc & Hne). rewrite Hs, Hc in Hpol.
      apply negb_false_iff, Z.eqb_eq in Hpol. congruence. }
    destruct ((cwan_attachment_count current >? 0)
              && (cwan_attachment_count saved >? 0)
              && negb (cwan_attachment_count current
                       =? cwan_attachment_count saved)%Z) eqn:Hatt.
    { left. split_and!; auto.
      apply andb_true_iff in Hatt as [[H1 H2]%andb_true_iff H3].
      apply negb_true_iff, Z.eqb_neq in H3.
      unfold attachments_differ. lia. }
    right.
    assert (Hna : ~ attachments_differ saved current).
    { intros (H1 & H2 & H3).
      apply Z.gtb_lt in H1, H2. rewrite H1, H2 in Hatt. simpl in Hatt.
      apply negb_false_iff, Z.eqb_eq in Hatt. done. }
    pose proof (count_changed_spec "TGW" (tgw_count saved) (tgw_count current))
      as Htgw.
    destruct (count_changed "TGW" (tgw_count saved) (tgw_count current))
      as [reason|].
    { left. eauto 10. }
    right.
    pose proof (count_changed_spec "VPC" (vpc_count saved) (vpc_count current))
      as Hvpc.
    destruct (count_changed "VPC" (vpc_count saved) (vpc_count current))
      as [reason|].
    { left. eauto 10. }
    right. auto. }
  split; [exact Hmain|].
  intros Hp Ha Ht Hv.
  destruct Hmain as [(s & c & Hs & _) | [(_ & (Hs & _) & _) |
    [(_ & _ & reason & Hch & _) | [(_ & _ & _ & reason & Hch & _) |
    (_ & _ & _ & _ & Hres)]]]].
  - congruence.
  - lia.
  - destruct Hch as (pre & r & c & post & sc & _ & _ & Hget & _).
    rewrite Ht in Hget. discriminate.
  - destruct Hch as (pre & r & c & post & sc & _ & _ & Hget & _).
    rewrite Hv in Hget. discriminate.
  - exact Hres.
Qed.

Lemma is_stale_compares (w : World) (rs : option (list string))
    (saved : ChangeMarkers) (w' : World) :
  get_saved_markers w = (Some saved, w') ->
  is_stale w rs
  = (compare_markers saved (get_current_markers (aws w') rs), w').
Proof. intros Hs. unfold is_stale. by rewrite Hs. Qed.

(** C4 fails as stated: a region recorded with zero transit gateways that
    now has one makes the verdict stale, although the saved value of that
    field is zero and no field has two non-zero values that differ. *)
Lemma compare_markers_zero_count_counterexample :
  let saved := new_ChangeMarkers None 0 (Some [("eu-west-1", 0)]) None in
  let current := new_ChangeMarkers None 0 (Some [("eu-west-1", 1)]) None in
  compare_markers saved current
    = (true, "TGW count changed in eu-west-1: 0 → 1") /\
  ~ nonzero_fields_differ saved current.
Proof.
  cbv zeta. split; [reflexivity|].
  intros [(s & c & Hs & _) | [(Hs & _) | [(r & s & c & Hs & Hc & Hs0 & _) |
    (r & s & c & Hs & _)]]]; cbn -[String.eqb] in *; try done.
  destruct (String.eqb "eu-west-1" r); congruence.
Qed.

(** ** The trace engine *)

Lemma find_eni_cached_none (a : Aws) (topo topo1 : NetworkTopology)
    (addr : string) :
  _find_eni_cached a topo addr = Ok (None, topo1) ->
  topo1 = topo /\
  forall addr', exists o t, _find_eni_cached a topo addr' = Ok (o, t).
Proof.
  unfold _find_eni_cached, _find_eni_api. intros Hnone.
  destruct (eni_index topo !! addr); [done|].
  assert (Hrs : exists rs,
            match regions topo with
            | [] => describe_regions a
            | _ :: _ => Ok (regions topo)
            end = Ok rs).
  { destruct (regions topo); [|by eauto].
    destruct (describe_regions a); [by eauto | done]. }
  destruct Hrs as [rs Hrs]. rewrite Hrs in Hnone |- *. cbn [rbind] in *.
  split.
  - destruct (find_eni_ordered a addr _); congruence.
  - intros addr'. destruct (eni_index topo !! addr'); [by eauto|].
    cbn [rbind]. destruct (find_eni_ordered a addr' _); eauto.
Qed.

Section TraceFacts.
Context `{!IpAddressLib}.

Lemma find_best_route_none (rs : list route) (dst_ip : string)
    (dst : ip_addr) :
  ip_address dst_ip = Some dst ->
  (forall r n, r ∈ rs -> ~ covers dst r n) ->
  _find_best_route rs dst_ip = Ok None.
Proof.
  intros Hdst Hnone. unfold _find_best_route. rewrite Hdst. f_equal.
  destruct (find_best_route_loop_inv dst rs [] None (-1)) as [blen Hfin].
  { split; [done|]. intros r n Hin. by apply elem_of_nil in Hin. }
  simpl in Hfin.
  destruct (find_best_route_loop dst rs None (-1)) as [r|]; [|done].
  destruct Hfin as (i & n & Hi & Hc & _).
  apply list_elem_of_lookup_2 in Hi. by apply Hnone in Hc.
Qed.

(** Runs [trace] up to the route lookup. *)
Ltac to_route_lookup H :=
  destruct H as (topo & topo1 & Hens & Hsrc & Hdst & Hrt);
  unfold trace, trace_steps;
  rewrite Hens; cbn [rbind];
  rewrite Hsrc; cbn [rbind];
  rewrite Hdst; cbn [rbind];
  rewrite Hrt; cbn [rbind].

(** C8. When the source or the destination address resolves to no
    interface, neither in the address index nor by the live search,
    [trace] returns normally: not reachable, no hops, nothing blocked
    at, and a reason that names the address that was not found (the
    source when it is missing, else the destination). *)
Theorem trace_unresolved (e : AWSTraceroute) (w w' : World)
    (topo topo1 : NetworkTopology) (src dst : string)
    (src_eni : option ENIInfo.t) :
  _ensure_topology e w = Ok (topo, w') ->
  _find_eni_cached (aws w') topo src = Ok (src_eni, topo1) ->
  (src_eni = None \/
   exists topo2, _find_eni_cached (aws w') topo1 dst = Ok (None, topo2)) ->
  exists topo',
    trace e w src dst
    = Ok ({| src_ip := src; dst_ip := dst; reachable := false; hops := [];
             security_checks := []; blocked_at := None;
             blocked_reason :=
               match src_eni with
               | None => "Source IP " +:+ src +:+ " not found in topology"
               | Some _ =>
                   "Destination IP " +:+ dst +:+ " not found in topology"
               end |},
          set_topology topo' e, w').
Proof.
  intros Hens Hsrc Hmiss.
  unfold trace, trace_steps. rewrite Hens. cbn [rbind].
  rewrite Hsrc. cbn [rbind].
  destruct src_eni as [s|].
  - destruct Hmiss as [? | [topo2 Hdst]]; [done|].
    rewrite Hdst. cbn [rbind]. by eexists.
  - apply find_eni_cached_none in Hsrc as [-> Htotal].
    destruct (Htotal dst) as (o & t & Hdst).
    rewrite Hdst. cbn [rbind]. by eexists.
Qed.

(** C7. When both addresses resolve and no non-blackhole entry of the
    source's route table contains the destination address, [trace]
    returns normally: not reachable, the interface hop and the
    route-table hop only, blocked at the route-table hop, with a reason
    that names the destination address and the id of the route table. *)
Theorem trace_no_route (e : AWSTraceroute) (w w' : World)
    (src dst : string) (src_eni dst_eni : ENIInfo.t)
    (src_rt : route_table) (topo' : NetworkTopology) (d : ip_addr) :
  resolved e w src dst src_eni dst_eni src_rt topo' w' ->
  ip_address dst = Some d ->
  (forall r n, r ∈ routes src_rt -> ~ covers d r n) ->
  trace e w src dst
  = Ok ({| src_ip := src; dst_ip := dst; reachable := false;
           hops := [eni_hop src src_eni; route_table_hop src_eni src_rt];
           security_checks := [];
           blocked_at := Some (route_table_hop src_eni src_rt);
           blocked_reason :=
             "No route to " +:+ dst +:+ " in route table "
             +:+ rt_id src_rt |},
        set_topology topo' e, w').
Proof.
  intros Hres Hd Hnone. to_route_lookup Hres.
  by rewrite (find_best_route_none _ _ _ Hd Hnone).
Qed.

(** C6, as the code has it. When both addresses resolve to interfaces of
    the same VPC and the entry that longest-prefix match selects in the
    source's route table has the target [local], [trace] returns
    reachable with exactly three hops: interface, route table,
    destination. *)
Theorem trace_local (e : AWSTraceroute) (w w' : World)
    (src dst : string) (src_eni dst_eni : ENIInfo.t)
    (src_rt : route_table) (topo' : NetworkTopology) (r : route) :
  resolved e w src dst src_eni dst_eni src_rt topo' w' ->
  ENIInfo.vpc_id src_eni = ENIInfo.vpc_id dst_eni ->
  _find_best_route (routes src_rt) dst = Ok (Some r) ->
  target r = "local" ->
  exists res,
    trace e w src dst = Ok (res, set_topology topo' e, w') /\
    reachable res = true /\
    hops res = [eni_hop src src_eni; route_table_hop src_eni src_rt;
                mk_hop 3 "destination" (ENIInfo.eni_id dst_eni)
                  ("dst:" +:+ dst) (ENIInfo.region dst_eni) []] /\
    map Hop.type (hops res) = ["eni"; "route_table"; "destination"] /\
    blocked_at res = None /\ blocked_reason res = "".
Proof.
  intros Hres Hvpc Hbest Htgt. to_route_lookup Hres.
  rewrite Hbest. cbn [rbind].
  apply String.eqb_eq in Hvpc. rewrite Htgt, Hvpc.
  eexists. split; [reflexivity|]. by repeat split.
Qed.

(** C9, as the code has it. When the selected entry has the target
    [local], the two interfaces are in different VPCs and the entry
    carries no core-network ARN, [trace] returns not reachable with the
    reason "Unsupported route target: local", the interface and
    route-table hops only, and nothing blocked at. *)
Theorem trace_local_other_vpc (e : AWSTraceroute) (w w' : World)
    (src dst : string) (src_eni dst_eni : ENIInfo.t)
    (src_rt : route_table) (topo' : NetworkTopology) (r : route) :
  resolved e w src dst src_eni dst_eni src_rt topo' w' ->
  ENIInfo.vpc_id src_eni <> ENIInfo.vpc_id dst_eni ->
  _find_best_route (routes src_rt) dst = Ok (Some r) ->
  target r = "local" ->
  truthy (core_network_arn r) = false ->
  trace e w src dst
  = Ok ({| src_ip := src; dst_ip := dst; reachable := false;
           hops := [eni_hop src src_eni; route_table_hop src_eni src_rt];
           security_checks := [];
           blocked_at := None;
           blocked_reason := "Unsupported route target: local" |},
        set_topology topo' e, w').
Proof.
  intros Hres Hvpc Hbest Htgt Harn. to_route_lookup Hres.
  rewrite Hbest. cbn [rbind]. rewrite Htgt, Harn.
  apply String.eqb_neq in Hvpc. rewrite Hvpc.
  reflexivity.
Qed.

Lemma firewall_hops_filter (atts : list attachment) (nfg reg : string) :
  forall res hop_seq,
    firewall_hops atts nfg reg res hop_seq
    = firewall_hops (filter (serves nfg reg) atts) nfg reg res hop_seq.
Proof.
  induction atts as [|att atts IH]; intros res hop_seq; [done|].
  rewrite filter_cons. cbn [firewall_hops].
  destruct (decide (serves nfg reg att)) as [[Hn He]|Hno].
  - cbn [firewall_hops].
    rewrite !bool_decide_eq_true_2 by done. cbn [andb]. apply IH.
  - destruct (bool_decide (NetworkFunctionGroupName att = Some nfg)) eqn:Hn;
      destruct (bool_decide (EdgeLocation att = Some reg)) eqn:He;
      cbn [andb]; try apply IH.
    apply bool_decide_eq_true_1 in Hn, He. by destruct Hno.
Qed.

Lemma firewall_hops_single (atts : list attachment) (nfg reg : string)
    (att : attachment) (res : TraceResult) (hop_seq : Z) :
  filter (serves nfg reg) atts = [att] ->
  firewall_hops atts nfg reg res hop_seq
  = (append_hop (firewall_hop (hop_seq + 1) att) res, hop_seq + 1).
Proof.
  intros Hone. rewrite firewall_hops_filter, Hone.
  assert (Hs : serves nfg reg att).
  { assert (Hin : att ∈ filter (serves nfg reg) atts)
      by (rewrite Hone; apply list_elem_of_here).
    by apply list_elem_of_filter in Hin as [? _]. }
  destruct Hs as [Hn He]. cbn [firewall_hops].
  by rewrite !bool_decide_eq_true_2 by done.
Qed.

(** C5, as the code has it. When the selected entry of the source's route
    table carries a core-network ARN and the same-VPC local branch does
    not apply (the entry's target is not [local] or the interfaces are in
    different VPCs), the source VPC's attachment gives a segment, the
    first send-via action matching the pair of segments names an
    inspection group, exactly one attachment serves that group at the
    source's edge, and both interfaces are in the same region, [trace]
    returns reachable with exactly the hops interface, route table,
    Cloud WAN segment, inspection group, firewall, destination, numbered
    1 to 6, the firewall hop carrying the id of that attachment. *)
Theorem trace_cloudwan_inspection (e : AWSTraceroute) (w w' : World)
    (src dst : string) (src_eni dst_eni : ENIInfo.t)
    (src_rt : route_table) (topo' : NetworkTopology) (r : route)
    (seg nfg : string) (att : attachment) :
  resolved e w src dst src_eni dst_eni src_rt topo' w' ->
  _find_best_route (routes src_rt) dst = Ok (Some r) ->
  truthy (core_network_arn r) = true ->
  (target r <> "local" \/ ENIInfo.vpc_id src_eni <> ENIInfo.vpc_id dst_eni) ->
  _get_segment_for_vpc topo' (ENIInfo.vpc_id src_eni)
    (ENIInfo.region src_eni) = Some seg ->
  seg <> "" ->
  _get_send_via_nfg topo' seg
    (_get_segment_for_vpc topo' (ENIInfo.vpc_id dst_eni)
       (ENIInfo.region dst_eni)) = Some nfg ->
  nfg <> "" ->
  filter (serves nfg (ENIInfo.region src_eni)) (cwan_attachments topo')
    = [att] ->
  ENIInfo.region src_eni = ENIInfo.region dst_eni ->
  exists res,
    trace e w src dst = Ok (res, set_topology topo' e, w') /\
    reachable res = true /\
    hops res
    = [eni_hop src src_eni;
       route_table_hop src_eni src_rt;
       mk_hop 3 "cloud_wan_segment" seg ("segment:" +:+ seg)
         (ENIInfo.region src_eni) [];
       mk_hop 4 "nfg" nfg ("inspection:" +:+ nfg) (ENIInfo.region src_eni) [];
       firewall_hop 5 att;
       mk_hop 6 "destination" (ENIInfo.eni_id dst_eni) ("dst:" +:+ dst)
         (ENIInfo.region dst_eni)
         [("vpc_id", Some (ENIInfo.vpc_id dst_eni));
          ("segment",
           _get_segment_for_vpc topo' (ENIInfo.vpc_id dst_eni)
             (ENIInfo.region dst_eni))]] /\
    map Hop.type (hops res)
    = ["eni"; "route_table"; "cloud_wan_segment"; "nfg"; "firewall";
       "destination"] /\
    Hop.detail (firewall_hop 5 att)
    = [("attachment_id", Some (AttachmentId att))].
Proof.
  intros Hres Hbest Harn Hnotlocal Hseg Hsegne Hnfg Hnfgne Hone Hreg.
  to_route_lookup Hres.
  rewrite Hbest. cbn [rbind]. rewrite Harn.
  assert (Hloc : String.eqb (target r) "local"
                 && String.eqb (ENIInfo.vpc_id src_eni)
                      (ENIInfo.vpc_id dst_eni) = false).
  { apply andb_false_iff.
    destruct Hnotlocal as [Ht | Hv]; [left | right];
      by apply String.eqb_neq. }
  rewrite Hloc.
  unfold _trace_via_cloudwan. rewrite Hseg.
  change (default "" (Some seg)) with seg. rewrite Hnfg.
  change (default "" (Some nfg)) with nfg.
  apply String.eqb_neq in Hsegne, Hnfgne.
  cbn [truthy]. rewrite Hsegne, Hnfgne. cbn [negb].
  rewrite (firewall_hops_single _ _ _ att) by done.
  apply String.eqb_eq in Hreg. rewrite Hreg. cbn [negb].
  eexists. split; [reflexivity|]. by repeat split.
Qed.

End TraceFacts.

(** ** The properties on the sample snapshot *)

Example ipv4_network_masks_host_bits :
  ipv4_network "10.0.1.77/24"
  = Some {| net_version := IPv4; network_address := 167772416; prefixlen := 24 |}
  /\ ipv4_network "10.0.1.77/33" = None
  /\ ipv4_address "10.0.01.7" = None.
Proof. repeat split. Qed.

Example endswith_vpc_id :
  endswith "arn:aws:ec2:eu-west-1:111122223333:vpc/vpc-1" "vpc-1" = true
  /\ endswith "arn:aws:ec2:eu-west-1:111122223333:vpc/vpc-1" "vpc-2" = false
  /\ split_last "/" "arn:aws:ec2:eu-west-1:111122223333:vpc/vpc-fw" = "vpc-fw".
Proof. repeat split. Qed.

Example unchanged_markers_are_fresh :
  let m := new_ChangeMarkers (Some 7) 3 (Some [("eu-west-1", 2)])
             (Some [("eu-west-1", 4)]) in
  compare_markers m m = (false, "No changes detected").
Proof. reflexivity. Qed.

Lemma sample_resolved (rs : list route) (src dst : string)
    (src_eni dst_eni : ENIInfo.t) :
  _find_eni_cached aws_offline (sample_topology rs) src
    = Ok (Some src_eni, sample_topology rs) ->
  _find_eni_cached aws_offline (sample_topology rs) dst
    = Ok (Some dst_eni, sample_topology rs) ->
  source_route_table aws_offline (sample_topology rs) src_eni
    = Ok (sample_route_table rs) ->
  resolved (loaded_engine (sample_topology rs)) offline_world src dst
    src_eni dst_eni (sample_route_table rs) (sample_topology rs) offline_world.
Proof. intros Hs Hd Hrt. exists (sample_topology rs), (sample_topology rs). done. Qed.

Example tie_keeps_first_entry :
  _find_best_route
    [ {| destination := "10.0.1.0/24"; target := "local";
         core_network_arn := None; state := "blackhole" |};
      local_route "10.0.0.0/16";
      eni_route "10.0.0.0/16" "eni-0fw";
      eni_route "not-a-cidr" "eni-0fw";
      eni_route "192.168.0.0/24" "eni-0fw" ] "10.0.1.9"
  = Ok (Some (local_route "10.0.0.0/16")).
Proof. reflexivity. Qed.

Lemma find_best_route_longest_prefix_witness :
  let rs := [local_route "10.0.0.0/8"; local_route "10.0.0.0/16";
             eni_route "10.0.0.0/16" "eni-0fw"] in
  let d := {| addr_version := IPv4; addr_ip := 167772425 |} in
  exists sel,
    _find_best_route rs "10.0.1.9" = Ok sel /\
    match sel with
    | Some r =>
        exists i n,
          rs !! i = Some r /\ covers d r n /\
          (forall r' n', r' ∈ rs -> covers d r' n' ->
             (prefixlen n' <= prefixlen n)%N) /\
          (forall j r' n', (j < i)%nat -> rs !! j = Some r' ->
             covers d r' n' -> (prefixlen n' < prefixlen n)%N)
    | None => forall r n, r ∈ rs -> ~ covers d r n
    end.
Proof.
  cbv zeta.
  apply (find_best_route_longest_prefix
           [local_route "10.0.0.0/8"; local_route "10.0.0.0/16";
            eni_route "10.0.0.0/16" "eni-0fw"]
           "10.0.1.9" {| addr_version := IPv4; addr_ip := 167772425 |}).
  reflexivity.
Defined.

Lemma trace_unresolved_witness :
  exists topo',
    trace (loaded_engine (sample_topology [local_route "10.0.0.0/16"]))
      offline_world "10.9.9.9" "10.0.1.9"
    = Ok ({| src_ip := "10.9.9.9"; dst_ip := "10.0.1.9"; reachable := false;
             hops := []; security_checks := []; blocked_at := None;
             blocked_reason := "Source IP 10.9.9.9 not found in topology" |},
          set_topology topo'
            (loaded_engine (sample_topology [local_route "10.0.0.0/16"])),
          offline_world).
Proof.
  apply (trace_unresolved
           (loaded_engine (sample_topology [local_route "10.0.0.0/16"]))
           offline_world offline_world
           (sample_topology [local_route "10.0.0.0/16"])
           (sample_topology [local_route "10.0.0.0/16"])
           "10.9.9.9" "10.0.1.9" None).
  - reflexivity.
  - reflexivity.
  - left. reflexivity.
Defined.

Lemma trace_no_route_witness :
  let rs := [local_route "10.0.0.0/16"] in
  trace (loaded_engine (sample_topology rs)) offline_world
    "10.0.1.5" "172.16.0.1"
  = Ok ({| src_ip := "10.0.1.5"; dst_ip := "172.16.0.1"; reachable := false;
           hops := [eni_hop "10.0.1.5" info_a;
                    route_table_hop info_a (sample_route_table rs)];
           security_checks := [];
           blocked_at := Some (route_table_hop info_a (sample_route_table rs));
           blocked_reason := "No route to 172.16.0.1 in route table rtb-1" |},
        set_topology (sample_topology rs) (loaded_engine (sample_topology rs)),
        offline_world).
Proof.
  cbv zeta.
  apply (trace_no_route
           (loaded_engine (sample_topology [local_route "10.0.0.0/16"]))
           offline_world offline_world "10.0.1.5" "172.16.0.1" info_a info_d
           (sample_route_table [local_route "10.0.0.0/16"])
           (sample_topology [local_route "10.0.0.0/16"])
           {| addr_version := IPv4; addr_ip := 2886729729 |}).
  - apply sample_resolved; reflexivity.
  - reflexivity.
  - intros r n Hin (_ & _ & Hnet & Hc).
    apply list_elem_of_singleton in Hin. subst r.
    vm_compute in Hnet. injection Hnet as <-.
    vm_compute in Hc. discriminate Hc.
Defined.

Lemma trace_local_witness :
  let rs := [local_route "10.0.0.0/16"] in
  exists res,
    trace (loaded_engine (sample_topology rs)) offline_world
      "10.0.1.5" "10.0.1.9"
    = Ok (res, set_topology (sample_topology rs)
                 (loaded_engine (sample_topology rs)), offline_world) /\
    reachable res = true /\
    hops res = [eni_hop "10.0.1.5" info_a;
                route_table_hop info_a (sample_route_table rs);
                mk_hop 3 "destination" "eni-b" "dst:10.0.1.9" "eu-west-1" []] /\
    map Hop.type (hops res) = ["eni"; "route_table"; "destination"] /\
    blocked_at res = None /\ blocked_reason res = "".
Proof.
  cbv zeta.
  apply (trace_local
           (loaded_engine (sample_topology [local_route "10.0.0.0/16"]))
           offline_world offline_world "10.0.1.5" "10.0.1.9" info_a info_b
           (sample_route_table [local_route "10.0.0.0/16"])
           (sample_topology [local_route "10.0.0.0/16"])
           (local_route "10.0.0.0/16")).
  - apply sample_resolved; reflexivity.
  - reflexivity.
  - reflexivity.
  - reflexivity.
Defined.

(** C6 fails as stated: both interfaces are in [vpc-1] and the route table
    has a local route for [10.0.0.0/16] that covers the destination, but a
    more specific entry sends [10.0.1.0/24] to an appliance interface;
    longest-prefix match selects that entry and the trace is blocked after
    two hops. *)
Lemma trace_local_shadowed_counterexample :
  let rs := [local_route "10.0.0.0/16"; eni_route "10.0.1.0/24" "eni-0fw"] in
  let topo := sample_topology rs in
  let d := {| addr_version := IPv4; addr_ip := 167772425 |} in
  resolved (loaded_engine topo) offline_world "10.0.1.5" "10.0.1.9"
    info_a info_b (sample_route_table rs) topo offline_world /\
  ENIInfo.vpc_id info_a = ENIInfo.vpc_id info_b /\
  ip_address "10.0.1.9" = Some d /\
  local_route "10.0.0.0/16" ∈ rs /\
  (exists n, covers d (local_route "10.0.0.0/16") n) /\
  exists res e',
    trace (loaded_engine topo) offline_world "10.0.1.5" "10.0.1.9"
      = Ok (res, e', offline_world) /\
    reachable res = false /\
    map Hop.type (hops res) = ["eni"; "route_table"] /\
    blocked_reason res = "Unsupported route target: eni-0fw".
Proof.
  cbv zeta. split_and!.
  - apply sample_resolved; reflexivity.
  - reflexivity.
  - reflexivity.
  - apply list_elem_of_here.
  - eexists. unfold covers. split_and!; [done | done | reflexivity | reflexivity].
  - eexists _, _. split; [reflexivity|]. by repeat split.
Qed.

Lemma trace_local_other_vpc_witness :
  let rs := [local_route "10.0.0.0/8"] in
  trace (loaded_engine (sample_topology rs)) offline_world
    "10.0.1.5" "10.1.0.7"
  = Ok ({| src_ip := "10.0.1.5"; dst_ip := "10.1.0.7"; reachable := false;
           hops := [eni_hop "10.0.1.5" info_a;
                    route_table_hop info_a (sample_route_table rs)];
           security_checks := [];
           blocked_at := None;
           blocked_reason := "Unsupported route target: local" |},
        set_topology (sample_topology rs) (loaded_engine (sample_topology rs)),
        offline_world).
Proof.
  cbv zeta.
  apply (trace_local_other_vpc
           (loaded_engine (sample_topology [local_route "10.0.0.0/8"]))
           offline_world offline_world "10.0.1.5" "10.1.0.7" info_a info_c
           (sample_route_table [local_route "10.0.0.0/8"])
           (sample_topology [local_route "10.0.0.0/8"])
           (local_route "10.0.0.0/8")).
  - apply sample_resolved; reflexivity.
  - discriminate.
  - reflexivity.
  - reflexivity.
  - reflexivity.
Defined.

(** C9 fails as stated: the selected entry is a core-network route, which
    discovery stores with the target [local]; the interfaces are in
    different VPCs, and the trace goes through the core network and ends
    reachable with six hops. *)
Lemma trace_local_other_vpc_counterexample :
  let rs := [local_route "10.0.0.0/16"; cloudwan_route "10.1.0.0/16"] in
  let topo := sample_topology rs in
  resolved (loaded_engine topo) offline_world "10.0.1.5" "10.1.0.7"
    info_a info_c (sample_route_table rs) topo offline_world /\
  _find_best_route rs "10.1.0.7" = Ok (Some (cloudwan_route "10.1.0.0/16")) /\
  target (cloudwan_route "10.1.0.0/16") = "local" /\
  ENIInfo.vpc_id info_a <> ENIInfo.vpc_id info_c /\
  exists res e',
    trace (loaded_engine topo) offline_world "10.0.1.5" "10.1.0.7"
      = Ok (res, e', offline_world) /\
    reachable res = true /\
    blocked_reason res = "" /\
    map Hop.type (hops res)
    = ["eni"; "route_table"; "cloud_wan_segment"; "nfg"; "firewall";
       "destination"].
Proof.
  cbv zeta. split_and!.
  - apply sample_resolved; reflexivity.
  - reflexivity.
  - reflexivity.
  - discriminate.
  - eexists _, _. split; [reflexivity|]. by repeat split.
Qed.

Lemma trace_cloudwan_inspection_witness :
  let rs := [local_route "10.0.0.0/16"; cloudwan_route "10.1.0.0/16"] in
  let topo := sample_topology rs in
  exists res,
    trace (loaded_engine topo) offline_world "10.0.1.5" "10.1.0.7"
      = Ok (res, set_topology topo (loaded_engine topo), offline_world) /\
    reachable res = true /\
    hops res
    = [eni_hop "10.0.1.5" info_a;
       route_table_hop info_a (sample_route_table rs);
       mk_hop 3 "cloud_wan_segment" "prod" "segment:prod" "eu-west-1" [];
       mk_hop 4 "nfg" "inspect" "inspection:inspect" "eu-west-1" [];
       firewall_hop 5 firewall_attachment;
       mk_hop 6 "destination" "eni-c" "dst:10.1.0.7" "eu-west-1"
         [("vpc_id", Some "vpc-2"); ("segment", Some "dev")]] /\
    map Hop.type (hops res)
    = ["eni"; "route_table"; "cloud_wan_segment"; "nfg"; "firewall";
       "destination"] /\
    Hop.detail (firewall_hop 5 firewall_attachment)
    = [("attachment_id", Some "attachment-fw")].
Proof.
  cbv zeta.
  apply (trace_cloudwan_inspection
           (loaded_engine
              (sample_topology
                 [local_route "10.0.0.0/16"; cloudwan_route "10.1.0.0/16"]))
           offline_world offline_world "10.0.1.5" "10.1.0.7" info_a info_c
           (sample_route_table
              [local_route "10.0.0.0/16"; cloudwan_route "10.1.0.0/16"])
           (sample_topology
              [local_route "10.0.0.0/16"; cloudwan_route "10.1.0.0/16"])
           (cloudwan_route "10.1.0.0/16") "prod" "inspect"
           firewall_attachment).
  - apply sample_resolved; reflexivity.
  - reflexivity.
  - reflexivity.
  - right. discriminate.
  - reflexivity.
  - discriminate.
  - reflexivity.
  - discriminate.
  - reflexivity.
  - reflexivity.
Defined.

(** C5 fails as stated: the selected entry carries a core-network ARN, the
    source VPC is attached to the segment [prod], the send-via action of
    [prod] towards every segment names the group [inspect], exactly one
    attachment serves [inspect] in the region, and both interfaces are in
    [eu-west-1]; but they are in the same VPC and the entry's target is
    [local], so the trace ends after three hops. *)
Lemma trace_cloudwan_same_vpc_counterexample :
  let rs := [cloudwan_route "10.0.0.0/8"] in
  let topo := sample_topology rs in
  resolved (loaded_engine topo) offline_world "10.0.1.5" "10.0.1.9"
    info_a info_b (sample_route_table rs) topo offline_world /\
  _find_best_route rs "10.0.1.9" = Ok (Some (cloudwan_route "10.0.0.0/8")) /\
  truthy (core_network_arn (cloudwan_route "10.0.0.0/8")) = true /\
  _get_segment_for_vpc topo "vpc-1" "eu-west-1" = Some "prod" /\
  _get_send_via_nfg topo "prod" (_get_segment_for_vpc topo "vpc-1" "eu-west-1")
    = Some "inspect" /\
  filter (serves "inspect" "eu-west-1") (cwan_attachments topo)
    = [firewall_attachment] /\
  ENIInfo.region info_a = ENIInfo.region info_b /\
  exists res e',
    trace (loaded_engine topo) offline_world "10.0.1.5" "10.0.1.9"
      = Ok (res, e', offline_world) /\
    reachable res = true /\
    map Hop.type (hops res) = ["eni"; "route_table"; "destination"].
Proof.
  cbv zeta. split_and!.
  - apply sample_resolved; reflexivity.
  - reflexivity.
  - reflexivity.
  - reflexivity.
  - reflexivity.
  - reflexivity.
  - reflexivity.
  - eexists _, _. split; [reflexivity|]. by repeat split.
Qed.

(** * Further properties of the code *)

(** ** The cache store *)

(** X1. A record written by [set] is read back by [get], and the file is
    left as it is, when the reader's account is not told apart from the
    writer's and either expiry is ignored or the record's age does not
    exceed the stored TTL. *)
Theorem cache_set_get {A} (d : A) (ttl : option Z) (account current : option string)
    (now default_ttl now' : Z) (ignore_expiry : bool) :
  same_account account current ->
  ignore_expiry = true \/ now' - now <= stored_ttl ttl default_ttl ->
  Cache.get ignore_expiry current now' (Cache.set d ttl account now default_ttl)
  = (Some d, Cache.set d ttl account now default_ttl).
Proof.
  intros Hacc Hfresh. unfold Cache.get, Cache.set. cbn [Cache.account_id
    Cache.cached_at Cache.ttl_seconds Cache.data].
  assert (Hsame : truthy current && truthy account
                  && negb (bool_decide (account = current)) = false).
  { destruct Hacc as [-> | [-> | ->]].
    - done.
    - by rewrite andb_false_r.
    - rewrite bool_decide_eq_true_2 by done. by rewrite andb_false_r. }
  rewrite Hsame.
  fold (stored_ttl ttl default_ttl).
  destruct Hfresh as [-> | Hle]; [done|].
  destruct (Z.gtb_spec (now' - now) (stored_ttl ttl default_ttl)); [lia|].
  by rewrite andb_false_r.
Qed.

Lemma cache_set_get_witness :
  Cache.get false (Some "111122223333") 900
    (Cache.set "payload" (Some 0) (Some "111122223333") 0 900)
  = (Some "payload", Cache.set "payload" (Some 0) (Some "111122223333") 0 900).
Proof.
  apply (cache_set_get "payload" (Some 0) (Some "111122223333")
           (Some "111122223333") 0 900 900 false).
  - right. right. reflexivity.
  - right. simpl. lia.
Defined.

(** X2. When the record carries a non-empty account id and the reader names
    another non-empty account id, [get] returns nothing and deletes the
    file, whether or not the record has expired and whether or not expiry
    is ignored; every later [get] finds nothing. *)
Theorem cache_account_mismatch_purges {A} (r : Cache.raw A)
    (stored current : string) (now : Z) (ignore_expiry : bool) :
  Cache.account_id r = Some stored ->
  stored <> "" -> current <> "" -> stored <> current ->
  Cache.get ignore_expiry (Some current) now (Cache.Stored r)
  = (None, Cache.Missing) /\
  forall ie acct now',
    Cache.get ie acct now'
      (snd (Cache.get ignore_expiry (Some current) now (Cache.Stored r)))
    = (None, Cache.Missing).
Proof.
  intros Hacc Hs Hc Hne.
  assert (Hget : Cache.get ignore_expiry (Some current) now (Cache.Stored r)
                 = (None, Cache.Missing)).
  { unfold Cache.get. rewrite Hacc. cbn [truthy].
    apply String.eqb_neq in Hs, Hc. rewrite Hs, Hc. cbn [negb andb].
    rewrite bool_decide_eq_false_2 by congruence. done. }
  split; [done|]. intros ie acct now'. by rewrite Hget.
Qed.

Lemma cache_account_mismatch_purges_witness :
  Cache.get true (Some "999900001111") 5
    (Cache.Stored {| Cache.data := "payload"; Cache.cached_at := 0;
                     Cache.ttl_seconds := 900;
                     Cache.account_id := Some "111122223333" |})
  = (None, Cache.Missing).
Proof.
  apply (cache_account_mismatch_purges
           {| Cache.data := "payload"; Cache.cached_at := 0;
              Cache.ttl_seconds := 900;
              Cache.account_id := Some "111122223333" |}
           "111122223333" "999900001111" 5 true); done.
Defined.

(** X3. A record older than its TTL is not returned by a plain [get], but
    the file is kept: a [get] that ignores expiry still returns the data. *)
Theorem cache_expired_kept {A} (r : Cache.raw A) (current : option string)
    (now : Z) :
  same_account (Cache.account_id r) current ->
  Cache.ttl_seconds r < now - Cache.cached_at r ->
  Cache.get false current now (Cache.Stored r) = (None, Cache.Stored r) /\
  Cache.get true current now (Cache.Stored r)
  = (Some (Cache.data r), Cache.Stored r).
Proof.
  intros Hacc Hold. unfold Cache.get.
  assert (Hsame : truthy current && truthy (Cache.account_id r)
                  && negb (bool_decide (Cache.account_id r = current)) = false).
  { destruct Hacc as [-> | [-> | ->]].
    - done.
    - by rewrite andb_false_r.
    - rewrite bool_decide_eq_true_2 by done. by rewrite andb_false_r. }
  rewrite Hsame.
  destruct (Z.gtb_spec (now - Cache.cached_at r) (Cache.ttl_seconds r)); [|lia].
  done.
Qed.

Lemma cache_expired_kept_witness :
  let r := {| Cache.data := "payload"; Cache.cached_at := 0;
              Cache.ttl_seconds := 900; Cache.account_id := None |} in
  Cache.get false (Some "111122223333") 901 (Cache.Stored r)
    = (None, Cache.Stored r) /\
  Cache.get true (Some "111122223333") 901 (Cache.Stored r)
    = (Some "payload", Cache.Stored r).
Proof.
  cbv zeta.
  apply (cache_expired_kept
           {| Cache.data := "payload"; Cache.cached_at := 0;
              Cache.ttl_seconds := 900; Cache.account_id := None |}
           (Some "111122223333") 901).
  - right. left. reflexivity.
  - simpl. lia.
Defined.


(** ** [parse_ttl] *)

Lemma lower_app (a b : string) : lower (a +:+ b) = lower a +:+ lower b.
Proof. induction a as [|c a IH]; simpl; [done | by rewrite IH]. Qed.

Lemma lower_ascii_digit (c : ascii) : is_digit c = true -> lower_ascii c = c.
Proof.
  unfold is_digit, lower_ascii. intros [H1 H2]%andb_true_iff.
  apply N.leb_le in H1, H2.
  destruct (N.leb_spec 65 (N_of_ascii c)); [lia|]. done.
Qed.

Lemma digits_value_span (ds : string) : forall acc n rest,
  digits_value ds acc = Some n ->
  match rest with
  | String c _ => is_digit c = false
  | EmptyString => True
  end ->
  lower ds = ds /\ span_digits (ds +:+ rest) = (ds, rest).
Proof.
  induction ds as [|c ds IH]; intros acc n rest Hval Hrest.
  - split; [done|]. destruct rest as [|c rest]; [done|].
    simpl. by rewrite Hrest.
  - simpl in Hval. fold (is_digit c) in Hval.
    destruct (is_digit c) eqn:Hc; [|done].
    destruct (IH _ _ rest Hval Hrest) as [Hlow Hspan].
    split.
    + simpl. by rewrite Hlow, lower_ascii_digit.
    + simpl. by rewrite Hc, Hspan.
Qed.

Lemma parse_ttl_suffix (ds rest : string) (n : N) (unit : string) :
  parse_decimal ds = Some n ->
  match lower rest with
  | String c _ => is_digit c = false
  | EmptyString => True
  end ->
  ttl_unit (lower rest) = Some unit ->
  parse_ttl (ds +:+ rest) = Ok (Z.of_N n * multipliers unit).
Proof.
  intros Hn Hrest Hunit. unfold parse_ttl. rewrite lower_app.
  assert (Hval : digits_value ds 0%N = Some n).
  { unfold parse_decimal in Hn. by destruct (String.eqb ds ""). }
  destruct (digits_value_span ds _ _ (lower rest) Hval Hrest) as [Hlow Hspan].
  by rewrite Hlow, Hspan, Hn, Hunit.
Qed.

(** X5. For a non-empty string of ASCII digits with value [n], [parse_ttl]
    reads the bare number and the suffix [m] as [n] minutes, [h] as [n]
    hours and [d] as [n] days, in seconds; the unit letter may be upper
    case, and one trailing newline is accepted. *)
Theorem parse_ttl_units (ds : string) (n : N) :
  parse_decimal ds = Some n ->
  parse_ttl ds = Ok (Z.of_N n * 60) /\
  parse_ttl (ds +:+ "m") = Ok (Z.of_N n * 60) /\
  parse_ttl (ds +:+ "h") = Ok (Z.of_N n * 3600) /\
  parse_ttl (ds +:+ "d") = Ok (Z.of_N n * 86400) /\
  parse_ttl (ds +:+ "M") = Ok (Z.of_N n * 60) /\
  parse_ttl (ds +:+ "H") = Ok (Z.of_N n * 3600) /\
  parse_ttl (ds +:+ "D") = Ok (Z.of_N n * 86400) /\
  parse_ttl (ds +:+ "h" +:+ newline) = Ok (Z.of_N n * 3600).
Proof.
  intros Hn.
  assert (Hbare : parse_ttl ds = Ok (Z.of_N n * 60)).
  { assert (Hnil : ds +:+ "" = ds).
    { clear. induction ds as [|c ds IH]; [done|].
      change (String c ds +:+ "") with (String c (ds +:+ "")).
      by rewrite IH. }
    pose proof (parse_ttl_suffix ds "" n "m" Hn I eq_refl) as Hp.
    by rewrite Hnil in Hp. }
  split_and!; [exact Hbare | ..].
  - by apply (parse_ttl_suffix ds "m" n "m").
  - by apply (parse_ttl_suffix ds "h" n "h").
  - by apply (parse_ttl_suffix ds "d" n "d").
  - by apply (parse_ttl_suffix ds "M" n "m").
  - by apply (parse_ttl_suffix ds "H" n "h").
  - by apply (parse_ttl_suffix ds "D" n "d").
  - by apply (parse_ttl_suffix ds ("h" +:+ newline) n "h").
Qed.

Lemma parse_ttl_units_witness :
  parse_ttl "15" = Ok 900 /\ parse_ttl "15m" = Ok 900 /\
  parse_ttl "15h" = Ok 54000 /\ parse_ttl "15d" = Ok 1296000 /\
  parse_ttl "15M" = Ok 900 /\ parse_ttl "15H" = Ok 54000 /\
  parse_ttl "15D" = Ok 1296000 /\
  parse_ttl ("15" +:+ "h" +:+ newline) = Ok 54000.
Proof. apply (parse_ttl_units "15" 15). reflexivity. Defined.

(** X6. Whatever [parse_ttl] returns is a whole, non-negative number of
    minutes in seconds; the empty string, and text whose first character
    is an ASCII character other than a digit, is refused with
    [ValueError]. *)
Theorem parse_ttl_whole_minutes (value : string) :
  (forall n, parse_ttl value = Ok n -> exists k, 0 <= k /\ n = 60 * k) /\
  (match value with
   | String c _ => is_digit c = false /\ (N_of_ascii c < 128)%N
   | EmptyString => True
   end -> parse_ttl value = Raise "ValueError").
Proof.
  split.
  - intros n. unfold parse_ttl.
    destruct (span_digits (lower value)) as [num rest].
    destruct (parse_decimal num) as [v|]; [|done].
    destruct (ttl_unit rest) as [unit|]; [|done].
    intros [= <-]. unfold multipliers.
    destruct (String.eqb unit "h"); [|destruct (String.eqb unit "d")].
    + exists (Z.of_N v * 60). lia.
    + exists (Z.of_N v * 1440). lia.
    + exists (Z.of_N v). lia.
  - intros Hfirst. unfold parse_ttl.
    destruct value as [|c value]; [done|]. simpl.
    destruct Hfirst as [Hfirst _].
    assert (Hlow : is_digit (lower_ascii c) = false).
    { unfold lower_ascii.
      destruct ((65 <=? N_of_ascii c)%N && (N_of_ascii c <=? 90)%N) eqn:Hup;
        [|done].
      apply andb_true_iff in Hup as [H1 H2]. apply N.leb_le in H1, H2.
      unfold is_digit. rewrite N_ascii_embedding by lia.
      apply andb_false_iff. right. apply N.leb_gt. lia. }
    by rewrite Hlow.
Qed.

(** ** Change markers *)

Lemma dict_get_set_eq (k : string) (v : Z) (d : counts) :
  dict_get k (dict_set k v d) = Some v.
Proof.
  induction d as [|[k' v'] d IH]; simpl.
  - by rewrite String.eqb_refl.
  - destruct (String.eqb_spec k' k) as [->|Hne]; simpl.
    + by rewrite String.eqb_refl.
    + apply String.eqb_neq in Hne. by rewrite Hne.
Qed.

Lemma dict_get_set_ne (k k' : string) (v : Z) (d : counts) :
  k <> k' -> dict_get k' (dict_set k v d) = dict_get k' d.
Proof.
  intros Hne. induction d as [|[k0 v0] d IH]; simpl.
  - apply String.eqb_neq in Hne. by rewrite Hne.
  - destruct (String.eqb_spec k0 k) as [->|Hne0]; simpl.
    + apply String.eqb_neq in Hne. by rewrite Hne.
    + by rewrite IH.
Qed.

Lemma elem_of_dict_set (k : string) (v : Z) (d : counts) (e : string * Z) :
  e ∈ dict_set k v d -> e = (k, v) \/ e ∈ d.
Proof.
  induction d as [|[k' v'] d IH]; simpl.
  - intros ->%list_elem_of_singleton. by left.
  - destruct (String.eqb k' k).
    + intros [-> | Hin]%elem_of_cons; [by left|].
      right. by apply list_elem_of_further.
    + intros [-> | Hin]%elem_of_cons.
      * right. apply list_elem_of_here.
      * destruct (IH Hin); [by left|]. right. by apply list_elem_of_further.
Qed.

Lemma markers_cloudwan_counts (a : Aws) (m : ChangeMarkers) :
  tgw_count (markers_cloudwan a m) = tgw_count m /\
  vpc_count (markers_cloudwan a m) = vpc_count m.
Proof.
  unfold markers_cloudwan.
  destruct (list_core_networks a) as [[|cn cns]|]; [done| |done].
  destruct (get_core_network_policy a _); [|done].
  by destruct (list_attachments a _).
Qed.

Lemma markers_region_cloudwan (a : Aws) (m : ChangeMarkers) (r : string) :
  cwan_policy_version (markers_region a m r) = cwan_policy_version m /\
  cwan_attachment_count (markers_region a m r) = cwan_attachment_count m.
Proof.
  unfold markers_region.
  destruct (describe_transit_gateways a r); [|done].
  by destruct (describe_vpcs a r).
Qed.

Lemma markers_regions_counts (a : Aws) (l : list string) :
  forall (m : ChangeMarkers) (r : string),
    dict_get r (tgw_count (fold_left (markers_region a) l m))
    = (if bool_decide (r ∈ l)
       then match tgw_count_of a r with
            | Some n => Some n
            | None => dict_get r (tgw_count m)
            end
       else dict_get r (tgw_count m)) /\
    dict_get r (vpc_count (fold_left (markers_region a) l m))
    = (if bool_decide (r ∈ l)
       then match vpc_count_of a r with
            | Some n => Some n
            | None => dict_get r (vpc_count m)
            end
       else dict_get r (vpc_count m)).
Proof.
  induction l as [|x l IH]; intros m r; [done|].
  cbn [fold_left]. destruct (IH (markers_region a m x) r) as [-> ->].
  assert (Hstep :
    dict_get r (tgw_count (markers_region a m x))
    = (if bool_decide (r = x)
       then match tgw_count_of a r with
            | Some n => Some n | None => dict_get r (tgw_count m) end
       else dict_get r (tgw_count m)) /\
    dict_get r (vpc_count (markers_region a m x))
    = (if bool_decide (r = x)
       then match vpc_count_of a r with
            | Some n => Some n | None => dict_get r (vpc_count m) end
       else dict_get r (vpc_count m))).
  { unfold markers_region, tgw_count_of, vpc_count_of.
    destruct (decide (r = x)) as [->|Hne].
    - rewrite !bool_decide_eq_true_2 by done.
      destruct (describe_transit_gateways a x); [|done].
      destruct (describe_vpcs a x); simpl; by rewrite !dict_get_set_eq.
    - rewrite !bool_decide_eq_false_2 by done.
      destruct (describe_transit_gateways a x); [|done].
      destruct (describe_vpcs a x); simpl;
        by rewrite ?dict_get_set_ne by done. }
  destruct Hstep as [Ht Hv]. rewrite Ht, Hv.
  destruct (decide (r = x)) as [->|Hne].
  - rewrite (bool_decide_eq_true_2 (x ∈ x :: l)) by apply list_elem_of_here.
    rewrite (bool_decide_eq_true_2 (x = x)) by done.
    destruct (bool_decide (x ∈ l));
      by destruct (tgw_count_of a x), (vpc_count_of a x).
  - rewrite (bool_decide_eq_false_2 (r = x)) by done.
    destruct (decide (r ∈ l)) as [Hin|Hnin].
    + rewrite (bool_decide_eq_true_2 (r ∈ l)) by done.
      rewrite (bool_decide_eq_true_2 (r ∈ x :: l))
        by (by apply list_elem_of_further). done.
    + rewrite (bool_decide_eq_false_2 (r ∈ l)) by done.
      rewrite (bool_decide_eq_false_2 (r ∈ x :: l)); [done|].
      by intros [?|?]%elem_of_cons.
Qed.

Lemma current_markers_unfold (a : Aws) (rs : option (list string)) :
  get_current_markers a rs
  = fold_left (markers_region a) (take 5 (default [] rs))
      (markers_cloudwan a (new_ChangeMarkers None 0 None None)).
Proof. unfold get_current_markers. by destruct rs as [[|r l]|]. Qed.

(** X7. The per-region counts [get_current_markers] returns are exactly
    these: a region has a transit-gateway count if and only if it is among
    the first five regions asked for and its transit-gateway listing
    answers, and the count is the length of that listing (zero included);
    it has a VPC count if and only if, in addition, its VPC listing
    answers. A failing call leaves the region out and never raises. *)
Theorem current_markers_counts (a : Aws) (rs : option (list string))
    (r : string) :
  dict_get r (tgw_count (get_current_markers a rs))
  = (if bool_decide (r ∈ take 5 (default [] rs)) then tgw_count_of a r
     else None) /\
  dict_get r (vpc_count (get_current_markers a rs))
  = (if bool_decide (r ∈ take 5 (default [] rs)) then vpc_count_of a r
     else None).
Proof.
  rewrite current_markers_unfold.
  destruct (markers_regions_counts a (take 5 (default [] rs))
              (markers_cloudwan a (new_ChangeMarkers None 0 None None)) r)
    as [-> ->].
  destruct (markers_cloudwan_counts a (new_ChangeMarkers None 0 None None))
    as [-> ->].
  simpl. destruct (bool_decide _); [|done].
  by destruct (tgw_count_of a r), (vpc_count_of a r).
Qed.

Lemma markers_regions_entries (a : Aws) (l : list string) :
  forall m : ChangeMarkers,
    (forall r c, (r, c) ∈ tgw_count m -> tgw_count_of a r = Some c) ->
    (forall r c, (r, c) ∈ vpc_count m -> vpc_count_of a r = Some c) ->
    (forall r c, (r, c) ∈ tgw_count (fold_left (markers_region a) l m) ->
       tgw_count_of a r = Some c) /\
    (forall r c, (r, c) ∈ vpc_count (fold_left (markers_region a) l m) ->
       vpc_count_of a r = Some c).
Proof.
  induction l as [|x l IH]; intros m Ht Hv; [done|].
  cbn [fold_left]. apply IH.
  - unfold markers_region, tgw_count_of.
    destruct (describe_transit_gateways a x) as [ts|] eqn:Hx; [|done].
    intros r c Hin.
    assert (Hin' : (r, c) ∈ dict_set x (Z.of_nat (length ts)) (tgw_count m))
      by (by destruct (describe_vpcs a x)).
    apply elem_of_dict_set in Hin' as [[= -> ->] | Hold].
    + by rewrite Hx.
    + by apply Ht.
  - unfold markers_region, vpc_count_of.
    destruct (describe_transit_gateways a x) as [ts|] eqn:Hx; [|done].
    destruct (describe_vpcs a x) as [vs|] eqn:Hvx; [|done].
    intros r c [[= -> ->] | Hold]%elem_of_dict_set.
    + by rewrite Hx, Hvx.
    + by apply Hv.
Qed.

Lemma current_markers_entries (a : Aws) (rs : option (list string)) :
  (forall r c, (r, c) ∈ tgw_count (get_current_markers a rs) ->
     tgw_count_of a r = Some c) /\
  (forall r c, (r, c) ∈ vpc_count (get_current_markers a rs) ->
     vpc_count_of a r = Some c).
Proof.
  rewrite current_markers_unfold.
  destruct (markers_cloudwan_counts a (new_ChangeMarkers None 0 None None))
    as [Ht Hv].
  apply markers_regions_entries; intros r c.
  - rewrite Ht. simpl. by intros ?%elem_of_nil.
  - rewrite Hv. simpl. by intros ?%elem_of_nil.
Qed.

Lemma current_markers_cloudwan (a : Aws) (rs : option (list string)) :
  cwan_policy_version (get_current_markers a rs)
  = cwan_policy_version (get_current_markers a None) /\
  cwan_attachment_count (get_current_markers a rs)
  = cwan_attachment_count (get_current_markers a None).
Proof.
  rewrite !current_markers_unfold. simpl (take 5 (default [] None)).
  cbn [fold_left].
  generalize (markers_cloudwan a (new_ChangeMarkers None 0 None None)).
  induction (take 5 (default [] rs)) as [|x l IH]; intros m; [done|].
  cbn [fold_left]. destruct (IH (markers_region a m x)) as [-> ->].
  apply markers_region_cloudwan.
Qed.

Lemma dict_get_elem_of (k : string) (v : Z) (d : counts) :
  dict_get k d = Some v -> (k, v) ∈ d.
Proof.
  induction d as [|[k' v'] d IH]; simpl; [done|].
  destruct (String.eqb_spec k' k) as [->|Hne].
  - intros [= ->]. apply list_elem_of_here.
  - intros Hget. by apply list_elem_of_further, IH.
Qed.

(** Markers fetched twice from a session that answers the same way compare
    as unchanged, whichever regions each fetch was asked for. *)
Lemma current_markers_compare_fresh (a : Aws) (rs1 rs2 : option (list string)) :
  compare_markers (get_current_markers a rs1) (get_current_markers a rs2)
  = (false, "No changes detected").
Proof.
  unfold compare_markers.
  destruct (current_markers_cloudwan a rs1) as [Hp1 Hc1].
  destruct (current_markers_cloudwan a rs2) as [Hp2 Hc2].
  rewrite Hp1, Hp2, Hc1, Hc2.
  assert (Hpol : match cwan_policy_version (get_current_markers a None),
                       cwan_policy_version (get_current_markers a None) with
                 | Some c, Some s => negb (c =? s)%Z
                 | _, _ => false
                 end = false).
  { destruct (cwan_policy_version (get_current_markers a None)); [|done].
    by rewrite Z.eqb_refl. }
  rewrite Hpol, Z.eqb_refl, andb_false_r.
  destruct (current_markers_entries a rs1) as [Ht1 Hv1].
  destruct (current_markers_entries a rs2) as [Ht2 Hv2].
  pose proof (count_changed_spec "TGW"
    (tgw_count (get_current_markers a rs1))
    (tgw_count (get_current_markers a rs2))) as Ht.
  destruct (count_changed "TGW" _ _) as [reason|].
  { destruct Ht as (pre & r & c & post & sc & Heq & _ & Hget & Hne & _).
    apply dict_get_elem_of, Ht1 in Hget.
    assert (Hin : (r, c) ∈ tgw_count (get_current_markers a rs2))
      by (rewrite Heq; apply elem_of_app; right; apply list_elem_of_here).
    apply Ht2 in Hin. congruence. }
  pose proof (count_changed_spec "VPC"
    (vpc_count (get_current_markers a rs1))
    (vpc_count (get_current_markers a rs2))) as Hv.
  destruct (count_changed "VPC" _ _) as [reason|]; [|done].
  destruct Hv as (pre & r & c & post & sc & Heq & _ & Hget & Hne & _).
  apply dict_get_elem_of, Hv1 in Hget.
  assert (Hin : (r, c) ∈ vpc_count (get_current_markers a rs2))
    by (rewrite Heq; apply elem_of_app; right; apply list_elem_of_here).
  apply Hv2 in Hin. congruence.
Qed.

(** X8. Once the markers fetched from a session have been saved, [is_stale]
    answers "No changes detected" in every later world that holds that
    markers file and talks to a session answering the same way, whatever
    regions the markers were fetched for and whatever regions the check is
    asked about, and leaves that world as it is. *)
Theorem saved_markers_not_stale (w w2 : World) (rs rs2 : option (list string)) :
  aws w2 = aws w ->
  markers_cache w2
  = markers_cache (save_markers (get_current_markers (aws w) rs) w) ->
  is_stale w2 rs2 = ((false, "No changes detected"), w2).
Proof.
  intros Haws Hmc. unfold is_stale, get_saved_markers.
  rewrite Hmc. simpl. rewrite from_dict_to_dict, Haws.
  rewrite current_markers_compare_fresh. f_equal.
  destruct w2; simpl in *. by rewrite Hmc.
Qed.

Lemma saved_markers_not_stale_witness :
  let w := mk_world aws_one_region_down 0 Cache.Missing Cache.Missing in
  let w2 :=
    save_markers (get_current_markers (aws w) (Some ["eu-west-1"; "us-east-1"]))
      w in
  is_stale w2 (Some ["eu-west-1"]) = ((false, "No changes detected"), w2).
Proof.
  cbv zeta.
  apply (saved_markers_not_stale
           (mk_world aws_one_region_down 0 Cache.Missing Cache.Missing)
           _ (Some ["eu-west-1"; "us-east-1"]) (Some ["eu-west-1"]));
    reflexivity.
Defined.

(** ** Discovery: what each unit leaves alone *)

Lemma foldM_preserves {A B} (R : A -> A -> Prop) (f : A -> B -> result A) :
  (forall a, R a a) ->
  (forall a b c, R a b -> R b c -> R a c) ->
  (forall a b a', f a b = Ok a' -> R a a') ->
  forall l a a', foldM f l a = Ok a' -> R a a'.
Proof.
  intros Hrefl Htrans Hstep. induction l as [|b l IH]; intros a a' Hfold.
  - injection Hfold as <-. apply Hrefl.
  - simpl in Hfold. destruct (f a b) as [a1|] eqn:Hf; [|done].
    simpl in Hfold. eapply Htrans; [by eapply Hstep | by apply IH].
Qed.

Lemma fold_left_preserves {A B} (R : A -> A -> Prop) (f : A -> B -> A) :
  (forall a, R a a) ->
  (forall a b c, R a b -> R b c -> R a c) ->
  (forall a b, R a (f a b)) ->
  forall l a, R a (fold_left f l a).
Proof.
  intros Hrefl Htrans Hstep. induction l as [|b l IH]; intros a; simpl.
  - apply Hrefl.
  - eapply Htrans; [apply Hstep | apply IH].
Qed.

Ltac frame_rel :=
  unfold same_header, same_cloudwan, same_tgws, same_vpcs, same_eni_index;
  intros; simpl in *; intuition congruence.

Lemma discover_cloudwan_frame (a : Aws) (t t' : NetworkTopology) :
  _discover_cloudwan a t = Ok t' ->
  same_header t t' /\ same_tgws t t' /\ same_vpcs t t' /\ same_eni_index t t'.
Proof.
  unfold _discover_cloudwan.
  destruct (describe_global_networks a) as [gns|]; [|done]. cbn [rbind].
  destruct (list_core_networks a) as [[|cn cns]|]; [| |done]; cbn [rbind].
  { intros [= <-]. frame_rel. }
  destruct (get_core_network_policy a _) as [p|]; [|done]. cbn [rbind].
  destruct (list_attachments_pages a _) as [pages|]; [|done]. cbn [rbind].
  intros [= <-].
  set (R := fun t0 t1 : NetworkTopology =>
         same_header t0 t1 /\ same_tgws t0 t1 /\ same_vpcs t0 t1 /\
         same_eni_index t0 t1).
  assert (Hfold : forall t0,
    R t0 (fold_left
            (fun t1 page =>
               set_cwan_attachments (cwan_attachments t1 ++ page) t1)
            pages t0)).
  { apply fold_left_preserves; unfold R; frame_rel. }
  specialize (Hfold (set_cwan_policy (PolicyDocument p)
                       (set_core_networks (cn :: cns)
                          (set_global_networks gns t)))).
  unfold R in Hfold. revert Hfold. frame_rel.
Qed.

Lemma tgws_fetch_region_frame (a : Aws) (t t' : NetworkTopology) (r : string) :
  tgws_fetch_region a t r = Ok t' ->
  same_header t t' /\ same_cloudwan t t' /\ same_vpcs t t' /\
  same_eni_index t t' /\
  exists ts, describe_transit_gateways a r = Ok ts /\
             tgws t' = match ts with
                       | [] => tgws t
                       | _ :: _ => <[r := ts]> (tgws t)
                       end.
Proof.
  unfold tgws_fetch_region.
  destruct (describe_transit_gateways a r) as [ts|]; [|done]. cbn [rbind].
  destruct ts as [|x ts].
  { intros [= <-]. split_and!; [frame_rel.. | by exists []]. }
  intros Hfold.
  set (R := fun t0 t1 : NetworkTopology =>
         same_header t0 t1 /\ same_cloudwan t0 t1 /\ same_vpcs t0 t1 /\
         same_eni_index t0 t1 /\ tgws t1 = tgws t0).
  assert (HR : R (set_tgws (<[r := x :: ts]> (tgws t)) t) t').
  { revert Hfold. apply foldM_preserves; unfold R.
    - frame_rel.
    - frame_rel.
    - intros t0 tgw t1.
      destruct (describe_transit_gateway_route_tables a r _); [|done].
      cbn [rbind]. intros [= <-]. frame_rel. }
  unfold R in HR. split_and!; [revert HR; frame_rel.. |].
  exists (x :: ts). split; [done|]. by destruct HR as (_ & _ & _ & _ & ->).
Qed.

Lemma vpcs_fetch_region_frame (a : Aws) (t t' : NetworkTopology) (r : string) :
  vpcs_fetch_region a t r = Ok t' ->
  same_header t t' /\ same_cloudwan t t' /\ same_tgws t t' /\
  same_eni_index t t' /\
  exists vs, describe_vpcs a r = Ok vs /\
             vpcs t' = match vs with
                       | [] => vpcs t
                       | _ :: _ => <[r := vs]> (vpcs t)
                       end.
Proof.
  unfold vpcs_fetch_region.
  destruct (describe_vpcs a r) as [vs|]; [|done]. cbn [rbind].
  destruct vs as [|x vs].
  { intros [= <-]. split_and!; [frame_rel.. | by exists []]. }
  destruct (describe_route_tables a r _) as [rts|]; [|done]. cbn [rbind].
  intros [= <-]. split_and!; [frame_rel.. | by exists (x :: vs)].
Qed.

Lemma eni_fetch_region_frame (a : Aws) (t t' : NetworkTopology) (r : string) :
  eni_fetch_region a t r = Ok t' ->
  same_header t t' /\ same_cloudwan t t' /\ same_tgws t t' /\ same_vpcs t t' /\
  exists pages,
    describe_network_interfaces_pages a r = Ok pages /\
    eni_index t'
    = fold_left (fun m eni => index_eni r eni m) (concat pages) (eni_index t).
Proof.
  unfold eni_fetch_region.
  destruct (describe_network_interfaces_pages a r) as [pages|]; [|done].
  cbn [rbind]. intros [= <-]. split_and!; [frame_rel.. | by exists pages].
Qed.

Lemma discover_tgws_frame (a : Aws) (rs : list string) (t t' : NetworkTopology) :
  _discover_tgws a t rs = Ok t' ->
  same_header t t' /\ same_cloudwan t t' /\ same_vpcs t t' /\
  same_eni_index t t'.
Proof.
  unfold _discover_tgws.
  apply (foldM_preserves
           (fun t0 t1 => same_header t0 t1 /\ same_cloudwan t0 t1 /\
                         same_vpcs t0 t1 /\ same_eni_index t0 t1)).
  - frame_rel.
  - frame_rel.
  - intros t0 r t1 Hf. apply tgws_fetch_region_frame in Hf. tauto.
Qed.

Lemma discover_vpcs_frame (a : Aws) (rs : list string) (t t' : NetworkTopology) :
  _discover_vpcs a t rs = Ok t' ->
  same_header t t' /\ same_cloudwan t t' /\ same_tgws t t' /\
  same_eni_index t t'.
Proof.
  unfold _discover_vpcs.
  apply (foldM_preserves
           (fun t0 t1 => same_header t0 t1 /\ same_cloudwan t0 t1 /\
                         same_tgws t0 t1 /\ same_eni_index t0 t1)).
  - frame_rel.
  - frame_rel.
  - intros t0 r t1 Hf. apply vpcs_fetch_region_frame in Hf. tauto.
Qed.

Lemma build_eni_index_frame (a : Aws) (rs : list string)
    (t t' : NetworkTopology) :
  _build_eni_index a t rs = Ok t' ->
  same_header t t' /\ same_cloudwan t t' /\ same_tgws t t' /\ same_vpcs t t'.
Proof.
  unfold _build_eni_index.
  apply (foldM_preserves
           (fun t0 t1 => same_header t0 t1 /\ same_cloudwan t0 t1 /\
                         same_tgws t0 t1 /\ same_vpcs t0 t1)).
  - frame_rel.
  - frame_rel.
  - intros t0 r t1 Hf. apply eni_fetch_region_frame in Hf. tauto.
Qed.

(** The steps of a [discover] call that returned. *)
Lemma discover_steps (w : World) (arg : option (list string))
    (t : NetworkTopology) (w' : World) :
  discover w arg = Ok (t, w') ->
  exists account rs t1 t2 t3,
    get_caller_identity (aws w) = Ok account /\
    discover_regions (aws w) arg = Ok rs /\
    _discover_cloudwan (aws w) (new_NetworkTopology account rs) = Ok t1 /\
    _discover_tgws (aws w) t1 rs = Ok t2 /\
    _discover_vpcs (aws w) t2 rs = Ok t3 /\
    _build_eni_index (aws w) t3 rs = Ok t /\
    w' = save_markers (get_current_markers (aws w) (Some (take 5 rs)))
           (set_topology_cache
              (Cache.set t None (Some account) (now w) (default_ttl w)) w).
Proof.
  unfold discover, _get_account_id.
  destruct (get_caller_identity (aws w)) as [account|]; [|done]. cbn [rbind].
  destruct (discover_regions (aws w) arg) as [rs|]; [|done]. cbn [rbind].
  destruct (_discover_cloudwan _ _) as [t1|] eqn:H1; [|done]. cbn [rbind].
  destruct (_discover_tgws _ _ _) as [t2|] eqn:H2; [|done]. cbn [rbind].
  destruct (_discover_vpcs _ _ _) as [t3|] eqn:H3; [|done]. cbn [rbind].
  destruct (_build_eni_index _ _ _) as [t4|] eqn:H4; [|done]. cbn [rbind].
  intros [= <- <-]. by exists account, rs, t1, t2, t3.
Qed.

(** ** [discover] and [get_cached] together *)

(** X9. A [discover] call that returns has resolved the account and the
    regions and returns a snapshot that carries them; it leaves the clock
    and the session alone, has written exactly the returned snapshot to the
    topology cache under that account with the default TTL, stamped with
    the time of the call, and has saved the markers of the first five
    regions. *)
Theorem discover_caches_what_it_returns (w : World)
    (arg : option (list string)) (t : NetworkTopology) (w' : World) :
  discover w arg = Ok (t, w') ->
  exists account rs,
    get_caller_identity (aws w) = Ok account /\
    discover_regions (aws w) arg = Ok rs /\
    account_id t = account /\ regions t = rs /\
    aws w' = aws w /\ now w' = now w /\ default_ttl w' = default_ttl w /\
    topology_cache w'
    = Cache.Stored {| Cache.data := t; Cache.cached_at := now w;
                      Cache.ttl_seconds := default_ttl w;
                      Cache.account_id := Some account |} /\
    get_saved_markers w'
    = (Some (get_current_markers (aws w) (Some (take 5 rs))), w').
Proof.
  intros Hd.
  apply discover_steps in Hd
    as (account & rs & t1 & t2 & t3 & Hid & Hrs & H1 & H2 & H3 & H4 & ->).
  exists account, rs.
  apply discover_cloudwan_frame in H1 as ([Ha1 Hr1] & _).
  apply discover_tgws_frame in H2 as ([Ha2 Hr2] & _).
  apply discover_vpcs_frame in H3 as ([Ha3 Hr3] & _).
  apply build_eni_index_frame in H4 as ([Ha4 Hr4] & _).
  split_and!; try done.
  - by rewrite Ha4, Ha3, Ha2, Ha1.
  - by rewrite Hr4, Hr3, Hr2, Hr1.
  - unfold get_saved_markers. simpl. by rewrite from_dict_to_dict.
Qed.

Lemma discover_caches_what_it_returns_witness :
  exists t w',
    discover (mk_world aws_one_region_down 7 Cache.Missing Cache.Missing)
      (Some ["eu-west-1"]) = Ok (t, w') /\
    account_id t = "111122223333" /\ regions t = ["eu-west-1"] /\
    topology_cache w'
    = Cache.Stored {| Cache.data := t; Cache.cached_at := 7;
                      Cache.ttl_seconds := 900;
                      Cache.account_id := Some "111122223333" |}.
Proof.
  eexists _, _. split; [reflexivity|].
  destruct (discover_caches_what_it_returns
              (mk_world aws_one_region_down 7 Cache.Missing Cache.Missing)
              (Some ["eu-west-1"]) _ _ eq_refl)
    as (account & rs & Hid & Hrs & Ha & Hr & _ & _ & _ & Hc & _).
  injection Hid as <-. injection Hrs as <-. by rewrite Hc.
Defined.

(** X10. After a [discover] call that returned, [get_cached] with the
    staleness check on returns that very snapshot and changes nothing, in
    any later world that holds the two cache files as written, talks to a
    session that answers the same way, and whose clock is within the
    default TTL of the discovery. *)
Theorem discover_then_get_cached (w : World) (arg : option (list string))
    (t : NetworkTopology) (w' w2 : World) :
  discover w arg = Ok (t, w') ->
  aws w2 = aws w ->
  topology_cache w2 = topology_cache w' ->
  markers_cache w2 = markers_cache w' ->
  now w2 - now w <= default_ttl w ->
  get_cached w2 true = Ok (Some t, w2).
Proof.
  intros Hd Haws Htc Hmc Hfresh.
  apply discover_steps in Hd
    as (account & rs & t1 & t2 & t3 & Hid & _ & _ & _ & _ & _ & ->).
  set (w' := save_markers (get_current_markers (aws w) (Some (take 5 rs)))
               (set_topology_cache
                  (Cache.set t None (Some account) (now w) (default_ttl w)) w))
    in *.
  assert (Hc : topology_cache w'
               = Cache.Stored {| Cache.data := t; Cache.cached_at := now w;
                                 Cache.ttl_seconds := default_ttl w;
                                 Cache.account_id := Some account |})
    by done.
  assert (Hsaved : get_saved_markers w'
                   = (Some (get_current_markers (aws w) (Some (take 5 rs))), w')).
  { unfold get_saved_markers. simpl. by rewrite from_dict_to_dict. }
  clearbody w'.
  assert (Hsaved2 : get_saved_markers w2
                    = (Some (get_current_markers (aws w) (Some (take 5 rs))), w2)).
  { unfold get_saved_markers in *. rewrite Hmc.
    destruct (Cache.get true None (now w') (markers_cache w')) as [d f] eqn:Hg.
    assert (Hg2 : Cache.get true None (now w2) (markers_cache w') = (d, f)).
    { revert Hg. unfold Cache.get. destruct (markers_cache w'); done. }
    rewrite Hg2. injection Hsaved as Hd Hw. rewrite Hd. f_equal.
    assert (Hf : f = markers_cache w').
    { apply (f_equal markers_cache) in Hw. done. }
    rewrite Hf, <- Hmc. by destruct w2. }
  unfold get_cached, _get_account_id. rewrite Haws, Hid. cbn [rbind].
  rewrite Htc, Hc. unfold Cache.get.
  cbn [Cache.account_id Cache.cached_at Cache.ttl_seconds Cache.data].
  rewrite bool_decide_eq_true_2 by done. rewrite andb_false_r.
  destruct (Z.gtb_spec (now w2 - now w) (default_ttl w)); [lia|].
  cbn [negb andb].
  assert (Hw2 : set_topology_cache
                  (Cache.Stored {| Cache.data := t; Cache.cached_at := now w;
                                   Cache.ttl_seconds := default_ttl w;
                                   Cache.account_id := Some account |}) w2
                = w2).
  { rewrite <- Hc, <- Htc. by destruct w2. }
  rewrite Hw2, Hsaved2.
  unfold is_stale. rewrite Hsaved2, Haws.
  by rewrite current_markers_compare_fresh.
Qed.

Lemma discover_then_get_cached_witness :
  exists t w',
    discover (mk_world aws_one_region_down 7 Cache.Missing Cache.Missing)
      (Some ["eu-west-1"]) = Ok (t, w') /\
    get_cached (mk_world aws_one_region_down 907 (topology_cache w')
                  (markers_cache w')) true
    = Ok (Some t, mk_world aws_one_region_down 907 (topology_cache w')
                    (markers_cache w')).
Proof.
  eexists _, _. split; [reflexivity|].
  eapply (discover_then_get_cached
            (mk_world aws_one_region_down 7 Cache.Missing Cache.Missing)
            (Some ["eu-west-1"])).
  - reflexivity.
  - reflexivity.
  - reflexivity.
  - reflexivity.
  - simpl. lia.
Defined.


(** X12. When the cached snapshot belongs to another account than the
    session's, [get_cached] answers [None] and deletes the topology cache
    file, with or without the staleness check; the markers file stays. *)
Theorem get_cached_foreign_account (w : World) (check_staleness : bool)
    (r : Cache.raw NetworkTopology) (stored current : string) :
  get_caller_identity (aws w) = Ok current ->
  topology_cache w = Cache.Stored r ->
  Cache.account_id r = Some stored ->
  stored <> "" -> current <> "" -> stored <> current ->
  get_cached w check_staleness = Ok (None, clear_cache w) /\
  markers_cache (clear_cache w) = markers_cache w /\
  topology_cache (clear_cache w) = Cache.Missing.
Proof.
  intros Hid Htc Hacc Hs Hc Hne. split; [|done].
  unfold get_cached, _get_account_id. rewrite Hid. cbn [rbind].
  rewrite Htc. unfold Cache.get. rewrite Hacc. cbn [truthy].
  apply String.eqb_neq in Hs, Hc. rewrite Hs, Hc. cbn [negb andb].
  rewrite bool_decide_eq_false_2 by congruence. done.
Qed.

Lemma get_cached_foreign_account_witness :
  let w := mk_world aws_one_region_down 5
             (Cache.set (sample_topology []) None (Some "999900001111") 0 900)
             Cache.Missing in
  get_cached w true = Ok (None, clear_cache w).
Proof.
  cbv zeta.
  apply (get_cached_foreign_account
           (mk_world aws_one_region_down 5
              (Cache.set (sample_topology []) None (Some "999900001111") 0 900)
              Cache.Missing)
           true
           {| Cache.data := sample_topology []; Cache.cached_at := 0;
              Cache.ttl_seconds := 900;
              Cache.account_id := Some "999900001111" |}
           "999900001111" "111122223333"); done.
Defined.

(** ** What the snapshot of a [discover] call holds *)

Lemma foldM_keyed {V} (get : NetworkTopology -> gmap string (list V))
    (fetch : string -> result (list V))
    (f : NetworkTopology -> string -> result NetworkTopology) :
  (forall t r t', f t r = Ok t' ->
     exists vs, fetch r = Ok vs /\
                get t' = match vs with
                         | [] => get t
                         | _ :: _ => <[r := vs]> (get t)
                         end) ->
  forall l t t', foldM f l t = Ok t' ->
    forall r,
      (r ∈ l -> exists vs, fetch r = Ok vs) /\
      get t' !! r
      = if bool_decide (r ∈ l)
        then match fetch r with
             | Ok (v :: vs) => Some (v :: vs)
             | _ => get t !! r
             end
        else get t !! r.
Proof.
  intros Hstep. induction l as [|x l IH]; intros t t' Hfold r.
  - injection Hfold as <-. split; [by intros ?%elem_of_nil | done].
  - simpl in Hfold. destruct (f t x) as [t1|] eqn:Hf; [|done].
    cbn [rbind] in Hfold.
    destruct (Hstep _ _ _ Hf) as (vs & Hx & Hget).
    destruct (IH _ _ Hfold r) as [Hok ->].
    split.
    { intros [-> | Hin]%elem_of_cons; [by eauto | by auto]. }
    destruct (decide (r = x)) as [->|Hne].
    + rewrite (bool_decide_eq_true_2 (x ∈ x :: l)) by apply list_elem_of_here.
      rewrite Hx, Hget.
      destruct vs as [|v vs]; [by destruct (bool_decide (x ∈ l))|].
      rewrite lookup_insert_eq. by destruct (bool_decide (x ∈ l)).
    + assert (Hold : get t1 !! r = get t !! r).
      { rewrite Hget. destruct vs; [done|]. by rewrite lookup_insert_ne. }
      rewrite Hold.
      destruct (decide (r ∈ l)) as [Hin|Hnin].
      * rewrite (bool_decide_eq_true_2 (r ∈ l)) by done.
        rewrite (bool_decide_eq_true_2 (r ∈ x :: l))
          by (by apply list_elem_of_further). done.
      * rewrite (bool_decide_eq_false_2 (r ∈ l)) by done.
        rewrite (bool_decide_eq_false_2 (r ∈ x :: l)); [done|].
        by intros [?|?]%elem_of_cons.
Qed.

(** X13. In the snapshot of a [discover] call that returned, the
    transit-gateway map and the VPC map hold, for each region of the
    snapshot, exactly the listing of that region when it is not empty; a
    region whose listing is empty and a region outside the snapshot have no
    key. Every region's listing has answered. *)
Theorem discover_regional_inventories (w : World) (arg : option (list string))
    (t : NetworkTopology) (w' : World) (r : string) :
  discover w arg = Ok (t, w') ->
  (r ∈ regions t ->
   (exists ts, describe_transit_gateways (aws w) r = Ok ts) /\
   (exists vs, describe_vpcs (aws w) r = Ok vs)) /\
  tgws t !! r
  = (if bool_decide (r ∈ regions t)
     then match describe_transit_gateways (aws w) r with
          | Ok (x :: ts) => Some (x :: ts)
          | _ => None
          end
     else None) /\
  vpcs t !! r
  = (if bool_decide (r ∈ regions t)
     then match describe_vpcs (aws w) r with
          | Ok (x :: vs) => Some (x :: vs)
          | _ => None
          end
     else None).
Proof.
  intros Hd.
  apply discover_steps in Hd
    as (account & rs & t1 & t2 & t3 & _ & _ & H1 & H2 & H3 & H4 & _).
  pose proof (discover_cloudwan_frame _ _ _ H1) as ([_ Hr1] & [Ht1 _] & [Hv1 _] & _).
  pose proof (discover_tgws_frame _ _ _ _ H2) as ([_ Hr2] & _ & [Hv2 _] & _).
  pose proof (discover_vpcs_frame _ _ _ _ H3) as ([_ Hr3] & _ & [Ht3 _] & _).
  pose proof (build_eni_index_frame _ _ _ _ H4) as ([_ Hr4] & _ & [Ht4 _] & [Hv4 _]).
  assert (Hregs : regions t = rs) by (by rewrite Hr4, Hr3, Hr2, Hr1).
  destruct (foldM_keyed tgws (describe_transit_gateways (aws w))
              (tgws_fetch_region (aws w))
              (fun t0 r0 t0' Hf =>
                 proj2 (proj2 (proj2 (proj2
                   (tgws_fetch_region_frame _ _ _ _ Hf)))))
              rs t1 t2 H2 r) as [Htok Htgw].
  destruct (foldM_keyed vpcs (describe_vpcs (aws w))
              (vpcs_fetch_region (aws w))
              (fun t0 r0 t0' Hf =>
                 proj2 (proj2 (proj2 (proj2
                   (vpcs_fetch_region_frame _ _ _ _ Hf)))))
              rs t2 t3 H3 r) as [Hvok Hvpc].
  rewrite Hregs. split_and!.
  - auto.
  - rewrite Ht4, Ht3, Htgw, Ht1. simpl. rewrite lookup_empty.
    destruct (bool_decide (r ∈ rs)); [|done].
    by destruct (describe_transit_gateways (aws w) r) as [[|??]|].
  - rewrite Hv4, Hvpc, Hv2, Hv1. simpl. rewrite lookup_empty.
    destruct (bool_decide (r ∈ rs)); [|done].
    by destruct (describe_vpcs (aws w) r) as [[|??]|].
Qed.

Lemma discover_regional_inventories_witness :
  exists t w',
    discover (mk_world aws_one_region_down 7 Cache.Missing Cache.Missing)
      (Some ["eu-west-1"]) = Ok (t, w') /\
    tgws t !! "eu-west-1" = Some [{| TransitGatewayId := "tgw-0a1" |}] /\
    vpcs t !! "eu-west-1" = None /\
    tgws t !! "us-east-1" = None.
Proof.
  eexists _, _. split; [reflexivity|].
  pose proof (discover_regional_inventories
                (mk_world aws_one_region_down 7 Cache.Missing Cache.Missing)
                (Some ["eu-west-1"]) _ _ "eu-west-1" eq_refl) as (_ & H1 & H2).
  pose proof (discover_regional_inventories
                (mk_world aws_one_region_down 7 Cache.Missing Cache.Missing)
                (Some ["eu-west-1"]) _ _ "us-east-1" eq_refl) as (_ & H3 & _).
  rewrite H1, H2, H3. repeat split.
Defined.

Lemma fold_left_lookup_sound {B V} (step : gmap string V -> B -> gmap string V)
    (Q : B -> string -> V -> Prop) :
  (forall m b k v, step m b !! k = Some v -> m !! k = Some v \/ Q b k v) ->
  forall l m k v,
    fold_left step l m !! k = Some v ->
    m !! k = Some v \/ exists b, b ∈ l /\ Q b k v.
Proof.
  intros Hstep. induction l as [|b l IH]; intros m k v Hl; [by left|].
  simpl in Hl. apply IH in Hl as [Hl | (b' & Hin & Hq)].
  - apply Hstep in Hl as [Hl | Hq]; [by left|].
    right. exists b. split; [apply list_elem_of_here | done].
  - right. exists b'. split; [by apply list_elem_of_further | done].
Qed.

Lemma fold_left_lookup_complete {B V}
    (step : gmap string V -> B -> gmap string V) (C : B -> string -> Prop) :
  (forall m b k, is_Some (m !! k) -> is_Some (step m b !! k)) ->
  (forall m b k, C b k -> is_Some (step m b !! k)) ->
  forall l m k,
    (is_Some (m !! k) \/ exists b, b ∈ l /\ C b k) ->
    is_Some (fold_left step l m !! k).
Proof.
  intros Hmono Hadd. induction l as [|b l IH]; intros m k Hk.
  - destruct Hk as [Hk | (b & Hin & _)]; [done | by apply elem_of_nil in Hin].
  - simpl. apply IH.
    destruct Hk as [Hk | (b' & [-> | Hin]%elem_of_cons & Hc)].
    + left. by apply Hmono.
    + left. by apply Hadd.
    + right. by exists b'.
Qed.

Lemma index_eni_sound (reg : string) (m : gmap string eni_data)
    (eni : network_interface) (k : string) (d : eni_data) :
  index_eni reg eni m !! k = Some d ->
  m !! k = Some d \/
  (Some k ∈ PrivateIpAddresses eni /\ k <> "" /\ d = eni_record reg eni).
Proof.
  unfold index_eni. intros Hl.
  apply (fold_left_lookup_sound _
           (fun addr k d => addr = Some k /\ k <> "" /\ d = eni_record reg eni))
    in Hl as [Hl | (addr & Hin & -> & Hk & ->)]; [by left | by right |].
  clear. intros m addr k d.
  destruct addr as [s|]; simpl; [|by left].
  destruct (String.eqb_spec s "") as [->|Hne]; simpl; [by left|].
  destruct (decide (s = k)) as [->|Hsk].
  - rewrite lookup_insert_eq. intros [= <-]. by right.
  - rewrite lookup_insert_ne by done. by left.
Qed.

Lemma index_eni_complete (reg : string) (m : gmap string eni_data)
    (eni : network_interface) (k : string) :
  is_Some (m !! k) \/ (Some k ∈ PrivateIpAddresses eni /\ k <> "") ->
  is_Some (index_eni reg eni m !! k).
Proof.
  intros Hk. unfold index_eni.
  apply (fold_left_lookup_complete _ (fun addr k => addr = Some k /\ k <> "")).
  - clear. intros m addr k Hk.
    destruct (truthy addr); [|done].
    destruct (decide (default "" addr = k)) as [->|Hne].
    + rewrite lookup_insert_eq. by eauto.
    + by rewrite lookup_insert_ne.
  - clear. intros m addr k [-> Hne]. simpl.
    apply String.eqb_neq in Hne. rewrite Hne. simpl.
    rewrite lookup_insert_eq. by eauto.
  - destruct Hk as [Hk | [Hin Hne]]; [by left|].
    right. by exists (Some k).
Qed.

Lemma build_eni_index_spec (a : Aws) (rs : list string) :
  forall t t', _build_eni_index a t rs = Ok t' ->
    (forall addr d, eni_index t' !! addr = Some d ->
       eni_index t !! addr = Some d \/
       exists reg eni, reg ∈ rs /\ listed_address a reg eni addr /\
                       d = eni_record reg eni) /\
    (forall addr,
       (is_Some (eni_index t !! addr) \/
        exists reg eni, reg ∈ rs /\ listed_address a reg eni addr) ->
       is_Some (eni_index t' !! addr)).
Proof.
  unfold _build_eni_index.
  induction rs as [|r rs IH]; intros t t' Hfold.
  { injection Hfold as <-. split.
    - intros addr d Hl. by left.
    - intros addr [Hk | (reg & eni & Hin & _)]; [done|].
      by apply elem_of_nil in Hin. }
  simpl in Hfold.
  destruct (eni_fetch_region a t r) as [t1|] eqn:Hf; [|done].
  cbn [rbind] in Hfold.
  apply eni_fetch_region_frame in Hf as (_ & _ & _ & _ & pages & Hpages & Hidx).
  destruct (IH _ _ Hfold) as [Hsound Hcomplete]. split.
  - intros addr d Hl.
    apply Hsound in Hl as [Hl | (reg & eni & Hin & Hlisted & ->)].
    + rewrite Hidx in Hl.
      apply (fold_left_lookup_sound _
               (fun eni k d =>
                  Some k ∈ PrivateIpAddresses eni /\ k <> "" /\
                  d = eni_record r eni))
        in Hl as [Hl | (eni & Hin & Haddr & Hne & ->)].
      * by left.
      * right. exists r, eni. split_and!; [apply list_elem_of_here | | done].
        by exists pages.
      * intros m eni k v. apply index_eni_sound.
    + right. exists reg, eni. split_and!; [by apply list_elem_of_further | done..].
  - intros addr Hk. apply Hcomplete.
    destruct Hk as [Hk | (reg & eni & [-> | Hin]%elem_of_cons & Hlisted)].
    + left. rewrite Hidx.
      apply (fold_left_lookup_complete _ (fun _ _ => False)).
      * intros m eni k Hm. apply index_eni_complete. by left.
      * done.
      * by left.
    + left. rewrite Hidx.
      destruct Hlisted as (pages' & Hp' & Hin & Haddr & Hne).
      assert (pages' = pages) as -> by congruence.
      apply (fold_left_lookup_complete _
               (fun eni k => Some k ∈ PrivateIpAddresses eni /\ k <> "")).
      * intros m eni' k Hm. apply index_eni_complete. by left.
      * intros m eni' k Hc. apply index_eni_complete. by right.
      * right. by exists eni.
    + right. by exists reg, eni.
Qed.

(** X14. The address index of a [discover] call that returned is sound and
    complete for the interface listings of the snapshot's regions: every
    entry records an interface that is listed with that address in the
    region the entry names, and every non-empty private address of every
    listed interface is a key of the index. *)
Theorem discover_eni_index (w : World) (arg : option (list string))
    (t : NetworkTopology) (w' : World) :
  discover w arg = Ok (t, w') ->
  (forall addr d, eni_index t !! addr = Some d ->
     exists reg eni, reg ∈ regions t /\ listed_address (aws w) reg eni addr /\
                     d = eni_record reg eni) /\
  (forall reg eni addr,
     reg ∈ regions t -> listed_address (aws w) reg eni addr ->
     is_Some (eni_index t !! addr)).
Proof.
  intros Hd.
  apply discover_steps in Hd
    as (account & rs & t1 & t2 & t3 & _ & _ & H1 & H2 & H3 & H4 & _).
  pose proof (discover_cloudwan_frame _ _ _ H1) as ([_ Hr1] & _ & _ & He1).
  pose proof (discover_tgws_frame _ _ _ _ H2) as ([_ Hr2] & _ & _ & He2).
  pose proof (discover_vpcs_frame _ _ _ _ H3) as ([_ Hr3] & _ & _ & He3).
  pose proof (build_eni_index_frame _ _ _ _ H4) as ([_ Hr4] & _).
  assert (Hregs : regions t = rs) by (by rewrite Hr4, Hr3, Hr2, Hr1).
  assert (Hempty : eni_index t3 = ∅).
  { unfold same_eni_index in *. by rewrite He3, He2, He1. }
  destruct (build_eni_index_spec _ _ _ _ H4) as [Hsound Hcomplete].
  rewrite Hregs. split.
  - intros addr d Hl. apply Hsound in Hl as [Hl | Hl]; [|done].
    by rewrite Hempty, lookup_empty in Hl.
  - intros reg eni addr Hin Hlisted. apply Hcomplete. right. by exists reg, eni.
Qed.

Lemma discover_eni_index_witness :
  exists t w',
    discover sample_world None = Ok (t, w') /\
    eni_index t !! "10.0.1.9"
    = Some {| eni_id := "eni-b"; vpc_id := "vpc-1"; subnet_id := "subnet-1";
              region := "eu-west-1"; security_groups := [] |} /\
    is_Some (eni_index t !! "10.0.1.5").
Proof.
  eexists _, _. split; [reflexivity|].
  destruct (discover_eni_index sample_world None _ _ eq_refl)
    as [Hsound Hcomplete].
  split; [reflexivity|].
  apply (Hcomplete "eu-west-1"
           {| eni_NetworkInterfaceId := "eni-a"; eni_VpcId := "vpc-1";
              eni_SubnetId := "subnet-1";
              PrivateIpAddresses := [Some "10.0.1.5"; None];
              Groups := ["sg-1"] |}).
  - apply list_elem_of_here.
  - eexists. split_and!; [reflexivity | apply list_elem_of_here
                          | apply list_elem_of_here | done].
Defined.

Lemma index_route_table_sound (raw : aws_route_table)
    (m : gmap string route_table) (k : string) (rt : route_table) :
  index_route_table raw m !! k = Some rt ->
  m !! k = Some rt \/ (rt = discovered_route_table raw /\ filed_under raw k).
Proof.
  unfold index_route_table. intros Hl.
  apply (fold_left_lookup_sound _
           (fun assoc k rt =>
              rt = discovered_route_table raw /\
              ((SubnetId assoc = Some k /\ k <> "") \/
               (Main assoc = true /\ k = "main:" +:+ rt_VpcId raw))))
    in Hl as [Hl | (assoc & Hin & -> & Hk)]; [by left | | ].
  - right. split; [done|]. by exists assoc.
  - clear. intros m assoc k rt Hl.
    assert (Hsub : forall v,
      (if truthy (SubnetId assoc)
       then <[default "" (SubnetId assoc) := discovered_route_table raw]> m
       else m) !! k = Some v ->
      m !! k = Some v \/
      (v = discovered_route_table raw /\ SubnetId assoc = Some k /\ k <> "")).
    { intros v. destruct (SubnetId assoc) as [s|]; simpl; [|by left].
      destruct (String.eqb_spec s "") as [->|Hne]; simpl; [by left|].
      destruct (decide (s = k)) as [->|Hsk].
      - rewrite lookup_insert_eq. intros [= <-]. by right.
      - rewrite lookup_insert_ne by done. by left. }
    destruct (Main assoc) eqn:Hmain.
    + destruct (decide ("main:" +:+ rt_VpcId raw = k)) as [<-|Hmk].
      * rewrite lookup_insert_eq in Hl. injection Hl as <-.
        right. split; [done|]. by right.
      * rewrite lookup_insert_ne in Hl by done.
        apply Hsub in Hl as [Hl | (-> & Hs & Hne)]; [by left|].
        right. split; [done|]. by left.
    + apply Hsub in Hl as [Hl | (-> & Hs & Hne)]; [by left|].
      right. split; [done|]. by left.
Qed.

Lemma index_route_table_complete (raw : aws_route_table)
    (m : gmap string route_table) (k : string) :
  is_Some (m !! k) \/ filed_under raw k ->
  is_Some (index_route_table raw m !! k).
Proof.
  intros Hk. unfold index_route_table.
  apply (fold_left_lookup_complete _
           (fun assoc k =>
              (SubnetId assoc = Some k /\ k <> "") \/
              (Main assoc = true /\ k = "main:" +:+ rt_VpcId raw))).
  - clear. intros m assoc k Hm.
    assert (Hsub : is_Some
      ((if truthy (SubnetId assoc)
        then <[default "" (SubnetId assoc) := discovered_route_table raw]> m
        else m) !! k)).
    { destruct (truthy (SubnetId assoc)); [|done].
      destruct (decide (default "" (SubnetId assoc) = k)) as [->|Hne].
      - rewrite lookup_insert_eq. by eauto.
      - by rewrite lookup_insert_ne. }
    destruct (Main assoc); [|done].
    destruct (decide ("main:" +:+ rt_VpcId raw = k)) as [->|Hne].
    + rewrite lookup_insert_eq. by eauto.
    + by rewrite lookup_insert_ne.
  - clear. intros m assoc k [[Hs Hne] | [Hmain ->]].
    + rewrite Hs. simpl. apply String.eqb_neq in Hne. rewrite Hne. simpl.
      destruct (Main assoc).
      * destruct (decide ("main:" +:+ rt_VpcId raw = k)) as [->|Hmk].
        -- rewrite lookup_insert_eq. by eauto.
        -- rewrite lookup_insert_ne by done. rewrite lookup_insert_eq. by eauto.
      * rewrite lookup_insert_eq. by eauto.
    + rewrite Hmain. rewrite lookup_insert_eq. by eauto.
  - destruct Hk as [Hk | (assoc & Hin & Hc)]; [by left|].
    right. by exists assoc.
Qed.

Lemma vpcs_fetch_region_route_tables (a : Aws) (t t' : NetworkTopology)
    (r : string) :
  vpcs_fetch_region a t r = Ok t' ->
  (forall k rt, route_tables t' !! k = Some rt ->
     route_tables t !! k = Some rt \/
     exists raw, listed_route_table a r raw /\
                 rt = discovered_route_table raw /\ filed_under raw k) /\
  (forall k,
     (is_Some (route_tables t !! k) \/
      exists raw, listed_route_table a r raw /\ filed_under raw k) ->
     is_Some (route_tables t' !! k)).
Proof.
  unfold vpcs_fetch_region.
  destruct (describe_vpcs a r) as [vs|] eqn:Hvs; [|done]. cbn [rbind].
  destruct vs as [|v vs].
  { intros [= <-]. split; [by left|].
    intros k [Hk | (raw & (v & vs & rts & Hv & _) & _)]; [done | congruence]. }
  destruct (describe_route_tables a r _) as [rts|] eqn:Hrts; [|done].
  cbn [rbind]. intros [= <-]. simpl. split.
  - intros k rt Hl.
    apply (fold_left_lookup_sound _
             (fun raw k rt => rt = discovered_route_table raw /\ filed_under raw k))
      in Hl as [Hl | (raw & Hin & -> & Hk)]; [by left | |].
    + right. exists raw. split_and!; [|done..]. by exists v, vs, rts.
    + intros m raw k' rt'. apply index_route_table_sound.
  - intros k Hk.
    apply (fold_left_lookup_complete _ (fun raw k => filed_under raw k)).
    + intros m raw k' Hm. apply index_route_table_complete. by left.
    + intros m raw k' Hc. apply index_route_table_complete. by right.
    + destruct Hk as [Hk | (raw & (v' & vs' & rts' & Hv' & Hr' & Hin) & Hf)];
        [by left|].
      right. exists raw. split; [|done].
      assert (v' :: vs' = v :: vs) as Heq by congruence.
      rewrite Heq in Hr'. congruence.
Qed.

Lemma discover_vpcs_route_tables (a : Aws) (rs : list string) :
  forall t t', _discover_vpcs a t rs = Ok t' ->
    (forall k rt, route_tables t' !! k = Some rt ->
       route_tables t !! k = Some rt \/
       exists reg raw, reg ∈ rs /\ listed_route_table a reg raw /\
                       rt = discovered_route_table raw /\ filed_under raw k) /\
    (forall k,
       (is_Some (route_tables t !! k) \/
        exists reg raw, reg ∈ rs /\ listed_route_table a reg raw /\
                        filed_under raw k) ->
       is_Some (route_tables t' !! k)).
Proof.
  unfold _discover_vpcs.
  induction rs as [|r rs IH]; intros t t' Hfold.
  { injection Hfold as <-. split; [by left|].
    intros k [Hk | (reg & raw & Hin & _)]; [done | by apply elem_of_nil in Hin]. }
  simpl in Hfold.
  destruct (vpcs_fetch_region a t r) as [t1|] eqn:Hf; [|done].
  cbn [rbind] in Hfold.
  apply vpcs_fetch_region_route_tables in Hf as [Hs1 Hc1].
  destruct (IH _ _ Hfold) as [Hs Hc]. split.
  - intros k rt Hl. apply Hs in Hl as [Hl | (reg & raw & Hin & Hrest)].
    + apply Hs1 in Hl as [Hl | (raw & Hrest)]; [by left|].
      right. exists r, raw. split; [apply list_elem_of_here | done].
    + right. exists reg, raw. split; [by apply list_elem_of_further | done].
  - intros k Hk. apply Hc.
    destruct Hk as [Hk | (reg & raw & [-> | Hin]%elem_of_cons & Hl & Hf)].
    + left. apply Hc1. by left.
    + left. apply Hc1. right. by exists raw.
    + right. by exists reg, raw.
Qed.

(** X15. The route-table index of a [discover] call that returned is sound
    and complete for the route-table listings of the snapshot's regions:
    every entry is the parsed form of a listed route table that has an
    association filing it under that key (the subnet id of a subnet
    association, or ["main:<vpc id>"] for a main association), and every
    such key of every listed route table is present. *)
Theorem discover_route_table_index (w : World) (arg : option (list string))
    (t : NetworkTopology) (w' : World) :
  discover w arg = Ok (t, w') ->
  (forall k rt, route_tables t !! k = Some rt ->
     exists reg raw, reg ∈ regions t /\ listed_route_table (aws w) reg raw /\
                     rt = discovered_route_table raw /\ filed_under raw k) /\
  (forall reg raw k,
     reg ∈ regions t -> listed_route_table (aws w) reg raw ->
     filed_under raw k -> is_Some (route_tables t !! k)).
Proof.
  intros Hd.
  apply discover_steps in Hd
    as (account & rs & t1 & t2 & t3 & _ & _ & H1 & H2 & H3 & H4 & _).
  pose proof (discover_cloudwan_frame _ _ _ H1) as ([_ Hr1] & _ & [_ Hv1] & _).
  pose proof (discover_tgws_frame _ _ _ _ H2) as ([_ Hr2] & _ & [_ Hv2] & _).
  pose proof (discover_vpcs_frame _ _ _ _ H3) as ([_ Hr3] & _).
  pose proof (build_eni_index_frame _ _ _ _ H4) as ([_ Hr4] & _ & _ & [_ Hv4]).
  assert (Hregs : regions t = rs) by (by rewrite Hr4, Hr3, Hr2, Hr1).
  assert (Hempty : route_tables t2 = ∅) by (by rewrite Hv2, Hv1).
  destruct (discover_vpcs_route_tables _ _ _ _ H3) as [Hsound Hcomplete].
  rewrite Hregs, Hv4. split.
  - intros k rt Hl. apply Hsound in Hl as [Hl | Hl]; [|done].
    by rewrite Hempty, lookup_empty in Hl.
  - intros reg raw k Hin Hl Hf. apply Hcomplete. right. by exists reg, raw.
Qed.

Lemma discover_route_table_index_witness :
  exists t w',
    discover sample_world None = Ok (t, w') /\
    is_Some (route_tables t !! "subnet-1") /\
    is_Some (route_tables t !! "main:vpc-1").
Proof.
  eexists _, _. split; [reflexivity|].
  destruct (discover_route_table_index sample_world None _ _ eq_refl)
    as [_ Hcomplete].
  assert (Hlisted : exists raw,
            listed_route_table aws_sample "eu-west-1" raw /\
            filed_under raw "subnet-1" /\ filed_under raw "main:vpc-1").
  { eexists. split_and!.
    - eexists _, _, _. split_and!; [reflexivity | reflexivity |].
      apply list_elem_of_here.
    - eexists. split; [apply list_elem_of_here|]. left. by split.
    - eexists. split; [apply list_elem_of_further, list_elem_of_here|].
      right. by split. }
  destruct Hlisted as (raw & Hl & Hs & Hm).
  split; apply (Hcomplete "eu-west-1" raw); try done; apply list_elem_of_here.
Defined.

(** ** Invariants of every trace result *)

Lemma numbered_from_app (n : Z) (a b : list Hop.t) :
  numbered_from n (a ++ b)
  <-> numbered_from n a /\ numbered_from (n + Z.of_nat (length a)) b.
Proof.
  revert n. induction a as [|h a IH]; intros n; simpl.
  - rewrite Z.add_0_r. tauto.
  - rewrite IH.
    replace (n + 1 + Z.of_nat (length a)) with (n + Z.pos (Pos.of_succ_nat (length a)))
      by lia.
    tauto.
Qed.

Lemma numbered_from_seqZ (n : Z) (hs : list Hop.t) :
  numbered_from n hs -> map Hop.seq hs = seqZ n (Z.of_nat (length hs)).
Proof.
  revert n. induction hs as [|h hs IH]; intros n; [done|].
  intros [Hh Hrest]. cbn [map length].
  rewrite seqZ_cons by lia. rewrite Hh. f_equal.
  rewrite (IH _ Hrest). f_equal; lia.
Qed.

Lemma firewall_hops_spec (atts : list attachment) (nfg reg : string) :
  forall res hop_seq,
  exists fw,
    firewall_hops atts nfg reg res hop_seq
    = (with_more_hops fw res, hop_seq + Z.of_nat (length fw)) /\
    numbered_from (hop_seq + 1) fw /\
    Forall (fun h => Hop.type h = "firewall") fw.
Proof.
  induction atts as [|att atts IH]; intros res hop_seq.
  - exists []. simpl. split_and!; [|done|done].
    unfold with_more_hops. rewrite app_nil_r, Z.add_0_r. by destruct res.
  - cbn [firewall_hops].
    destruct (bool_decide _ && bool_decide _).
    + destruct (IH (append_hop (firewall_hop (hop_seq + 1) att) res)
                  (hop_seq + 1)) as (fw & -> & Hnum & Hty).
      exists (firewall_hop (hop_seq + 1) att :: fw). split_and!.
      * unfold with_more_hops, append_hop. simpl. rewrite <- app_assoc.
        f_equal. lia.
      * by split.
      * by constructor.
    + apply IH.
Qed.

Section TraceInvariants.
Context `{!IpAddressLib}.

Lemma via_cloudwan_coherent (topo : NetworkTopology) (src dst : string)
    (h1 h2 : Hop.t) (src_eni dst_eni : ENIInfo.t) :
  Hop.seq h1 = 1 -> Hop.seq h2 = 2 ->
  Hop.type h1 <> "destination" -> Hop.type h2 <> "destination" ->
  coherent src dst
    (_trace_via_cloudwan topo
       (append_hop h2 (append_hop h1 (new_TraceResult src dst))) 2
       src_eni dst_eni).
Proof.
  intros Hs1 Hs2 Ht1 Ht2. unfold _trace_via_cloudwan.
  destruct (truthy (_get_segment_for_vpc topo (ENIInfo.vpc_id src_eni)
                      (ENIInfo.region src_eni))); cbn [negb].
  2:{ unfold coherent. simpl. split_and!; try done.
      - rewrite !elem_of_cons, elem_of_nil. intros [?|[?|[]]]; congruence.
      - by left. }
  set (seg := default "" _).
  set (dseg := _get_segment_for_vpc topo (ENIInfo.vpc_id dst_eni) _).
  destruct (truthy (_get_send_via_nfg topo seg dseg)).
  - set (nfg := default "" _).
    match goal with
    | |- context [firewall_hops ?atts ?n ?r ?res ?k] =>
        destruct (firewall_hops_spec atts n r res k) as (fw & -> & Hnum & Hty)
    end.
    assert (Hnodest : "destination" ∉ map Hop.type fw).
    { intros (h & Hh & Hin)%list_elem_of_fmap.
      rewrite Forall_forall in Hty. apply Hty in Hin. congruence. }
    destruct (negb (String.eqb (ENIInfo.region src_eni) (ENIInfo.region dst_eni)));
      unfold coherent; simpl; split_and!; try done.
    + rewrite !numbered_from_app. simpl.
      split_and!; try done; rewrite ?length_app; simpl; lia.
    + eexists. rewrite !last_cons, last_snoc. done.
    + rewrite !numbered_from_app. simpl.
      split_and!; try done; rewrite ?length_app; simpl; lia.
    + eexists. rewrite !last_cons, last_snoc. done.
  - destruct (negb (String.eqb (ENIInfo.region src_eni) (ENIInfo.region dst_eni)));
      unfold coherent; simpl; split_and!; try done; by eexists.
Qed.

Lemma trace_steps_coherent (a : Aws) (topo topo' : NetworkTopology)
    (src dst : string) (res : TraceResult) :
  trace_steps a topo src dst = Ok (res, topo') -> coherent src dst res.
Proof.
  unfold trace_steps.
  destruct (_find_eni_cached a topo src) as [[src_eni t1]|]; [|done].
  cbn [rbind].
  destruct (_find_eni_cached a t1 dst) as [[dst_eni t2]|]; [|done].
  cbn [rbind].
  destruct src_eni as [src_eni|].
  2:{ intros [= <- _]. unfold coherent. simpl. split_and!; try done.
      - by intros ?%elem_of_nil.
      - by left. }
  destruct dst_eni as [dst_eni|].
  2:{ intros [= <- _]. unfold coherent. simpl. split_and!; try done.
      - by intros ?%elem_of_nil.
      - by left. }
  destruct (source_route_table a t2 src_eni) as [src_rt|]; [|done].
  cbn [rbind].
  destruct (_find_best_route (routes src_rt) dst) as [[route|]|]; [| |done];
    cbn [rbind].
  2:{ intros [= <- _]. unfold coherent. simpl. split_and!; try done.
      - rewrite !elem_of_cons, elem_of_nil. intros [?|[?|[]]]; congruence.
      - by right. }
  destruct (String.eqb (target route) "local" && _).
  { intros [= <- _]. unfold coherent. simpl. split_and!; try done. by eexists. }
  destruct (truthy (core_network_arn route)).
  { intros [= <- _]. by apply via_cloudwan_coherent. }
  destruct (negb (String.eqb (target route) "") && _).
  { intros [= <- _]. unfold coherent. simpl. split_and!; try done. by eexists. }
  intros [= <- _]. unfold coherent. simpl. split_and!; try done.
  - rewrite !elem_of_cons, elem_of_nil. intros [?|[?|[]]]; congruence.
  - by left.
Qed.

End TraceInvariants.

Section TraceProperties.
Context `{!IpAddressLib}.

Lemma trace_coherent (e e' : AWSTraceroute) (w w' : World) (src dst : string)
    (res : TraceResult) :
  trace e w src dst = Ok (res, e', w') -> coherent src dst res.
Proof.
  unfold trace.
  destruct (_ensure_topology e w) as [[topo w1]|]; [|done]. cbn [rbind].
  destruct (trace_steps (aws w1) topo src dst) as [[res1 topo1]|] eqn:Hs;
    [|done].
  cbn [rbind]. intros [= <- _ _]. by eapply trace_steps_coherent.
Qed.

(** X16. Whatever path a [trace] call takes, the hops of its result are
    numbered 1, 2, ..., n in order, however many firewall hops the
    inspection group contributes. *)
Theorem trace_hops_numbered (e e' : AWSTraceroute) (w w' : World)
    (src dst : string) (res : TraceResult) :
  trace e w src dst = Ok (res, e', w') ->
  map Hop.seq (hops res) = seqZ 1 (Z.of_nat (length (hops res))).
Proof.
  intros Ht. apply trace_coherent in Ht as (_ & _ & _ & Hnum & _).
  by apply numbered_from_seqZ.
Qed.

(** X17. The verdict of every [trace] result agrees with its path: the
    result echoes the two addresses; when it is reachable it has no
    blocked reason, is blocked nowhere and its last hop is the destination
    hop; when it is not reachable it has a non-empty blocked reason, no
    destination hop, and [blocked_at] is either unset or its last hop. *)
Theorem trace_verdict_coherent (e e' : AWSTraceroute) (w w' : World)
    (src dst : string) (res : TraceResult) :
  trace e w src dst = Ok (res, e', w') ->
  src_ip res = src /\ dst_ip res = dst /\
  (reachable res = true ->
   blocked_reason res = "" /\ blocked_at res = None /\
   exists h, last (hops res) = Some h /\ Hop.type h = "destination") /\
  (reachable res = false ->
   blocked_reason res <> "" /\
   ("destination" ∉ map Hop.type (hops res)) /\
   (blocked_at res = None \/
    (hops res <> [] /\ blocked_at res = last (hops res)))).
Proof.
  intros Ht. apply trace_coherent in Ht as (Hs & Hd & _ & _ & Hv).
  split_and!; [done | done | |]; intros Hr; by rewrite Hr in Hv.
Qed.

End TraceProperties.

Lemma trace_hops_numbered_witness :
  let topo := sample_topology
                [local_route "10.0.0.0/16"; cloudwan_route "10.1.0.0/16"] in
  exists res,
    trace (loaded_engine topo) offline_world "10.0.1.5" "10.1.0.7"
    = Ok (res, set_topology topo (loaded_engine topo), offline_world) /\
    map Hop.seq (hops res) = [1; 2; 3; 4; 5; 6].
Proof.
  cbv zeta. eexists. split; [reflexivity|].
  apply (trace_hops_numbered
           (loaded_engine
              (sample_topology
                 [local_route "10.0.0.0/16"; cloudwan_route "10.1.0.0/16"]))
           (set_topology
              (sample_topology
                 [local_route "10.0.0.0/16"; cloudwan_route "10.1.0.0/16"])
              (loaded_engine
                 (sample_topology
                    [local_route "10.0.0.0/16"; cloudwan_route "10.1.0.0/16"])))
           offline_world offline_world "10.0.1.5" "10.1.0.7").
  reflexivity.
Defined.

Lemma trace_verdict_coherent_witness :
  let topo := sample_topology [local_route "10.0.0.0/16"] in
  exists res,
    trace (loaded_engine topo) offline_world "10.0.1.5" "172.16.0.1"
    = Ok (res, set_topology topo (loaded_engine topo), offline_world) /\
    reachable res = false /\ blocked_reason res <> "".
Proof.
  cbv zeta. eexists. split; [reflexivity|]. split; [reflexivity|].
  refine (proj1 (proj2 (proj2 (proj2
            (trace_verdict_coherent
               (loaded_engine (sample_topology [local_route "10.0.0.0/16"]))
               (set_topology (sample_topology [local_route "10.0.0.0/16"])
                  (loaded_engine (sample_topology [local_route "10.0.0.0/16"])))
               offline_world offline_world "10.0.1.5" "172.16.0.1" _
               eq_refl))) eq_refl)).
Defined.

(** ** The other branches of [trace] *)

Section TraceBranches.
Context `{!IpAddressLib}.

Ltac run_to_route H :=
  destruct H as (topo & topo1 & Hens & Hsrc & Hdst & Hrt);
  unfold trace, trace_steps;
  rewrite Hens; cbn [rbind];
  rewrite Hsrc; cbn [rbind];
  rewrite Hdst; cbn [rbind];
  rewrite Hrt; cbn [rbind].

Lemma not_local_branch (r : route) (src_eni dst_eni : ENIInfo.t) :
  target r <> "local" \/ ENIInfo.vpc_id src_eni <> ENIInfo.vpc_id dst_eni ->
  String.eqb (target r) "local"
  && String.eqb (ENIInfo.vpc_id src_eni) (ENIInfo.vpc_id dst_eni) = false.
Proof.
  intros [Ht | Hv]; apply andb_false_iff; [left | right];
    by apply String.eqb_neq.
Qed.

(** X18. When the selected entry has a target that begins with [tgw-] and
    carries no core-network ARN, [trace] does not look into the transit
    gateway: it returns reachable with exactly four hops, interface, route
    table, the transit gateway named by the target, destination. *)
Theorem trace_via_transit_gateway (e : AWSTraceroute) (w w' : World)
    (src dst : string) (src_eni dst_eni : ENIInfo.t)
    (src_rt : route_table) (topo' : NetworkTopology) (r : route) :
  resolved e w src dst src_eni dst_eni src_rt topo' w' ->
  _find_best_route (routes src_rt) dst = Ok (Some r) ->
  startswith (target r) "tgw-" = true ->
  truthy (core_network_arn r) = false ->
  trace e w src dst
  = Ok ({| src_ip := src; dst_ip := dst; reachable := true;
           hops := [eni_hop src src_eni; route_table_hop src_eni src_rt;
                    mk_hop 3 "tgw" (target r) "transit-gateway"
                      (ENIInfo.region src_eni) [];
                    mk_hop 4 "destination" (ENIInfo.eni_id dst_eni)
                      ("dst:" +:+ dst) (ENIInfo.region dst_eni) []];
           security_checks := []; blocked_at := None;
           blocked_reason := "" |},
        set_topology topo' e, w').
Proof.
  intros Hres Hbest Htgw Harn. run_to_route Hres.
  rewrite Hbest. cbn [rbind].
  assert (Hne : String.eqb (target r) "" = false).
  { destruct (target r); [done | done]. }
  assert (Hnl : String.eqb (target r) "local" = false).
  { apply String.eqb_neq. intros Heq. by rewrite Heq in Htgw. }
  rewrite Hnl, Harn, Hne, Htgw. reflexivity.
Qed.

(** X19. When the selected entry carries a core-network ARN, the same-VPC
    local branch does not apply, and no attachment gives the source VPC a
    non-empty segment at the source's edge, [trace] returns not reachable
    with the reason [Source VPC <vpc id> not attached to Cloud WAN], the
    interface and route-table hops only, and [blocked_at] unset. *)
Theorem trace_cloudwan_not_attached (e : AWSTraceroute) (w w' : World)
    (src dst : string) (src_eni dst_eni : ENIInfo.t)
    (src_rt : route_table) (topo' : NetworkTopology) (r : route) :
  resolved e w src dst src_eni dst_eni src_rt topo' w' ->
  _find_best_route (routes src_rt) dst = Ok (Some r) ->
  truthy (core_network_arn r) = true ->
  (target r <> "local" \/ ENIInfo.vpc_id src_eni <> ENIInfo.vpc_id dst_eni) ->
  truthy (_get_segment_for_vpc topo' (ENIInfo.vpc_id src_eni)
            (ENIInfo.region src_eni)) = false ->
  trace e w src dst
  = Ok ({| src_ip := src; dst_ip := dst; reachable := false;
           hops := [eni_hop src src_eni; route_table_hop src_eni src_rt];
           security_checks := []; blocked_at := None;
           blocked_reason :=
             "Source VPC " +:+ ENIInfo.vpc_id src_eni
             +:+ " not attached to Cloud WAN" |},
        set_topology topo' e, w').
Proof.
  intros Hres Hbest Harn Hnl Hseg. run_to_route Hres.
  rewrite Hbest. cbn [rbind].
  rewrite (not_local_branch _ _ _ Hnl), Harn.
  unfold _trace_via_cloudwan. rewrite Hseg. reflexivity.
Qed.

(** X20. When the selected entry carries a core-network ARN, the same-VPC
    local branch does not apply, the source VPC has the segment [seg] and
    no send-via action yields an inspection group for the pair of
    segments, [trace] returns reachable with the hops interface, route
    table, source segment, then a second segment hop for the destination's
    region exactly when the two regions differ (named [unknown] when the
    destination VPC has no segment), then the destination. *)
Theorem trace_cloudwan_direct (e : AWSTraceroute) (w w' : World)
    (src dst : string) (src_eni dst_eni : ENIInfo.t)
    (src_rt : route_table) (topo' : NetworkTopology) (r : route)
    (seg : string) :
  resolved e w src dst src_eni dst_eni src_rt topo' w' ->
  _find_best_route (routes src_rt) dst = Ok (Some r) ->
  truthy (core_network_arn r) = true ->
  (target r <> "local" \/ ENIInfo.vpc_id src_eni <> ENIInfo.vpc_id dst_eni) ->
  _get_segment_for_vpc topo' (ENIInfo.vpc_id src_eni)
    (ENIInfo.region src_eni) = Some seg ->
  seg <> "" ->
  let dst_segment :=
    _get_segment_for_vpc topo' (ENIInfo.vpc_id dst_eni)
      (ENIInfo.region dst_eni) in
  truthy (_get_send_via_nfg topo' seg dst_segment) = false ->
  exists res,
    trace e w src dst = Ok (res, set_topology topo' e, w') /\
    reachable res = true /\
    hops res
    = [eni_hop src src_eni; route_table_hop src_eni src_rt;
       mk_hop 3 "cloud_wan_segment" seg ("segment:" +:+ seg)
         (ENIInfo.region src_eni) []]
      ++ (if bool_decide (ENIInfo.region src_eni = ENIInfo.region dst_eni)
          then [mk_hop 4 "destination" (ENIInfo.eni_id dst_eni)
                  ("dst:" +:+ dst) (ENIInfo.region dst_eni)
                  [("vpc_id", Some (ENIInfo.vpc_id dst_eni));
                   ("segment", dst_segment)]]
          else [mk_hop 4 "cloud_wan_segment" (or_else dst_segment "unknown")
                  ("segment:" +:+ fmt_opt dst_segment +:+ "@"
                   +:+ ENIInfo.region dst_eni)
                  (ENIInfo.region dst_eni) [];
                mk_hop 5 "destination" (ENIInfo.eni_id dst_eni)
                  ("dst:" +:+ dst) (ENIInfo.region dst_eni)
                  [("vpc_id", Some (ENIInfo.vpc_id dst_eni));
                   ("segment", dst_segment)]]).
Proof.
  intros Hres Hbest Harn Hnl Hseg Hsegne dst_segment Hnfg. run_to_route Hres.
  rewrite Hbest. cbn [rbind].
  rewrite (not_local_branch _ _ _ Hnl), Harn.
  unfold _trace_via_cloudwan. rewrite Hseg.
  change (default "" (Some seg)) with seg.
  fold dst_segment. rewrite Hnfg.
  apply String.eqb_neq in Hsegne. cbn [truthy]. rewrite Hsegne. cbn [negb].
  destruct (String.eqb_spec (ENIInfo.region src_eni) (ENIInfo.region dst_eni))
    as [Heq|Hne].
  - rewrite bool_decide_eq_true_2 by done.
    eexists. split; [reflexivity|]. by split.
  - rewrite bool_decide_eq_false_2 by done.
    eexists. split; [reflexivity|]. by split.
Qed.

End TraceBranches.

Lemma loaded_resolved (topo : NetworkTopology) (src dst : string)
    (src_eni dst_eni : ENIInfo.t) (src_rt : route_table) :
  _find_eni_cached aws_offline topo src = Ok (Some src_eni, topo) ->
  _find_eni_cached aws_offline topo dst = Ok (Some dst_eni, topo) ->
  source_route_table aws_offline topo src_eni = Ok src_rt ->
  resolved (loaded_engine topo) offline_world src dst src_eni dst_eni src_rt
    topo offline_world.
Proof. intros Hs Hd Hrt. by exists topo, topo. Qed.

Lemma trace_via_transit_gateway_witness :
  let rs := [local_route "10.0.0.0/16"; eni_route "172.16.0.0/12" "tgw-0a1"] in
  let topo := sample_topology rs in
  trace (loaded_engine topo) offline_world "10.0.1.5" "172.16.0.1"
  = Ok ({| src_ip := "10.0.1.5"; dst_ip := "172.16.0.1"; reachable := true;
           hops := [eni_hop "10.0.1.5" info_a;
                    route_table_hop info_a (sample_route_table rs);
                    mk_hop 3 "tgw" "tgw-0a1" "transit-gateway" "eu-west-1" [];
                    mk_hop 4 "destination" "eni-d" "dst:172.16.0.1"
                      "eu-west-1" []];
           security_checks := []; blocked_at := None;
           blocked_reason := "" |},
        set_topology topo (loaded_engine topo), offline_world).
Proof.
  cbv zeta.
  apply (trace_via_transit_gateway
           (loaded_engine
              (sample_topology
                 [local_route "10.0.0.0/16";
                  eni_route "172.16.0.0/12" "tgw-0a1"]))
           offline_world offline_world "10.0.1.5" "172.16.0.1" info_a info_d
           (sample_route_table
              [local_route "10.0.0.0/16"; eni_route "172.16.0.0/12" "tgw-0a1"])
           (sample_topology
              [local_route "10.0.0.0/16"; eni_route "172.16.0.0/12" "tgw-0a1"])
           (eni_route "172.16.0.0/12" "tgw-0a1")).
  - apply sample_resolved; reflexivity.
  - reflexivity.
  - reflexivity.
  - reflexivity.
Defined.

Lemma trace_cloudwan_not_attached_witness :
  let rs := [local_route "10.0.0.0/16"; cloudwan_route "10.1.0.0/16"] in
  let topo := detached_topology rs in
  trace (loaded_engine topo) offline_world "10.0.1.5" "10.1.0.7"
  = Ok ({| src_ip := "10.0.1.5"; dst_ip := "10.1.0.7"; reachable := false;
           hops := [eni_hop "10.0.1.5" info_a;
                    route_table_hop info_a (sample_route_table rs)];
           security_checks := []; blocked_at := None;
           blocked_reason := "Source VPC vpc-1 not attached to Cloud WAN" |},
        set_topology topo (loaded_engine topo), offline_world).
Proof.
  cbv zeta.
  apply (trace_cloudwan_not_attached
           (loaded_engine
              (detached_topology
                 [local_route "10.0.0.0/16"; cloudwan_route "10.1.0.0/16"]))
           offline_world offline_world "10.0.1.5" "10.1.0.7" info_a info_c
           (sample_route_table
              [local_route "10.0.0.0/16"; cloudwan_route "10.1.0.0/16"])
           (detached_topology
              [local_route "10.0.0.0/16"; cloudwan_route "10.1.0.0/16"])
           (cloudwan_route "10.1.0.0/16")).
  - apply loaded_resolved; reflexivity.
  - reflexivity.
  - reflexivity.
  - right. discriminate.
  - reflexivity.
Defined.

Lemma trace_cloudwan_direct_witness :
  let rs := [local_route "10.0.0.0/16"; cloudwan_route "10.1.0.0/16"] in
  let topo := plain_topology rs in
  exists res,
    trace (loaded_engine topo) offline_world "10.0.1.5" "10.1.0.7"
    = Ok (res, set_topology topo (loaded_engine topo), offline_world) /\
    reachable res = true /\
    hops res
    = [eni_hop "10.0.1.5" info_a;
       route_table_hop info_a (sample_route_table rs);
       mk_hop 3 "cloud_wan_segment" "prod" "segment:prod" "eu-west-1" [];
       mk_hop 4 "destination" "eni-c" "dst:10.1.0.7" "eu-west-1"
         [("vpc_id", Some "vpc-2"); ("segment", Some "dev")]].
Proof.
  cbv zeta.
  apply (trace_cloudwan_direct
           (loaded_engine
              (plain_topology
                 [local_route "10.0.0.0/16"; cloudwan_route "10.1.0.0/16"]))
           offline_world offline_world "10.0.1.5" "10.1.0.7" info_a info_c
           (sample_route_table
              [local_route "10.0.0.0/16"; cloudwan_route "10.1.0.0/16"])
           (plain_topology
              [local_route "10.0.0.0/16"; cloudwan_route "10.1.0.0/16"])
           (cloudwan_route "10.1.0.0/16") "prod").
  - apply loaded_resolved; reflexivity.
  - reflexivity.
  - reflexivity.
  - right. discriminate.
  - reflexivity.
  - discriminate.
  - reflexivity.
Defined.

(** ** Address resolution *)

Lemma find_eni_in_region_some (a : Aws) (addr reg : string) (e : ENIInfo.t) :
  _find_eni_in_region a addr reg = Some e ->
  ENIInfo.ip e = addr /\ ENIInfo.region e = reg /\
  exists eni rest,
    describe_network_interfaces a reg addr = Ok (eni :: rest) /\
    ENIInfo.eni_id e = eni_NetworkInterfaceId eni.
Proof.
  unfold _find_eni_in_region.
  destruct (describe_network_interfaces a reg addr) as [[|eni rest]|];
    [done | | done].
  intros [= <-]. simpl. split_and!; [done | done |]. by exists eni, rest.
Qed.

Lemma find_eni_ordered_spec (a : Aws) (addr : string) (l : list string) :
  match find_eni_ordered a addr l with
  | Some e =>
      exists pre post,
        l = pre ++ ENIInfo.region e :: post /\
        Forall (fun p => _find_eni_in_region a addr p = None) pre /\
        _find_eni_in_region a addr (ENIInfo.region e) = Some e
  | None => Forall (fun p => _find_eni_in_region a addr p = None) l
  end.
Proof.
  induction l as [|reg l IH]; simpl; [done|].
  destruct (_find_eni_in_region a addr reg) as [e|] eqn:Hreg.
  - destruct (find_eni_in_region_some _ _ _ _ Hreg) as (_ & Hr & _).
    exists [], l. rewrite Hr. by split_and!.
  - destruct (find_eni_ordered a addr l) as [e|].
    + destruct IH as (pre & post & -> & Hpre & He).
      exists (reg :: pre), post. split_and!; [done | by constructor | done].
    + by constructor.
Qed.

Lemma find_eni_api_unfold (a : Aws) (topo : NetworkTopology) (addr : string) :
  _find_eni_api a topo addr
  = let* rs := search_regions a topo in
    match find_eni_ordered a addr (search_order rs) with
    | Some e =>
        Ok (Some e,
            set_eni_index
              (<[addr := {| eni_id := ENIInfo.eni_id e;
                            vpc_id := ENIInfo.vpc_id e;
                            subnet_id := ENIInfo.subnet_id e;
                            region := ENIInfo.region e;
                            security_groups := ENIInfo.security_groups e |}]>
                 (eni_index topo))
              topo)
    | None => Ok (None, topo)
    end.
Proof. reflexivity. Qed.

(** X21. An address that [_find_eni_cached] has resolved stays resolved:
    the record returned is for that address, and a second lookup in the
    snapshot the first one returned gives the same record without asking
    the API (it answers the same on any session, even one that is down)
    and leaves the snapshot as it is. The entries of other addresses are
    not touched. *)
Theorem find_eni_cached_sticks (a : Aws) (topo topo' : NetworkTopology)
    (addr : string) (e : ENIInfo.t) :
  _find_eni_cached a topo addr = Ok (Some e, topo') ->
  ENIInfo.ip e = addr /\
  (forall a', _find_eni_cached a' topo' addr = Ok (Some e, topo')) /\
  (forall other, other <> addr ->
     eni_index topo' !! other = eni_index topo !! other) /\
  regions topo' = regions topo /\ route_tables topo' = route_tables topo /\
  cwan_attachments topo' = cwan_attachments topo /\
  cwan_policy topo' = cwan_policy topo.
Proof.
  unfold _find_eni_cached.
  destruct (eni_index topo !! addr) as [d|] eqn:Hidx.
  - intros [= <- <-]. split_and!; try done.
    intros a'. by rewrite Hidx.
  - rewrite find_eni_api_unfold.
    destruct (search_regions a topo) as [rs|]; [|done]. cbn [rbind].
    pose proof (find_eni_ordered_spec a addr (search_order rs)) as Hspec.
    destruct (find_eni_ordered a addr (search_order rs)) as [e0|]; [|done].
    intros [= -> <-].
    destruct Hspec as (pre & post & _ & _ & He).
    apply find_eni_in_region_some in He as (Hip & _).
    split_and!; try done.
    + intros a'. simpl. rewrite lookup_insert_eq. simpl.
      rewrite <- Hip. by destruct e.
    + intros other Hne. simpl. by rewrite lookup_insert_ne.
Qed.

Lemma find_eni_cached_sticks_witness :
  exists e topo',
    _find_eni_cached aws_sample (sample_topology []) "10.0.2.4"
      = Ok (Some e, topo') /\
    ENIInfo.eni_id e = "eni-new" /\
    _find_eni_cached aws_offline topo' "10.0.2.4" = Ok (Some e, topo').
Proof.
  eexists _, _. split; [reflexivity|]. split; [reflexivity|].
  apply (find_eni_cached_sticks aws_sample (sample_topology []) _ "10.0.2.4" _
           eq_refl).
Defined.




(** ** The live route-table lookup *)

Lemma scan_associations_spec (subnet : string) (rt : aws_route_table)
    (assocs : list association) (main_rt : option aws_route_table) :
  scan_associations subnet rt assocs main_rt
  = if existsb (fun assoc => bool_decide (SubnetId assoc = Some subnet)) assocs
    then inl (_parse_route_table rt)
    else inr (if existsb Main assocs then Some rt else main_rt).
Proof.
  revert main_rt. induction assocs as [|assoc assocs IH]; intros main_rt;
    [done|].
  simpl. destruct (bool_decide (SubnetId assoc = Some subnet)); [done|].
  simpl. rewrite IH.
  destruct (existsb _ assocs); [done|].
  by destruct (Main assoc), (existsb Main assocs).
Qed.

Lemma scan_route_tables_spec (subnet : string) (rts : list aws_route_table) :
  forall main_rt,
    scan_route_tables subnet rts main_rt
    = match find (associated_with subnet) rts with
      | Some rt => _parse_route_table rt
      | None =>
          match last (filter (fun rt => is_main rt = true) rts), main_rt with
          | Some rt, _ => _parse_route_table rt
          | None, Some rt => _parse_route_table rt
          | None, None => unknown_route_table
          end
      end.
Proof.
  induction rts as [|rt rts IH]; intros main_rt.
  - simpl. by destruct main_rt.
  - cbn [scan_route_tables find]. rewrite scan_associations_spec.
    fold (associated_with subnet rt). fold (is_main rt).
    destruct (associated_with subnet rt); [done|].
    rewrite IH. destruct (find (associated_with subnet) rts); [done|].
    rewrite filter_cons.
    destruct (is_main rt) eqn:Hmain.
    + rewrite decide_True by done. rewrite last_cons.
      by destruct (last (filter _ rts)).
    + rewrite decide_False by done.
      by destruct (last (filter _ rts)).
Qed.

(** X23. The live route-table lookup answers with the parsed form of the
    first listed route table that has an association with the subnet;
    failing that, of the last listed route table that has a main
    association; failing that, with a table whose id is [unknown] and that
    has no routes. It raises only when the listing call raises. *)
Theorem get_subnet_route_table_choice (a : Aws) (reg vpc subnet : string) :
  match describe_route_tables a reg [vpc] with
  | Ok rts =>
      _get_subnet_route_table a reg vpc subnet
      = Ok match find (associated_with subnet) rts with
           | Some rt => _parse_route_table rt
           | None =>
               match last (filter (fun rt => is_main rt = true) rts) with
               | Some rt => _parse_route_table rt
               | None => unknown_route_table
               end
           end
  | Raise err => _get_subnet_route_table a reg vpc subnet = Raise err
  end.
Proof.
  unfold _get_subnet_route_table.
  destruct (describe_route_tables a reg [vpc]) as [rts|]; [|done].
  cbn [rbind]. rewrite scan_route_tables_spec.
  destruct (find _ rts); [done|]. by destruct (last _).
Qed.

Section LiveRouteTable.
Context `{!IpAddressLib}.

(** X24. When the snapshot has no route table for the source's subnet nor a
    main table for its VPC, and the live listing finds none either, the
    trace goes on with the empty table [unknown]: provided the destination
    parses as an address, it returns not reachable, blocked at the
    route-table hop, with the reason [No route to <dst> in route table
    unknown]. *)
Theorem trace_unknown_route_table (e : AWSTraceroute) (w w' : World)
    (topo topo1 topo' : NetworkTopology) (src dst : string)
    (src_eni dst_eni : ENIInfo.t) (rts : list aws_route_table) (d : ip_addr) :
  _ensure_topology e w = Ok (topo, w') ->
  _find_eni_cached (aws w') topo src = Ok (Some src_eni, topo1) ->
  _find_eni_cached (aws w') topo1 dst = Ok (Some dst_eni, topo') ->
  _get_route_table_cached topo' (ENIInfo.subnet_id src_eni)
    (ENIInfo.vpc_id src_eni) = None ->
  describe_route_tables (aws w') (ENIInfo.region src_eni)
    [ENIInfo.vpc_id src_eni] = Ok rts ->
  find (associated_with (ENIInfo.subnet_id src_eni)) rts = None ->
  filter (fun rt => is_main rt = true) rts = [] ->
  ip_address dst = Some d ->
  trace e w src dst
  = Ok ({| src_ip := src; dst_ip := dst; reachable := false;
           hops := [eni_hop src src_eni;
                    route_table_hop src_eni unknown_route_table];
           security_checks := [];
           blocked_at := Some (route_table_hop src_eni unknown_route_table);
           blocked_reason := "No route to " +:+ dst
                             +:+ " in route table unknown" |},
        set_topology topo' e, w').
Proof.
  intros Hens Hsrc Hdst Hcached Hlist Hfind Hmain Hd.
  unfold trace, trace_steps. rewrite Hens. cbn [rbind].
  rewrite Hsrc. cbn [rbind]. rewrite Hdst. cbn [rbind].
  unfold source_route_table. rewrite Hcached.
  unfold _get_subnet_route_table. rewrite Hlist. cbn [rbind].
  rewrite scan_route_tables_spec, Hfind, Hmain. cbn [last rbind].
  unfold _find_best_route. rewrite Hd. reflexivity.
Qed.

End LiveRouteTable.

Lemma trace_unknown_route_table_witness :
  let topo := sample_topology [] in
  let w := mk_world aws_one_region_down 0 Cache.Missing Cache.Missing in
  trace (loaded_engine topo) w "10.1.0.7" "10.0.1.5"
  = Ok ({| src_ip := "10.1.0.7"; dst_ip := "10.0.1.5"; reachable := false;
           hops := [eni_hop "10.1.0.7" info_c;
                    route_table_hop info_c unknown_route_table];
           security_checks := [];
           blocked_at := Some (route_table_hop info_c unknown_route_table);
           blocked_reason := "No route to 10.0.1.5 in route table unknown" |},
        set_topology topo (loaded_engine topo), w).
Proof.
  cbv zeta.
  apply (trace_unknown_route_table
           (loaded_engine (sample_topology []))
           (mk_world aws_one_region_down 0 Cache.Missing Cache.Missing)
           (mk_world aws_one_region_down 0 Cache.Missing Cache.Missing)
           (sample_topology []) (sample_topology []) (sample_topology [])
           "10.1.0.7" "10.0.1.5" info_c info_a []
           {| addr_version := IPv4; addr_ip := 167772421 |});
    reflexivity.
Defined.

(** ** Getting the snapshot ready *)

(** X25. With [refresh_cache] or [no_cache] set, an engine that holds no
    snapshot never serves a cached one: [_ensure_topology] is a fresh
    [discover] over all regions, run after the topology cache file has
    been deleted when [refresh_cache] is set. *)
Theorem ensure_topology_bypasses_cache (e : AWSTraceroute) (w : World) :
  _topology e = None ->
  _refresh_cache e = true \/ _no_cache e = true ->
  _ensure_topology e w
  = discover (if _refresh_cache e then clear_cache w else w) None.
Proof.
  intros Hnone Hflag. unfold _ensure_topology. rewrite Hnone.
  destruct (_no_cache e) eqn:Hnc; cbn [negb rbind]; [done|].
  destruct Hflag as [Hr | ?]; [|done]. rewrite Hr.
  destruct (get_caller_identity (aws w)) as [account|err] eqn:Hid.
  - unfold get_cached, _get_account_id.
    change (aws (clear_cache w)) with (aws w). rewrite Hid. cbn [rbind].
    change (topology_cache (clear_cache w))
      with (@Cache.Missing NetworkTopology).
    cbn [Cache.get rbind]. reflexivity.
  - unfold get_cached, discover, _get_account_id.
    change (aws (clear_cache w)) with (aws w). by rewrite Hid.
Qed.

Lemma ensure_topology_bypasses_cache_witness :
  let e := {| _no_cache := false; _refresh_cache := true;
              _skip_stale_check := true; _topology := None |} in
  let w := mk_world aws_sample 5
             (Cache.set (sample_topology []) None (Some "111122223333") 0 900)
             Cache.Missing in
  _ensure_topology e w = discover (clear_cache w) None.
Proof.
  cbv zeta.
  apply (ensure_topology_bypasses_cache
           {| _no_cache := false; _refresh_cache := true;
              _skip_stale_check := true; _topology := None |}
           (mk_world aws_sample 5
              (Cache.set (sample_topology []) None (Some "111122223333") 0 900)
              Cache.Missing)).
  - reflexivity.
  - left. reflexivity.
Defined.

Section LoadedEngine.
Context `{!IpAddressLib}.

(** X26. A [trace] call that returned leaves the engine holding a
    snapshot and its three flags as they were; from then on
    [_ensure_topology] answers with that snapshot in every world without
    touching it: no identity call, no cache read, no discovery. *)
Theorem trace_keeps_snapshot (e e' : AWSTraceroute) (w w' : World)
    (src dst : string) (res : TraceResult) :
  trace e w src dst = Ok (res, e', w') ->
  _no_cache e' = _no_cache e /\ _refresh_cache e' = _refresh_cache e /\
  _skip_stale_check e' = _skip_stale_check e /\
  exists topo,
    _topology e' = Some topo /\
    forall w2, _ensure_topology e' w2 = Ok (topo, w2).
Proof.
  unfold trace.
  destruct (_ensure_topology e w) as [[topo w1]|]; [|done]. cbn [rbind].
  destruct (trace_steps (aws w1) topo src dst) as [[res1 topo1]|]; [|done].
  cbn [rbind]. intros [= _ <- _].
  split_and!; try done. exists topo1. split; [done|].
  intros w2. reflexivity.
Qed.

End LoadedEngine.

Lemma trace_keeps_snapshot_witness :
  let e := {| _no_cache := true; _refresh_cache := false;
              _skip_stale_check := false; _topology := None |} in
  exists e',
    (exists res w',
       trace e sample_world "10.0.1.5" "10.0.1.9" = Ok (res, e', w')) /\
    (_no_cache e' = _no_cache e /\ _refresh_cache e' = _refresh_cache e /\
     _skip_stale_check e' = _skip_stale_check e /\
     exists topo,
       _topology e' = Some topo /\
       forall w2, _ensure_topology e' w2 = Ok (topo, w2)).
Proof.
  cbv zeta. eexists. split.
  - eexists _, _. vm_compute. reflexivity.
  - eapply (trace_keeps_snapshot
              {| _no_cache := true; _refresh_cache := false;
                 _skip_stale_check := false; _topology := None |}
              _ sample_world _ "10.0.1.5" "10.0.1.9").
    vm_compute. reflexivity.
Defined.

(** ** The Cloud WAN part of a snapshot *)

Lemma extend_attachments (pages : list (list attachment)) :
  forall t,
    let t' := fold_left
                (fun t0 page =>
                   set_cwan_attachments (cwan_attachments t0 ++ page) t0)
                pages t in
    cwan_attachments t' = cwan_attachments t ++ concat pages /\
    global_networks t' = global_networks t /\
    core_networks t' = core_networks t /\ cwan_policy t' = cwan_policy t.
Proof.
  induction pages as [|page pages IH]; intros t; simpl.
  - by rewrite app_nil_r.
  - destruct (IH (set_cwan_attachments (cwan_attachments t ++ page) t))
      as (-> & -> & -> & ->).
    simpl. by rewrite app_assoc.
Qed.

(** X27. In the snapshot of a [discover] call that returned, the Cloud WAN
    part is exactly what the service listed: the global networks, the core
    networks and, for the first core network only, its policy document and
    the attachments of all pages of its listing, concatenated in page
    order. Without a core network the policy is empty and there are no
    attachments, and neither call is made. *)
Theorem discover_cloudwan_content (w : World) (arg : option (list string))
    (t : NetworkTopology) (w' : World) :
  discover w arg = Ok (t, w') ->
  exists gns cns,
    describe_global_networks (aws w) = Ok gns /\
    list_core_networks (aws w) = Ok cns /\
    global_networks t = gns /\ core_networks t = cns /\
    match cns with
    | [] =>
        cwan_policy t = {| segment_actions := [] |} /\ cwan_attachments t = []
    | cn :: _ =>
        exists policy pages,
          get_core_network_policy (aws w) (CoreNetworkId cn) = Ok policy /\
          list_attachments_pages (aws w) (CoreNetworkId cn) = Ok pages /\
          cwan_policy t = PolicyDocument policy /\
          cwan_attachments t = concat pages
    end.
Proof.
  intros Hd.
  apply discover_steps in Hd
    as (account & rs & t1 & t2 & t3 & _ & _ & H1 & H2 & H3 & H4 & _).
  apply discover_tgws_frame in H2 as (_ & (Hg2 & Hc2 & Ha2 & Hp2) & _).
  apply discover_vpcs_frame in H3 as (_ & (Hg3 & Hc3 & Ha3 & Hp3) & _).
  apply build_eni_index_frame in H4 as (_ & (Hg4 & Hc4 & Ha4 & Hp4) & _).
  rewrite Hg4, Hg3, Hg2, Hc4, Hc3, Hc2, Ha4, Ha3, Ha2, Hp4, Hp3, Hp2.
  clear - H1. revert H1. unfold _discover_cloudwan.
  destruct (describe_global_networks (aws w)) as [gns|]; [|done].
  cbn [rbind].
  destruct (list_core_networks (aws w)) as [[|cn cns]|]; [| |done];
    cbn [rbind].
  { intros [= <-]. by exists gns, []. }
  destruct (get_core_network_policy (aws w) _) as [policy|] eqn:Hpol; [|done].
  cbn [rbind].
  destruct (list_attachments_pages (aws w) _) as [pages|] eqn:Hpages; [|done].
  cbn [rbind]. intros [= <-].
  exists gns, (cn :: cns).
  destruct (extend_attachments pages
              (set_cwan_policy (PolicyDocument policy)
                 (set_core_networks (cn :: cns)
                    (set_global_networks gns
                       (new_NetworkTopology account rs)))))
    as (-> & -> & -> & ->).
  split_and!; try done. by exists policy, pages.
Qed.

Lemma discover_cloudwan_content_witness :
  exists t w',
    discover sample_world None = Ok (t, w') /\
    cwan_policy t = sample_policy /\ cwan_attachments t = sample_attachments.
Proof.
  eexists _, _. split; [reflexivity|].
  destruct (discover_cloudwan_content sample_world None _ _ eq_refl)
    as (gns & cns & _ & Hcns & _ & _ & Hcontent).
  injection Hcns as <-.
  destruct Hcontent as (policy & pages & Hp & Hpages & -> & ->).
  injection Hp as <-. injection Hpages as <-. split; reflexivity.
Defined.

(** ** Detecting a change *)

(** X28. A changed transit-gateway count is never missed: when the saved
    markers record a count for a region that is among the first five
    regions checked, and that region's listing now answers with another
    number of transit gateways, the comparison against the current markers
    is stale (for that reason or for an earlier field's). *)
Theorem tgw_count_change_is_stale (a : Aws) (saved : ChangeMarkers)
    (rs : list string) (r : string) (sc : Z) (ts : list transit_gateway) :
  dict_get r (tgw_count saved) = Some sc ->
  r ∈ take 5 rs ->
  describe_transit_gateways a r = Ok ts ->
  Z.of_nat (length ts) <> sc ->
  fst (compare_markers saved (get_current_markers a (Some rs))) = true.
Proof.
  intros Hsaved Hin Hts Hne.
  assert (Hcur : dict_get r (tgw_count (get_current_markers a (Some rs)))
                 = Some (Z.of_nat (length ts))).
  { rewrite current_markers_unfold.
    destruct (markers_regions_counts a (take 5 (default [] (Some rs)))
                (markers_cloudwan a (new_ChangeMarkers None 0 None None)) r)
      as [-> _].
    simpl (default [] (Some rs)).
    rewrite bool_decide_eq_true_2 by done.
    unfold tgw_count_of. by rewrite Hts. }
  apply dict_get_elem_of in Hcur.
  unfold compare_markers.
  destruct (match cwan_policy_version _, cwan_policy_version saved with
            | Some c, Some s => negb (c =? s)%Z
            | _, _ => false
            end); [done|].
  destruct (_ && _ && _); [done|].
  pose proof (count_changed_spec "TGW" (tgw_count saved)
                (tgw_count (get_current_markers a (Some rs)))) as Hspec.
  destruct (count_changed "TGW" _ _); [done|].
  destruct (Hspec _ _ Hcur); congruence.
Qed.

Lemma tgw_count_change_is_stale_witness :
  fst (compare_markers
         (new_ChangeMarkers None 0 (Some [("eu-west-1", 0)]) None)
         (get_current_markers aws_one_region_down (Some ["eu-west-1"])))
  = true.
Proof.
  apply (tgw_count_change_is_stale aws_one_region_down
           (new_ChangeMarkers None 0 (Some [("eu-west-1", 0)]) None)
           ["eu-west-1"] "eu-west-1" 0 [{| TransitGatewayId := "tgw-0a1" |}]).
  - reflexivity.
  - apply list_elem_of_here.
  - reflexivity.
  - discriminate.
Defined.
